(** * WaveTransfer: the paired-audio data pipeline of [bddm/data_loader.py]

    A shallow embedding of the Pair Indexer ([NumpyDataset.__init__]), the
    Example Transform ([NumpyDataset.__getitem__]) and the Batch Collator
    ([Collator.collate]), with the properties the specification states
    about them.

    Python exceptions are values of [exn] carried by the [Result] monad,
    dictionaries are [gmap string _], tensors are a shape together with an
    indexing function, and [random.randint] is the finite uniform
    distribution it draws from. *)

From stdpp Require Import gmap strings list fin_maps pretty.
From Stdlib Require Import Ascii ZArith Lia QArith Qminmax Qabs.

Open Scope Z_scope.

(** ** Python exceptions and results *)

Inductive exn : Type :=
| ValueError (msg : string)
| AssertionError
| IndexError
| KeyError (key : string)
| TypeError
| RuntimeError
| OSError (file : string).

Inductive Result (A : Type) : Type :=
| Ok (a : A)
| Raise (e : exn).

Arguments Ok {A} a.
Arguments Raise {A} e.

#[global] Instance Result_ret : MRet Result := fun A a => Ok a.

#[global] Instance Result_bind : MBind Result := fun A B f m =>
  match m with
  | Ok a => f a
  | Raise e => Raise e
  end.

(** [assert c] *)
Definition assert (c : bool) : Result unit :=
  if c then Ok tt else Raise AssertionError.

(** [for x in xs: acc = body acc x], stopping at the first exception. *)
Fixpoint for_each {A S : Type} (body : S -> A -> Result S) (xs : list A) (acc : S)
  : Result S :=
  match xs with
  | [] => Ok acc
  | x :: xs' => acc' ← body acc x; for_each body xs' acc'
  end.

(** ** Strings and paths *)

Module Str.

(** [x[:-k]] for [k > 0]: everything but the last [k] characters, the
    empty string when [x] has at most [k] of them. *)
Definition drop_last (k : nat) (x : string) : string :=
  String.substring 0 (String.length x - k) x.

(** [s.split(sep)] for a one-character separator. *)
Fixpoint split (sep : ascii) (s : string) : list string :=
  match s with
  | EmptyString => [EmptyString]
  | String c s' =>
      if Ascii.eqb c sep then EmptyString :: split sep s'
      else match split sep s' with
           | [] => [String c EmptyString]
           | w :: ws => String c w :: ws
           end
  end.

Definition newline : ascii := Ascii.ascii_of_nat 10.

Definition starts_with_slash (s : string) : bool :=
  match s with
  | String c _ => Ascii.eqb c "/"%char
  | EmptyString => false
  end.

Fixpoint ends_with_slash (s : string) : bool :=
  match s with
  | EmptyString => false
  | String c EmptyString => Ascii.eqb c "/"%char
  | String _ s' => ends_with_slash s'
  end.

(** [os.path.join(a, b)] of posixpath. *)
Definition path_join (a b : string) : string :=
  if starts_with_slash b then b
  else if (String.length a =? 0)%nat || ends_with_slash a then a +:+ b
  else a +:+ "/" +:+ b.

(** [str(i)] of an integer: its decimal numeral. *)
Definition of_int (i : Z) : string := pretty i.

End Str.

(** ** Configuration: the fields of [params] the loader reads

    [hop_samples] is a tensor size ([torch.zeros(hop_samples)]), hence a
    natural number; the other integers are signed, as nothing in the
    loader bounds them. *)

Record Params : Type := mkParams {
  sample_rate : Z;
  hop_samples : nat;
  crop_mel_frames : Z;
  train_mixtures : bool
}.

(** Truthiness of an optional integer: [None] and [0] are falsy. *)
Definition truthy (o : option Z) : bool :=
  match o with
  | None => false
  | Some z => negb (z =? 0)
  end.

(** [override if override else params.crop_mel_frames] *)
Definition crop_frames (override : option Z) (params : Params) : Z :=
  if truthy override then default (crop_mel_frames params) override
  else crop_mel_frames params.

(** ** Tensors

    A tensor is its shape and its entries, read at a multi-index.  The
    sample arithmetic of torch (32-bit floats) is kept abstract. *)

Class Samples : Type := {
  sample : Type;
  s_zero : sample;
  s_abs : sample -> sample;
  s_max : sample -> sample -> sample;
  s_div : sample -> sample -> sample;
  s_mul : sample -> sample -> sample;
  (** the constants [1e-12] and [0.95] *)
  s_eps : sample;
  s_peak : sample
}.

Module Tensor.

Section Ops.
Context `{Samples}.

Record t : Type := mk {
  shape : list nat;
  item : list nat -> sample
}.

(** [len(x)] *)
Definition len (x : t) : Result nat :=
  match shape x with
  | [] => Raise TypeError
  | n :: _ => Ok n
  end.

(** [x.shape[0]] *)
Definition shape0 (x : t) : Result nat :=
  match shape x with
  | [] => Raise IndexError
  | n :: _ => Ok n
  end.

(** [torch.zeros(n)] *)
Definition zeros (n : nat) : t := mk [n] (fun _ => s_zero).

(** [x.squeeze(0)]: drops the leading dimension when it is 1. *)
Definition squeeze0 (x : t) : t :=
  match shape x with
  | 1%nat :: s => mk s (fun idx => item x (0%nat :: idx))
  | _ => x
  end.

(** [x.T]: the dimensions reversed. *)
Definition T (x : t) : t := mk (rev (shape x)) (fun idx => item x (rev idx)).

(** A bound of a Python slice over [n] elements: a negative bound counts
    from the end, and both are clamped to [0, n]. *)
Definition slice_bound (n i : Z) : Z :=
  if i <? 0 then Z.max (i + n) 0 else Z.min i n.

(** The entries [start:stop] of [x], whose shape is [n :: s], along the
    leading dimension. *)
Definition window (x : t) (n : nat) (s : list nat) (start stop : Z) : t :=
  let lo := slice_bound (Z.of_nat n) start in
  let hi := slice_bound (Z.of_nat n) stop in
  mk (Z.to_nat (hi - lo) :: s)
    (fun idx => match idx with
                | [] => item x []
                | k :: r => item x ((Z.to_nat lo + k)%nat :: r)
                end).

(** [x[start:stop]] *)
Definition slice (x : t) (start stop : Z) : Result t :=
  match shape x with
  | [] => Raise IndexError
  | n :: s => Ok (window x n s start stop)
  end.

Definition atleast_1d (x : t) : t :=
  match shape x with
  | [] => mk [1%nat] (fun _ => item x [])
  | _ => x
  end.

(** [torch.hstack([a, b])]: concatenation along the first dimension of
    one-dimensional tensors, along the second otherwise; an empty
    one-dimensional operand is skipped. *)
Definition hstack (a b : t) : Result t :=
  let a := atleast_1d a in
  let b := atleast_1d b in
  match shape a, shape b with
  | [n], [m] =>
      Ok (mk [(n + m)%nat]
            (fun idx => match idx with
                        | [] => s_zero
                        | k :: r => if (k <? n)%nat then item a (k :: r)
                                    else item b ((k - n)%nat :: r)
                        end))
  | _ :: _ :: _, [0%nat] => Ok a
  | [0%nat], _ :: _ :: _ => Ok b
  | d :: n :: s, d' :: m :: s' =>
      if bool_decide (d = d' /\ s = s') then
        Ok (mk (d :: (n + m)%nat :: s)
              (fun idx => match idx with
                          | i :: k :: r => if (k <? n)%nat then item a (i :: k :: r)
                                           else item b (i :: (k - n)%nat :: r)
                          | _ => s_zero
                          end))
      else Raise RuntimeError
  | _, _ => Raise RuntimeError
  end.

(** The infinity norm of the row of [x] at [prefix], along the last
    dimension. *)
Definition norm_inf (x : t) (prefix : list nat) : sample :=
  foldr (fun k acc => s_max (s_abs (item x (prefix ++ [k]))) acc) s_zero
    (seq 0 (List.last (shape x) 0%nat)).

(** [x / norm.clamp_min(eps)]: each entry divided by the larger of the
    norm of its row and [1e-12]. *)
Definition div_norm (x : t) : t :=
  mk (shape x)
    (fun idx => s_div (item x idx) (s_max (norm_inf x (removelast idx)) s_eps)).

(** [torch.nn.functional.normalize(x, p=float('inf'), dim=-1, eps=1e-12)]:
    the infinity norm has no identity, and taking it along an empty last
    dimension raises. *)
Definition normalize (x : t) : Result t :=
  match List.last (shape x) 1%nat with
  | 0%nat => Raise RuntimeError
  | _ => Ok (div_norm x)
  end.

(** [x * c] *)
Definition mul (x : t) (c : sample) : t :=
  mk (shape x) (fun idx => s_mul (item x idx) c).

(** [torch.stack(xs)]: a new leading dimension; the tensors must be of
    one shape and the list non-empty. *)
Definition stack (xs : list t) : Result t :=
  match xs with
  | [] => Raise RuntimeError
  | x :: _ =>
      if forallb (fun y => bool_decide (shape y = shape x)) xs then
        Ok (mk (length xs :: shape x)
              (fun idx => match idx with
                          | [] => s_zero
                          | b :: r => match xs !! b with
                                      | Some y => item y r
                                      | None => s_zero
                                      end
                          end))
      else Raise RuntimeError
  end.

End Ops.

End Tensor.

(** Python values held by the records of the loader. *)
Inductive value `{Samples} : Type :=
| VNone
| VTensor (x : Tensor.t).

(** ** Randomness

    [Rand A] lists the equally likely outcomes of a computation that may
    draw from [random]; a computation that draws once, as the transform
    does, lists one outcome per value drawn. *)

Record Rand (A : Type) : Type := mkRand { outcomes : list (Result A) }.

Arguments mkRand {A} outcomes.
Arguments outcomes {A} r.

#[global] Instance Rand_ret : MRet Rand := fun A a => mkRand [Ok a].

#[global] Instance Rand_bind : MBind Rand := fun A B f m =>
  mkRand (flat_map (fun r => match r with
                             | Ok a => outcomes (f a)
                             | Raise e => [Raise e]
                             end) (outcomes m)).

(** A computation that draws nothing. *)
Definition det {A : Type} (r : Result A) : Rand A := mkRand [r].

Module random.

(** [random.randint(a, b)]: uniform over [a, a+1, ..., b], both ends
    included. *)
Definition randint (a b : Z) : Rand Z :=
  if b <? a then det (Raise (ValueError "empty range for randrange()"))
  else mkRand (map (fun k => Ok (a + Z.of_nat k)) (seq 0 (Z.to_nat (b - a + 1)))).

End random.

(** ** The collaborators of the transform *)

Class Torchaudio `{Samples} : Type := {
  (** [torchaudio.load(filename)]: the decoded tensor and its sample rate *)
  torchaudio_load : string -> Result (Tensor.t * Z)
}.

Class Preprocess `{Samples} : Type := {
  (** [get_spec(audio, params)] of [preprocess], which may raise *)
  get_spec : Tensor.t -> Params -> Result Tensor.t
}.

(** ** The file system the indexer reads *)

Class FileSystem : Type := {
  (** [glob(pattern, recursive=True)] *)
  glob : string -> list string;
  (** [open(f, 'r', encoding='utf-8').read()] *)
  read_text : string -> Result string
}.

(** ** Pair Indexer *)

Module NumpyDataset.

Record t : Type := mk {
  params : Params;
  is_training : bool;
  filenames : list (string * string);
  crop_mel : option Z
}.

(** The Instrument-Pair Index of line 36. *)
Definition indices (params : Params) : list (Z * Z) :=
  if train_mixtures params then [(0, 3); (3, 0)]
  else [(0, 3); (3, 0); (1, 4); (4, 1); (2, 5); (5, 2)].

(** [[(f'{base}.{i}.wav', f'{base}.{j}.wav') for i, j in indices]] *)
Definition scan_pairs (indices : list (Z * Z)) (base_filename : string)
  : list (string * string) :=
  map (fun '(i, j) =>
         (base_filename +:+ "." +:+ Str.of_int i +:+ ".wav",
          base_filename +:+ "." +:+ Str.of_int j +:+ ".wav")) indices.

(** The loop of lines 43-48 over the globbed file names; the state is
    [(seen, self.filenames)]. *)
Fixpoint scan_loop (indices : list (Z * Z)) (xs : list string)
  (seen : gset string) (acc : list (string * string)) : list (string * string) :=
  match xs with
  | [] => acc
  | x :: xs' =>
      let base_filename := Str.drop_last 6 x in
      if decide (base_filename ∈ seen) then scan_loop indices xs' seen acc
      else scan_loop indices xs' ({[base_filename]} ∪ seen)
             (acc ++ scan_pairs indices base_filename)
  end.

(** [[(os.path.join(path, x + f'.{i}.wav'), os.path.join(path, x + f'.{j}.wav'))
      for i, j in indices]] *)
Definition listed_pairs (indices : list (Z * Z)) (path x : string)
  : list (string * string) :=
  map (fun '(i, j) =>
         (Str.path_join path (x +:+ "." +:+ Str.of_int i +:+ ".wav"),
          Str.path_join path (x +:+ "." +:+ Str.of_int j +:+ ".wav"))) indices.

(** The loop of lines 53-58 over the lines of one list file. *)
Fixpoint lines_loop (indices : list (Z * Z)) (path : string) (xs : list string)
  (acc : list (string * string)) : list (string * string) :=
  match xs with
  | [] => acc
  | x :: xs' =>
      if (0 <? String.length x)%nat
      then lines_loop indices path xs' (acc ++ listed_pairs indices path x)
      else lines_loop indices path xs' acc
  end.

Section Init.
Context `{FileSystem}.

(** The files found by the globs of lines 41-42, in order. *)
Fixpoint glob_all (paths : list string) (acc : list string) : list string :=
  match paths with
  | [] => acc
  | path :: paths' => glob_all paths' (acc ++ glob (path +:+ "/**/*.wav"))
  end.

(** [not files]: no list was given, or an empty one. *)
Definition no_files (files : option (list string)) : bool :=
  match files with
  | None | Some [] => true
  | Some (_ :: _) => false
  end.

Definition __init__ (paths : list string) (files : option (list string))
  (params : Params) (crop_mel : option Z) (is_training : bool) : Result t :=
  let indices := indices params in
  if no_files files then
    let filenames := glob_all paths [] in
    Ok (mk params is_training (scan_loop indices filenames ∅ []) crop_mel)
  else
    let files := default [] files in
    _ ← assert (length files =? length paths)%nat;
    names ← for_each (fun acc '(path, f) =>
                        text ← read_text f;
                        Ok (lines_loop indices path (Str.split Str.newline text) acc))
              (zip paths files) [];
    Ok (mk params is_training names crop_mel).

End Init.


Section Getitem.
Context `{Samples} `{!Torchaudio} `{!Preprocess}.

(** The message of line 72. *)
Definition invalid_sample_rate (sr1 sr2 rate : Z) : string :=
  "Invalid sample rate: sr1 = " +:+ Str.of_int sr1 +:+ " and sr2 = " +:+ Str.of_int sr2
  +:+ " while sample rate in params is " +:+ Str.of_int rate +:+ ".".

(** Lines 68-74: decode both files, check the sample rates, then the
    shapes. *)
Definition load_pair (params : Params) (audio_filenames : string * string)
  : Result (Tensor.t * Tensor.t) :=
  let '(instrument1_filename, instrument2_filename) := audio_filenames in
  '(signal1, sr1) ← torchaudio_load instrument1_filename;
  '(signal2, sr2) ← torchaudio_load instrument2_filename;
  if negb (sample_rate params =? sr1) || negb (sample_rate params =? sr2)
  then Raise (ValueError (invalid_sample_rate sr1 sr2 (sample_rate params)))
  else
    _ ← assert (bool_decide (Tensor.shape signal1 = Tensor.shape signal2));
    c1 ← Tensor.shape0 signal1;
    _ ← (if (c1 =? 1)%nat
         then c2 ← Tensor.shape0 signal2; assert (c2 =? 1)%nat
         else Raise AssertionError);
    Ok (signal1, signal2).

(** Lines 76-79: peak normalisation to 0.95, then [squeeze(0)]. *)
Definition prepare (signal : Tensor.t) : Result Tensor.t :=
  signal ← Tensor.normalize signal;
  Ok (Tensor.squeeze0 (Tensor.mul signal s_peak)).

(** Lines 83-88: the shared random crop. *)
Definition crop (crop_mel : Z) (hop_samples : nat) (signal1 signal2 : Tensor.t)
  : Rand (Tensor.t * Tensor.t) :=
  n ← det (Tensor.shape0 signal1);
  if (crop_mel - 1) * Z.of_nat hop_samples <=? Z.of_nat n then
    start ← random.randint 0 (Z.of_nat n - (crop_mel - 1) * Z.of_nat hop_samples);
    let end_ := start + (crop_mel - 1) * Z.of_nat hop_samples in
    signal1 ← det (Tensor.slice signal1 start end_);
    signal2 ← det (Tensor.slice signal2 start end_);
    mret (signal1, signal2)
  else mret (signal1, signal2).

(** Lines 90-93: [try: get_spec(...) except Exception: None]. *)
Definition try_get_spec (signal1 : Tensor.t) (params : Params) : option Tensor.t :=
  match get_spec signal1 params with
  | Ok spectrogram => Some spectrogram
  | Raise _ => None
  end.

(** Lines 90-101: extraction, padding and the returned record. *)
Definition pack (params : Params) (signals : Tensor.t * Tensor.t)
  : Result (gmap string value) :=
  let '(signal1, signal2) := signals in
  let spectrogram := try_get_spec signal1 params in
  signal2 ← Tensor.hstack signal2 (Tensor.zeros (hop_samples params));
  signal1 ← Tensor.hstack signal1 (Tensor.zeros (hop_samples params));
  let spectrogram :=
    match spectrogram with
    | Some spectrogram => VTensor (Tensor.T (Tensor.squeeze0 spectrogram))
    | None => VNone
    end in
  Ok (<["audio" := VTensor signal2]>
      (<["spectrogram" := spectrogram]>
       (<["audio_cond_inst" := VTensor signal1]> ∅))).

(** The transform on one Training Example. *)
Definition transform (self : t) (audio_filenames : string * string)
  : Rand (gmap string value) :=
  '(signal1, signal2) ← det (load_pair (params self) audio_filenames);
  signal1 ← det (prepare signal1);
  signal2 ← det (prepare signal2);
  let crop_mel := crop_frames (crop_mel self) (params self) in
  signals ← crop crop_mel (hop_samples (params self)) signal1 signal2;
  det (pack (params self) signals).

(** [self.filenames[idx]] for the indices a sampler passes, then the
    transform. *)
Definition __getitem__ (self : t) (idx : nat) : Rand (gmap string value) :=
  audio_filenames ← det (match filenames self !! idx with
                         | Some names => Ok names
                         | None => Raise IndexError
                         end);
  transform self audio_filenames.

End Getitem.

Definition __len__ (self : t) : nat := length (filenames self).

End NumpyDataset.

(** ** Batch Collator *)

Module Collator.

Record t : Type := mk {
  params : Params;
  is_training : bool;
  crop_mel : option Z
}.

Section Collate.
Context `{Samples}.

(** [record[key]] *)
Definition getitem (record : gmap string value) (key : string) : Result value :=
  match record !! key with
  | Some v => Ok v
  | None => Raise (KeyError key)
  end.

(** [del record[key]] *)
Definition delitem (record : gmap string value) (key : string)
  : Result (gmap string value) :=
  match record !! key with
  | Some _ => Ok (delete key record)
  | None => Raise (KeyError key)
  end.

(** Lines 116-119: the three fields of an excluded record are deleted. *)
Definition drop (record : gmap string value) : Result (gmap string value) :=
  record ← delitem record "spectrogram";
  record ← delitem record "audio";
  delitem record "audio_cond_inst".

(** Lines 121-123: the spectrogram of a retained record is transposed
    back, the waveforms are stored as they are. *)
Definition keep (record : gmap string value) (spectrogram : Tensor.t)
  : Result (gmap string value) :=
  let record := <["spectrogram" := VTensor (Tensor.T spectrogram)]> record in
  audio ← getitem record "audio";
  let record := <["audio" := audio]> record in
  audio_cond_inst ← getitem record "audio_cond_inst";
  Ok (<["audio_cond_inst" := audio_cond_inst]> record).

(** The body of the loop of lines 113-123 on one record; the test of
    line 115 is [spectrogram is None or len(spectrogram) < crop_mel]. *)
Definition filter_record (crop_mel : Z) (record : gmap string value)
  : Result (gmap string value) :=
  spectrogram ← getitem record "spectrogram";
  match spectrogram with
  | VNone => drop record
  | VTensor x =>
      n ← Tensor.len x;
      if Z.of_nat n <? crop_mel then drop record else keep record x
  end.

(** The loop of lines 113-123; the records are distinct objects, one per
    dataset access. *)
Fixpoint filter_records (crop_mel : Z) (minibatch : list (gmap string value))
  : Result (list (gmap string value)) :=
  match minibatch with
  | [] => Ok []
  | record :: rest =>
      record' ← filter_record crop_mel record;
      rest' ← filter_records crop_mel rest;
      Ok (record' :: rest')
  end.

(** [[record[key] for record in minibatch if key in record]] *)
Definition column (key : string) (minibatch : list (gmap string value)) : list value :=
  omap (fun record => record !! key) minibatch.

(** [torch.stack] of a list of values, which must all be tensors. *)
Definition stack_values (vs : list value) : Result Tensor.t :=
  xs ← for_each (fun acc v => match v with
                              | VTensor x => Ok (acc ++ [x])
                              | VNone => Raise TypeError
                              end) vs [];
  Tensor.stack xs.

(** [not record] *)
Definition is_empty (record : gmap string value) : bool := (size record =? 0)%nat.

Definition collate (self : t) (minibatch : list (gmap string value))
  : Result (option (gmap string value)) :=
  let crop_mel := crop_frames (crop_mel self) (params self) in
  minibatch ← filter_records crop_mel minibatch;
  if forallb is_empty minibatch then Ok None
  else
    audio ← stack_values (column "audio" minibatch);
    audio_cond_inst ← stack_values (column "audio_cond_inst" minibatch);
    spectrogram ← stack_values (column "spectrogram" minibatch);
    Ok (Some (<["audio" := VTensor audio]>
              (<["spectrogram" := VTensor spectrogram]>
               (<["audio_cond_inst" := VTensor audio_cond_inst]> ∅)))).

End Collate.

End Collator.

(** ** Pipeline Factory *)

(** [torch.utils.data.DataLoader], as the keyword arguments it is built
    from. *)
Module DataLoader.

Inductive Sampler : Type :=
| DistributedSampler (dataset : NumpyDataset.t).

Record t : Type := mk {
  dataset : NumpyDataset.t;
  batch_size : Z;
  collate_fn : Collator.t;
  shuffle : bool;
  sampler : option Sampler;
  pin_memory : bool;
  drop_last : bool;
  num_workers : Z
}.

End DataLoader.

Section Factory.
Context `{FileSystem}.

(** Lines 137-148; the first component is the line printed. *)
Definition from_path (data_dirs : list string) (training_files : option (list string))
  (params : Params) (batch_size num_workers : Z) (is_distributed : bool)
  : Result (string * DataLoader.t) :=
  dataset ← NumpyDataset.__init__ data_dirs training_files params None true;
  let printed :=
    Str.of_int (Z.of_nat (NumpyDataset.__len__ dataset)) +:+ " files for training" in
  Ok (printed,
      DataLoader.mk dataset batch_size (Collator.mk params true None)
        (negb is_distributed)
        (if is_distributed then Some (DataLoader.DistributedSampler dataset) else None)
        false true num_workers).

(** Lines 150-160. *)
Definition from_path_valid (data_dirs : list string)
  (validation_files : option (list string)) (params : Params) (num_workers : Z)
  (crop_mel : option Z) (is_distributed : bool) : Result DataLoader.t :=
  dataset ← NumpyDataset.__init__ data_dirs validation_files params crop_mel false;
  Ok (DataLoader.mk dataset 1 (Collator.mk params false crop_mel)
        false
        (if is_distributed then Some (DataLoader.DistributedSampler dataset) else None)
        false false num_workers).

End Factory.

(** ** The launcher of [main.py] *)

Module Main.

(** What [main] asks of the world around it. *)
Inductive call : Type :=
| Print (line : string)
| Makedirs (dir : string)
| Copy (src dst : string)
| DeviceCount
| GetFreePort
| Spawn (nprocs port batch_size : Z)
| Train (batch_size : Z).

(** The answer of the world to each call: the value returned, or the
    exception raised. *)
Class Runtime : Type := { answer : call -> Result Z }.

(** A run: the calls made so far, in order, and the result. *)
Record IO (A : Type) : Type := mkIO { trace : list call; result : Result A }.

Arguments mkIO {A} trace result.
Arguments trace {A} i.
Arguments result {A} i.

#[global] Instance IO_ret : MRet IO := fun A a => mkIO [] (Ok a).

#[global] Instance IO_bind : MBind IO := fun A B f m =>
  match result m with
  | Ok a => mkIO (trace m ++ trace (f a)) (result (f a))
  | Raise e => mkIO (trace m) (Raise e)
  end.

Definition perform `{Runtime} (c : call) : IO Z := mkIO [c] (answer c).

Definition raise {A : Type} (e : exn) : IO A := mkIO [] (Raise e).

(** The message of line 40. *)
Definition not_divisible (batch_size replica_count : Z) : string :=
  "Batch size " +:+ Str.of_int batch_size +:+ " is not evenly divisble by # GPUs "
  +:+ Str.of_int replica_count +:+ ".".

(** Lines 33-45, on [args.model_dir] and [params.batch_size]; the value
    returned is [params.batch_size] as the run leaves it. *)
Definition main `{Runtime} (model_dir : string) (batch_size : Z) : IO Z :=
  _ ← perform (Print "Dumping hyperparameter file...");
  _ ← perform (Makedirs model_dir);
  _ ← perform (Copy "params.py" (Str.path_join model_dir "params_saved.py"));
  replica_count ← perform DeviceCount;
  if 1 <? replica_count then
    if negb (batch_size mod replica_count =? 0)
    then raise (ValueError (not_divisible batch_size replica_count))
    else
      let batch_size := batch_size / replica_count in
      port ← perform GetFreePort;
      _ ← perform (Spawn replica_count port batch_size);
      mret batch_size
  else
    _ ← perform (Train batch_size);
    mret batch_size.

End Main.

(** ** The specification's vocabulary *)

(** Deduplication in which the first occurrence wins and the order of
    first occurrences is kept. *)
Fixpoint first_occurrences (l : list string) : list string :=
  match l with
  | [] => []
  | x :: l' => x :: filter (fun y => y ≠ x) (first_occurrences l')
  end.

(** The group stem of an audio file: its name without the trailing
    instrument tag and extension, six characters as in [.0.wav]. *)
Definition group_stem (file : string) : string := Str.drop_last 6 file.

(** [<stem>.<tag>.wav] *)
Definition tagged (stem : string) (tag : Z) : string :=
  stem +:+ "." +:+ Str.of_int tag +:+ ".wav".

(** Every audio file under the roots, root by root. *)
Definition scanned `{FileSystem} (paths : list string) : list string :=
  flat_map (fun path => glob (path +:+ "/**/*.wav")) paths.

(** The contents of the list files, read in order; the first file that
    cannot be read raises. *)
Fixpoint read_all `{FileSystem} (files : list string) : Result (list string) :=
  match files with
  | [] => Ok []
  | f :: files' =>
      text ← read_text f;
      texts ← read_all files';
      Ok (text :: texts)
  end.

(** The lines of a list file that are not empty. *)
Definition nonempty_lines (text : string) : list string :=
  filter (fun x => x ≠ EmptyString) (Str.split Str.newline text).

(** The index of mode (b): directory [k] with the stems listed by file
    [k], each stem expanded by the pair list. *)
Definition listed_index (indices : list (Z * Z)) (paths texts : list string)
  : list (string * string) :=
  concat (zip_with (fun path text =>
                      flat_map (fun x =>
                                  map (fun '(i, j) =>
                                         (Str.path_join path (tagged x i),
                                          Str.path_join path (tagged x j))) indices)
                        (nonempty_lines text)) paths texts).

(** [w] is the window of [len] samples of the waveform [x] that starts at
    sample [start]: entry [k] of [w] is entry [start + k] of [x]. *)
Definition is_window `{Samples} (w x : Tensor.t) (start len : nat) : Prop :=
  Tensor.shape w = [len] /\
  forall k : nat, (k < len)%nat -> Tensor.item w [k] = Tensor.item x [(start + k)%nat].

(** The Transformed Example of the data model. *)
Record Example `{Samples} : Type := mkExample {
  audio : Tensor.t;
  spectrogram : option Tensor.t;
  audio_cond_inst : Tensor.t
}.

(** The record the transform returns for a Transformed Example. *)
Definition as_record `{Samples} (ex : Example) : gmap string value :=
  <["audio" := VTensor (audio ex)]>
  (<["spectrogram" := match spectrogram ex with
                      | Some x => VTensor x
                      | None => VNone
                      end]>
   (<["audio_cond_inst" := VTensor (audio_cond_inst ex)]> ∅)).

(** The time-length of a time-major spectrogram: its leading dimension. *)
Definition time_length `{Samples} (x : Tensor.t) : option nat := head (Tensor.shape x).

(** An example is excluded when its spectrogram is absent or has a
    time-length below the crop length. *)
Definition excluded `{Samples} (crop_mel : Z) (ex : Example) : bool :=
  match spectrogram ex with
  | None => true
  | Some x =>
      match time_length x with
      | Some n => Z.of_nat n <? crop_mel
      | None => false
      end
  end.

(** The three tensors [(audio, spectrogram, audio_cond_inst)] of an
    example that survives the filter. *)
Definition survivor `{Samples} (crop_mel : Z) (ex : Example)
  : option (Tensor.t * Tensor.t * Tensor.t) :=
  if excluded crop_mel ex then None
  else x ← spectrogram ex; Some (audio ex, x, audio_cond_inst ex).

(** The examples that survive the filter, in order. *)
Definition survivors `{Samples} (crop_mel : Z) (exs : list Example)
  : list (Tensor.t * Tensor.t * Tensor.t) :=
  omap (survivor crop_mel) exs.

(** The spectrogram of an example is a scalar tensor, which has no
    length. *)
Definition scalar_spectrogram `{Samples} (ex : Example) : bool :=
  match spectrogram ex with
  | Some x => bool_decide (Tensor.shape x = [])
  | None => false
  end.

(** What the loop of the collator leaves of an example's record: nothing
    of an excluded one, and of a retained one the record with its
    spectrogram transposed back. *)
Definition filtered `{Samples} (crop_mel : Z) (ex : Example) : gmap string value :=
  if excluded crop_mel ex then ∅
  else as_record {| audio := audio ex;
                    spectrogram := Tensor.T <$> spectrogram ex;
                    audio_cond_inst := audio_cond_inst ex |}.

(** The record of a Batch. *)
Definition batch_record `{Samples} (a x c : Tensor.t) : gmap string value :=
  <["audio" := VTensor a]>
  (<["spectrogram" := VTensor x]>
   (<["audio_cond_inst" := VTensor c]> ∅)).

(** The reading of the batch invariant under which the filter lets
    through only spectrograms of exactly the crop length. *)
Definition stacked_at_crop_length `{Samples} (self : Collator.t) (exs : list Example)
  : Prop :=
  let crop_mel := crop_frames (Collator.crop_mel self) (Collator.params self) in
  forall batch, Collator.collate self (map as_record exs) = Ok (Some batch) ->
    forall e, e ∈ survivors crop_mel exs ->
      exists n : nat, time_length e.1.2 = Some n /\ Z.of_nat n = crop_mel.

(** What lines 76-79 make of a recording whose normalisation does not
    raise: its rows scaled to a peak of 0.95, the leading dimension
    squeezed. *)
Definition prepared `{Samples} (x : Tensor.t) : Tensor.t :=
  Tensor.squeeze0 (Tensor.mul (Tensor.div_norm x) s_peak).

(** The calls every run of the launcher begins with, in order. *)
Definition preamble (model_dir : string) : list Main.call :=
  [Main.Print "Dumping hyperparameter file..."; Main.Makedirs model_dir;
   Main.Copy "params.py" (Str.path_join model_dir "params_saved.py"); Main.DeviceCount].

(** ** Fixtures *)

Definition lf : string := String Str.newline EmptyString.

Definition demo_list : string := "songA" +:+ lf +:+ lf +:+ "songB" +:+ lf.

(** One group [songA] with its six instrument files under [data], found
    twice over, and a list file naming two stems around an empty line. *)
#[local] Instance demo_fs : FileSystem := {|
  glob := fun pattern =>
    if String.eqb pattern "data/**/*.wav"
    then ["data/songA.0.wav"; "data/songA.1.wav"; "data/songA.2.wav";
          "data/songA.3.wav"; "data/songA.4.wav"; "data/songA.5.wav"]
    else [];
  read_text := fun f =>
    if String.eqb f "train.txt" then Ok demo_list
    else Raise (OSError f)
|}.

Definition demo_params : Params :=
  {| sample_rate := 16000; hop_samples := 4; crop_mel_frames := 3;
     train_mixtures := false |}.

(** Rational samples. *)
#[local] Instance Q_samples : Samples := {|
  sample := Q;
  s_zero := 0%Q;
  s_abs := Qabs;
  s_max := Qmax;
  s_div := Qdiv;
  s_mul := Qmult;
  s_eps := (1 # 1000000000000)%Q;
  s_peak := (95 # 100)%Q
|}.

(** A mono recording of [n] samples: sample [k] is [k + offset]. *)
Definition ramp (offset : Z) (n : nat) : Tensor.t :=
  Tensor.mk [1%nat; n]
    (fun idx => inject_Z (Z.of_nat (nth 1 idx 0%nat) + offset)).

(** A waveform of [n] samples: sample [k] is [k + offset]. *)
Definition wave (offset : Z) (n : nat) : Tensor.t :=
  Tensor.mk [n] (fun idx => inject_Z (Z.of_nat (nth 0 idx 0%nat) + offset)).

(** A time-major spectrogram of [frames] frames and two mel bins. *)
Definition mel (frames : nat) : Tensor.t := Tensor.mk [frames; 2%nat] (fun _ => 0%Q).

(** [a.0.wav] and [a.3.wav] are ten samples at 16 kHz, [b.0.wav] and
    [b.3.wav] ten samples at 22.05 kHz, [c.0.wav] and [c.3.wav] five
    samples at 16 kHz. *)
#[local] Instance demo_audio : Torchaudio := {|
  torchaudio_load := fun f =>
    if String.eqb f "a.0.wav" then Ok (ramp 1 10, 16000)
    else if String.eqb f "a.3.wav" then Ok (ramp 101 10, 16000)
    else if String.eqb f "b.0.wav" then Ok (ramp 1 10, 22050)
    else if String.eqb f "b.3.wav" then Ok (ramp 101 10, 22050)
    else if String.eqb f "c.0.wav" then Ok (ramp 1 5, 16000)
    else if String.eqb f "c.3.wav" then Ok (ramp 101 5, 16000)
    else Raise (OSError f)
|}.

(** A stereo recording of ten samples, and a decoder that returns it for
    every file. *)
Definition stereo : Tensor.t := Tensor.mk [2%nat; 10%nat] (fun _ => 0%Q).

Definition stereo_audio : Torchaudio :=
  {| torchaudio_load := fun _ => Ok (stereo, 16000) |}.

(** A recording of no sample, and a decoder that returns it for every
    file. *)
Definition silence : Tensor.t := Tensor.mk [1%nat; 0%nat] (fun _ => 0%Q).

Definition silence_audio : Torchaudio :=
  {| torchaudio_load := fun _ => Ok (silence, 16000) |}.

(** An extractor with centred framing: one frame per hop and one more;
    waveforms of fewer than six samples are too short for it. *)
#[local] Instance demo_preprocess : Preprocess := {|
  get_spec := fun audio params =>
    match Tensor.shape audio with
    | [n] =>
        if (n <? 6)%nat then Raise RuntimeError
        else Ok (Tensor.mk [1%nat; 2%nat; S (n / hop_samples params)] (fun _ => 0%Q))
    | _ => Raise RuntimeError
    end
|}.

(** The example the transform packs from two waveforms under the
    parameters of the fixtures. *)
Definition padded (w : Tensor.t) : Tensor.t :=
  match Tensor.hstack w (Tensor.zeros 4) with
  | Ok x => x
  | Raise _ => w
  end.

Definition packed_example (w1 w2 : Tensor.t) : Example :=
  {| audio := padded w2;
     spectrogram :=
       (fun x => Tensor.T (Tensor.squeeze0 x)) <$> NumpyDataset.try_get_spec w1 demo_params;
     audio_cond_inst := padded w1 |}.

Definition demo_dataset : NumpyDataset.t :=
  NumpyDataset.mk demo_params true
    [("a.0.wav", "a.3.wav"); ("b.0.wav", "b.3.wav"); ("c.0.wav", "c.3.wav")] None.

Definition demo_collator : Collator.t := Collator.mk demo_params true None.

(** A machine with [gpus] devices on which every call succeeds; the free
    port is 29500. *)
Definition machine (gpus : Z) : Main.Runtime :=
  {| Main.answer := fun c =>
       match c with
       | Main.DeviceCount => Ok gpus
       | Main.GetFreePort => Ok 29500
       | _ => Ok 0
       end |}.

(** A Transformed Example of twelve samples whose spectrogram has
    [frames] frames, and one whose spectrogram is absent. *)
Definition example_of_frames (frames : nat) : Example :=
  {| audio := wave 101 12; spectrogram := Some (mel frames); audio_cond_inst := wave 1 12 |}.

Definition example_without_spectrogram : Example :=
  {| audio := wave 101 9; spectrogram := None; audio_cond_inst := wave 1 9 |}.

(** ** Properties of the Pair Indexer *)

(** The string and path helpers on the names the loader meets. *)
Example drop_last_tag : Str.drop_last 6 "data/songA.0.wav" = "data/songA".
Proof. reflexivity. Qed.

Example drop_last_short : Str.drop_last 6 ".wav" = "".
Proof. reflexivity. Qed.

Example split_lines : Str.split Str.newline demo_list = ["songA"; ""; "songB"; ""].
Proof. reflexivity. Qed.

Example path_join_cases :
  Str.path_join "a" "x.0.wav" = "a/x.0.wav"
  /\ Str.path_join "a/" "x.0.wav" = "a/x.0.wav"
  /\ Str.path_join "" "x.0.wav" = "x.0.wav"
  /\ Str.path_join "a" "/x.0.wav" = "/x.0.wav".
Proof. repeat split; reflexivity. Qed.

Lemma glob_all_scanned `{FileSystem} (paths acc : list string) :
  NumpyDataset.glob_all paths acc = acc ++ scanned paths.
Proof.
  revert acc. induction paths as [|path paths IH]; intros acc; simpl.
  - by rewrite app_nil_r.
  - rewrite IH. unfold scanned. simpl. by rewrite <- app_assoc.
Qed.

Lemma first_occurrences_elem (l : list string) (x : string) :
  x ∈ first_occurrences l <-> x ∈ l.
Proof.
  induction l as [|y l IH]; simpl; [done|].
  rewrite !elem_of_cons, list_elem_of_filter, IH.
  destruct (decide (x = y)); tauto.
Qed.

Lemma first_occurrences_NoDup (l : list string) : NoDup (first_occurrences l).
Proof.
  induction l as [|y l IH]; simpl; constructor.
  - rewrite list_elem_of_filter. intros [Hne _]. by apply Hne.
  - by apply NoDup_filter.
Qed.

Lemma scan_pairs_tagged (indices : list (Z * Z)) (stem : string) :
  NumpyDataset.scan_pairs indices stem
  = map (fun '(i, j) => (tagged stem i, tagged stem j)) indices.
Proof. reflexivity. Qed.

(** The loop emits, after what it had, the pairs of the stems it has not
    seen, in the order of their first occurrence. *)
Lemma scan_loop_spec (indices : list (Z * Z)) (xs : list string)
  (seen : gset string) (acc : list (string * string)) :
  NumpyDataset.scan_loop indices xs seen acc
  = acc ++ flat_map (NumpyDataset.scan_pairs indices)
             (filter (fun b => b ∉ seen) (first_occurrences (map group_stem xs))).
Proof.
  revert seen acc. induction xs as [|x xs IH]; intros seen acc; simpl.
  - by rewrite app_nil_r.
  - fold (group_stem x). destruct (decide (group_stem x ∈ seen)) as [Hin|Hout].
    + rewrite IH, filter_cons_False by (intros ?; contradiction).
      rewrite list_filter_filter_l; [done|]. intros y Hy ->. contradiction.
    + rewrite IH, filter_cons_True by done. simpl.
      rewrite <- app_assoc. f_equal. f_equal. f_equal.
      rewrite list_filter_filter. apply list_filter_iff.
      intros y. rewrite not_elem_of_union, not_elem_of_singleton. tauto.
Qed.

Lemma filter_all {A : Type} (P : A -> Prop) `{forall x, Decision (P x)} (l : list A) :
  (forall x, P x) -> filter P l = l.
Proof.
  intros HP. induction l as [|a l IH]; [done|].
  rewrite filter_cons_True by apply HP. by rewrite IH.
Qed.

Lemma length_scan_pairs (indices : list (Z * Z)) (stem : string) :
  length (NumpyDataset.scan_pairs indices stem) = length indices.
Proof. unfold NumpyDataset.scan_pairs. by rewrite length_map. Qed.

Lemma length_flat_map_const {A B : Type} (f : A -> list B) (n : nat) (l : list A) :
  (forall a, length (f a) = n) -> length (flat_map f l) = (length l * n)%nat.
Proof.
  intros Hf. induction l as [|a l IH]; simpl; [done|].
  rewrite length_app, Hf, IH. lia.
Qed.

(** C1. In mode (a) the index holds, for each group stem found by the scan
    and kept at its first occurrence, one Training Example per pair of the
    active regime, built by putting the pair's two tags after the stem;
    there are (#unique groups) x (#pairs) of them, with 2 pairs when
    [train_mixtures] is set and 6 otherwise. *)
Theorem scan_index_count `{FileSystem} (paths : list string)
  (files : option (list string)) (params : Params) (crop_mel : option Z)
  (is_training : bool) :
  NumpyDataset.no_files files = true ->
  let groups := first_occurrences (map group_stem (scanned paths)) in
  let pairs :=
    if train_mixtures params then [(0, 3); (3, 0)]
    else [(0, 3); (3, 0); (1, 4); (4, 1); (2, 5); (5, 2)] in
  NoDup groups /\
  (forall g, g ∈ groups <-> g ∈ map group_stem (scanned paths)) /\
  length pairs = (if train_mixtures params then 2%nat else 6%nat) /\
  exists self,
    NumpyDataset.__init__ paths files params crop_mel is_training = Ok self /\
    NumpyDataset.filenames self
    = flat_map (fun g => map (fun '(i, j) => (tagged g i, tagged g j)) pairs) groups /\
    NumpyDataset.__len__ self = (length groups * length pairs)%nat.
Proof.
  intros Hmode groups pairs.
  split; [apply first_occurrences_NoDup|].
  split; [intros g; apply first_occurrences_elem|].
  split; [unfold pairs; by destruct (train_mixtures params)|].
  unfold NumpyDataset.__init__. rewrite Hmode.
  eexists. split; [reflexivity|].
  unfold NumpyDataset.__len__. simpl.
  rewrite scan_loop_spec, glob_all_scanned. simpl.
  rewrite filter_all by (intros g; apply not_elem_of_empty).
  fold groups. change (NumpyDataset.indices params) with pairs.
  split; [done|].
  apply length_flat_map_const. intros g. apply length_scan_pairs.
Qed.

(** Scenario 1: the group [songA] with its six files, found by two scans
    of the same root, gives exactly the six examples of the full regime. *)
Lemma scan_index_count_witness :
  exists self,
    NumpyDataset.__init__ ["data"; "data"] None demo_params None true = Ok self /\
    NumpyDataset.filenames self
    = [("data/songA.0.wav", "data/songA.3.wav"); ("data/songA.3.wav", "data/songA.0.wav");
       ("data/songA.1.wav", "data/songA.4.wav"); ("data/songA.4.wav", "data/songA.1.wav");
       ("data/songA.2.wav", "data/songA.5.wav"); ("data/songA.5.wav", "data/songA.2.wav")] /\
    NumpyDataset.__len__ self = 6%nat.
Proof.
  destruct (scan_index_count (H := demo_fs) ["data"; "data"] None demo_params None true
              eq_refl)
    as (_ & _ & _ & self & Hinit & Hnames & Hlen).
  exists self. split; [exact Hinit|]. split; [rewrite Hnames|rewrite Hlen]; reflexivity.
Defined.

Lemma length_pos_nonempty (x : string) :
  (0 <? String.length x)%nat = bool_decide (x ≠ EmptyString).
Proof. by destruct x. Qed.

Lemma lines_loop_spec (indices : list (Z * Z)) (path : string) (xs : list string)
  (acc : list (string * string)) :
  NumpyDataset.lines_loop indices path xs acc
  = acc ++ flat_map (NumpyDataset.listed_pairs indices path)
             (filter (fun x => x ≠ EmptyString) xs).
Proof.
  revert acc. induction xs as [|x xs IH]; intros acc; simpl.
  - by rewrite app_nil_r.
  - rewrite length_pos_nonempty, filter_cons.
    destruct (decide (x ≠ EmptyString)) as [Hne|He].
    + rewrite bool_decide_eq_true_2 by done. rewrite IH. simpl.
      by rewrite <- app_assoc.
    + rewrite bool_decide_eq_false_2 by done. apply IH.
Qed.

Lemma for_each_listed `{FileSystem} (indices : list (Z * Z))
  (paths files texts : list string) (acc : list (string * string)) :
  length files = length paths ->
  read_all files = Ok texts ->
  for_each (fun acc '(path, f) =>
              text ← read_text f;
              Ok (NumpyDataset.lines_loop indices path (Str.split Str.newline text) acc))
    (zip paths files) acc
  = Ok (acc ++ listed_index indices paths texts).
Proof.
  revert files texts acc.
  induction paths as [|path paths IH]; intros [|f files] texts acc Hlen Hread;
    simplify_eq/=.
  - by rewrite app_nil_r.
  - destruct (read_text f) as [text|e]; simplify_eq/=.
    destruct (read_all files) as [texts'|e] eqn:Hrest; simplify_eq/=.
    rewrite (IH files texts') by done.
    rewrite lines_loop_spec. unfold listed_index. simpl.
    by rewrite <- app_assoc.
Qed.

(** C9. In mode (b), where a non-empty list of list files is given: when
    the directories and the list files differ in number, building the index
    fails with an assertion error and no dataset exists; when they agree in
    number and the list files can be read, directory [k] is paired with list
    file [k] and each non-empty line of the file gives one Training Example
    per pair, the empty lines giving none. *)
Theorem listed_index_build `{FileSystem} (paths : list string) (f : string)
  (more : list string) (params : Params) (crop_mel : option Z) (is_training : bool) :
  let files := f :: more in
  (length files ≠ length paths ->
   NumpyDataset.__init__ paths (Some files) params crop_mel is_training
   = Raise AssertionError) /\
  (length files = length paths ->
   forall texts, read_all files = Ok texts ->
   exists self,
     NumpyDataset.__init__ paths (Some files) params crop_mel is_training = Ok self /\
     NumpyDataset.filenames self
     = listed_index (NumpyDataset.indices params) paths texts).
Proof.
  intros files. unfold NumpyDataset.__init__. simpl NumpyDataset.no_files. cbv iota.
  split.
  - intros Hlen. simpl default.
    destruct (Nat.eqb_spec (length files) (length paths)) as [Heq|_]; [done|].
    reflexivity.
  - intros Hlen texts Hread. simpl default.
    rewrite (proj2 (Nat.eqb_eq _ _) Hlen). simpl.
    change (f :: more) with files.
    rewrite (for_each_listed _ _ _ texts) by done.
    eexists. split; reflexivity.
Qed.

(** Scenario 5: two directories with one list file fail at build time; one
    directory with the list file [train.txt], whose second line is empty,
    gives the six pairs of [songA] and then the six of [songB]. *)
Lemma listed_index_build_witness :
  NumpyDataset.__init__ ["a"; "b"] (Some ["train.txt"]) demo_params None true
  = Raise AssertionError /\
  exists self,
    NumpyDataset.__init__ ["a"] (Some ["train.txt"]) demo_params None true = Ok self /\
    NumpyDataset.filenames self
    = [("a/songA.0.wav", "a/songA.3.wav"); ("a/songA.3.wav", "a/songA.0.wav");
       ("a/songA.1.wav", "a/songA.4.wav"); ("a/songA.4.wav", "a/songA.1.wav");
       ("a/songA.2.wav", "a/songA.5.wav"); ("a/songA.5.wav", "a/songA.2.wav");
       ("a/songB.0.wav", "a/songB.3.wav"); ("a/songB.3.wav", "a/songB.0.wav");
       ("a/songB.1.wav", "a/songB.4.wav"); ("a/songB.4.wav", "a/songB.1.wav");
       ("a/songB.2.wav", "a/songB.5.wav"); ("a/songB.5.wav", "a/songB.2.wav")].
Proof.
  split.
  - apply (listed_index_build (H := demo_fs) ["a"; "b"] "train.txt" [] demo_params None true).
    simpl. lia.
  - destruct (proj2 (listed_index_build (H := demo_fs) ["a"] "train.txt" [] demo_params
                       None true) eq_refl [demo_list] eq_refl)
      as (self & Hinit & Hnames).
    exists self. split; [exact Hinit|]. rewrite Hnames. reflexivity.
Defined.

(** ** Properties of the Example Transform *)

Lemma det_bind {A B : Type} (r : Result A) (f : A -> Rand B) :
  det r ≫= f = match r with
               | Ok a => f a
               | Raise e => det (Raise e)
               end.
Proof.
  destruct r as [a|e]; [|reflexivity].
  unfold mbind, Rand_bind, det. simpl. destruct (f a) as [l]. simpl.
  by rewrite app_nil_r.
Qed.

Lemma ret_bind {A B : Type} (a : A) (f : A -> Rand B) : mret a ≫= f = f a.
Proof. apply (det_bind (Ok a)). Qed.

Lemma slice_bound_inside (n i : Z) : 0 <= i <= n -> Tensor.slice_bound n i = i.
Proof. intros Hi. unfold Tensor.slice_bound. destruct (Z.ltb_spec i 0); lia. Qed.

(** Python's slices on ten samples: [x[2:8]] has six entries, a stop
    beyond the end is clamped, and a negative stop counts from the end. *)
Example slice_shapes :
  Tensor.shape <$> [Tensor.window (wave 1 10) 10 [] 2 8;
                    Tensor.window (wave 1 10) 10 [] 3 100;
                    Tensor.window (wave 1 10) 10 [] 2 (-2);
                    Tensor.window (wave 1 10) 10 [] 8 2]
  = [[6%nat]; [7%nat]; [6%nat]; [0%nat]].
Proof. reflexivity. Qed.

Section Crop.
Context `{Samples}.

Lemma window_is_window (x : Tensor.t) (n start len : nat) :
  (start + len <= n)%nat ->
  is_window (Tensor.window x n [] (Z.of_nat start) (Z.of_nat start + Z.of_nat len))
    x start len.
Proof.
  intros Hfit. unfold is_window, Tensor.window.
  rewrite !slice_bound_inside by lia. simpl. split.
  - f_equal. lia.
  - intros k _. by rewrite Nat2Z.id.
Qed.

(** The outcomes of the crop step on two waveforms of [n] samples. *)
Lemma crop_outcomes (crop_mel : Z) (hop : nat) (signal1 signal2 : Tensor.t) (n : nat) :
  Tensor.shape signal1 = [n] ->
  Tensor.shape signal2 = [n] ->
  let crop_len := (crop_mel - 1) * Z.of_nat hop in
  outcomes (NumpyDataset.crop crop_mel hop signal1 signal2)
  = if crop_len <=? Z.of_nat n
    then map (fun start : nat =>
                Ok (Tensor.window signal1 n [] (Z.of_nat start) (Z.of_nat start + crop_len),
                    Tensor.window signal2 n [] (Z.of_nat start) (Z.of_nat start + crop_len)))
           (seq 0 (Z.to_nat (Z.of_nat n - crop_len + 1)))
    else [Ok (signal1, signal2)].
Proof.
  intros H1 H2 crop_len. unfold NumpyDataset.crop, Tensor.shape0.
  rewrite H1, det_bind. fold crop_len.
  destruct (Z.leb_spec crop_len (Z.of_nat n)) as [Hle|Hlt]; [|reflexivity].
  unfold random.randint. destruct (Z.ltb_spec (Z.of_nat n - crop_len) 0); [lia|].
  unfold mbind at 1, Rand_bind. simpl outcomes.
  rewrite Z.sub_0_r.
  induction (seq 0 (Z.to_nat (Z.of_nat n - crop_len + 1))) as [|start l IH];
    [reflexivity|].
  simpl map. simpl flat_map. rewrite IH. clear IH.
  unfold Tensor.slice. rewrite H1, H2. reflexivity.
Qed.

(** C3. For two waveforms of [n] samples entering the crop step with the
    crop length [crop_len = (crop_frames - 1) * hop_samples]: when
    [n >= crop_len] the step has one equally likely outcome per start offset
    of the inclusive range [0, n - crop_len]; in the outcome of offset
    [start] the content-source and the timbre-target waveform are cut by the
    same slice [start : start + crop_len], so that they stay aligned sample
    by sample, and, a crop length being a length and so not negative, each
    is the window [start, start + crop_len) of its input: sample [k] of
    either is sample [start + k] of its input.  When [n < crop_len] the only
    outcome is the two waveforms unchanged. *)
Theorem crop_shared_window (crop_mel : Z) (hop : nat) (signal1 signal2 : Tensor.t)
  (n : nat) :
  Tensor.shape signal1 = [n] ->
  Tensor.shape signal2 = [n] ->
  let crop_len := (crop_mel - 1) * Z.of_nat hop in
  (crop_len <= Z.of_nat n ->
   exists outs : list (Tensor.t * Tensor.t),
     outcomes (NumpyDataset.crop crop_mel hop signal1 signal2) = map Ok outs /\
     Z.of_nat (length outs) = Z.of_nat n - crop_len + 1 /\
     forall start : nat, Z.of_nat start <= Z.of_nat n - crop_len ->
       exists w1 w2 : Tensor.t,
         outs !! start = Some (w1, w2) /\
         Tensor.slice signal1 (Z.of_nat start) (Z.of_nat start + crop_len) = Ok w1 /\
         Tensor.slice signal2 (Z.of_nat start) (Z.of_nat start + crop_len) = Ok w2 /\
         (exists lo len : nat, is_window w1 signal1 lo len /\ is_window w2 signal2 lo len) /\
         (0 <= crop_len ->
          is_window w1 signal1 start (Z.to_nat crop_len) /\
          is_window w2 signal2 start (Z.to_nat crop_len))) /\
  (Z.of_nat n < crop_len ->
   outcomes (NumpyDataset.crop crop_mel hop signal1 signal2) = [Ok (signal1, signal2)]).
Proof.
  intros H1 H2 crop_len.
  pose proof (crop_outcomes crop_mel hop signal1 signal2 n H1 H2) as Hout.
  fold crop_len in Hout. cbv zeta in Hout. split.
  - intros Hle. rewrite (proj2 (Z.leb_le _ _) Hle) in Hout.
    eexists. split; [rewrite Hout, <- (map_map _ Ok); reflexivity|].
    rewrite length_map, length_seq. split; [lia|].
    intros start Hstart.
    rewrite list_lookup_fmap, lookup_seq_lt by lia. simpl.
    do 2 eexists. split; [reflexivity|].
    unfold Tensor.slice. rewrite H1, H2.
    split; [reflexivity|]. split; [reflexivity|]. split.
    + do 2 eexists. split; (split; [reflexivity|intros k _; reflexivity]).
    + intros Hpos. rewrite <- (Z2Nat.id crop_len) at 1 3 by lia.
      split; apply window_is_window; lia.
  - intros Hlt. by rewrite (proj2 (Z.leb_gt _ _) Hlt) in Hout.
Qed.

End Crop.

Lemma bind_det_outcomes {A B : Type} (m : Rand A) (g : A -> Result B) :
  outcomes (m ≫= fun a => det (g a)) = map (fun r => r ≫= g) (outcomes m).
Proof.
  unfold mbind at 1, Rand_bind. simpl.
  induction (outcomes m) as [|[a|e] l IH]; simpl; by rewrite ?IH.
Qed.

Section Transform.
Context `{Samples} `{!Torchaudio} `{!Preprocess}.

Lemma getitem_transform (self : NumpyDataset.t) (idx : nat) (names : string * string) :
  NumpyDataset.filenames self !! idx = Some names ->
  NumpyDataset.__getitem__ self idx = NumpyDataset.transform self names.
Proof. intros Hidx. unfold NumpyDataset.__getitem__. by rewrite Hidx, det_bind. Qed.

(** A mono recording with at least one sample normalises. *)
Lemma prepare_nonempty (x : Tensor.t) (n : nat) :
  Tensor.shape x = [1%nat; n] -> (0 < n)%nat ->
  NumpyDataset.prepare x = Ok (prepared x).
Proof.
  intros Hx Hn. unfold NumpyDataset.prepare, Tensor.normalize. rewrite Hx.
  destruct n as [|n]; [lia|]. reflexivity.
Qed.

(** A mono recording of no sample does not: the norm along its empty last
    dimension raises. *)
Lemma prepare_empty (x : Tensor.t) :
  Tensor.shape x = [1%nat; 0%nat] -> NumpyDataset.prepare x = Raise RuntimeError.
Proof.
  intros Hx. unfold NumpyDataset.prepare, Tensor.normalize. by rewrite Hx.
Qed.

Lemma prepare_shape (x : Tensor.t) (n : nat) :
  Tensor.shape x = [1%nat; n] -> Tensor.shape (prepared x) = [n].
Proof.
  intros Hx. unfold prepared, Tensor.squeeze0. simpl. by rewrite Hx.
Qed.

(** A sample-rate mismatch is the only outcome of the access. *)
Lemma transform_bad_rate (self : NumpyDataset.t) (f1 f2 : string)
  (x1 x2 : Tensor.t) (sr1 sr2 : Z) :
  torchaudio_load f1 = Ok (x1, sr1) ->
  torchaudio_load f2 = Ok (x2, sr2) ->
  sr1 ≠ sample_rate (NumpyDataset.params self)
  \/ sr2 ≠ sample_rate (NumpyDataset.params self) ->
  NumpyDataset.transform self (f1, f2)
  = det (Raise (ValueError
                  (NumpyDataset.invalid_sample_rate sr1 sr2
                     (sample_rate (NumpyDataset.params self))))).
Proof.
  intros Hl1 Hl2 Hbad. unfold NumpyDataset.transform, NumpyDataset.load_pair.
  rewrite Hl1. simpl. rewrite Hl2. simpl.
  destruct (Z.eqb_spec (sample_rate (NumpyDataset.params self)) sr1) as [E1|N1];
    destruct (Z.eqb_spec (sample_rate (NumpyDataset.params self)) sr2) as [E2|N2];
    simpl; try reflexivity.
  destruct Hbad; congruence.
Qed.

(** Two mono recordings of [n] samples at the configured rate pass the
    checks of lines 71-74. *)
Lemma load_pair_valid (params : Params) (f1 f2 : string) (x1 x2 : Tensor.t) (n : nat) :
  torchaudio_load f1 = Ok (x1, sample_rate params) ->
  torchaudio_load f2 = Ok (x2, sample_rate params) ->
  Tensor.shape x1 = [1%nat; n] ->
  Tensor.shape x2 = [1%nat; n] ->
  NumpyDataset.load_pair params (f1, f2) = Ok (x1, x2).
Proof.
  intros Hl1 Hl2 Hs1 Hs2. unfold NumpyDataset.load_pair.
  rewrite Hl1. simpl. rewrite Hl2. simpl.
  rewrite Z.eqb_refl. simpl.
  unfold Tensor.shape0. rewrite Hs1, Hs2.
  rewrite bool_decide_eq_true_2 by done. reflexivity.
Qed.

(** After the checks, the outcomes of the access are those of the crop,
    each packed into a record. *)
Lemma transform_outcomes (self : NumpyDataset.t) (f1 f2 : string)
  (x1 x2 : Tensor.t) (n : nat) :
  let params := NumpyDataset.params self in
  torchaudio_load f1 = Ok (x1, sample_rate params) ->
  torchaudio_load f2 = Ok (x2, sample_rate params) ->
  Tensor.shape x1 = [1%nat; n] ->
  Tensor.shape x2 = [1%nat; n] ->
  (0 < n)%nat ->
  outcomes (NumpyDataset.transform self (f1, f2))
  = map (fun r => r ≫= NumpyDataset.pack params)
      (outcomes (NumpyDataset.crop (crop_frames (NumpyDataset.crop_mel self) params)
                   (hop_samples params) (prepared x1) (prepared x2))).
Proof.
  intros params Hl1 Hl2 Hs1 Hs2 Hn. unfold NumpyDataset.transform.
  fold params. rewrite (load_pair_valid params f1 f2 x1 x2 n) by done.
  rewrite det_bind.
  rewrite (prepare_nonempty x1 n), det_bind by done.
  rewrite (prepare_nonempty x2 n), det_bind by done.
  apply bind_det_outcomes.
Qed.

(** Two mono recordings of no sample at the configured rate pass the checks
    of lines 71-74 and stop at line 76. *)
Lemma transform_empty (self : NumpyDataset.t) (f1 f2 : string) (x1 x2 : Tensor.t) :
  let params := NumpyDataset.params self in
  torchaudio_load f1 = Ok (x1, sample_rate params) ->
  torchaudio_load f2 = Ok (x2, sample_rate params) ->
  Tensor.shape x1 = [1%nat; 0%nat] ->
  Tensor.shape x2 = [1%nat; 0%nat] ->
  outcomes (NumpyDataset.transform self (f1, f2)) = [Raise RuntimeError].
Proof.
  intros params Hl1 Hl2 Hs1 Hs2. unfold NumpyDataset.transform.
  fold params. rewrite (load_pair_valid params f1 f2 x1 x2 0) by done.
  rewrite det_bind. by rewrite (prepare_empty x1).
Qed.

(** Padding a waveform of [m] samples. *)
Lemma hstack_zeros (w : Tensor.t) (m hop : nat) :
  Tensor.shape w = [m] ->
  exists padded : Tensor.t,
    Tensor.hstack w (Tensor.zeros hop) = Ok padded /\
    Tensor.shape padded = [(m + hop)%nat].
Proof.
  intros Hw. unfold Tensor.hstack, Tensor.atleast_1d. rewrite Hw. simpl.
  rewrite Hw. destruct m; eexists; split; reflexivity.
Qed.

(** The record packed from two waveforms of [m] samples. *)
Lemma pack_waves (params : Params) (w1 w2 : Tensor.t) (m : nat) :
  Tensor.shape w1 = [m] ->
  Tensor.shape w2 = [m] ->
  exists a c : Tensor.t,
    Tensor.shape a = [(m + hop_samples params)%nat] /\
    Tensor.shape c = [(m + hop_samples params)%nat] /\
    NumpyDataset.pack params (w1, w2)
    = Ok (<["audio" := VTensor a]>
          (<["spectrogram" := match get_spec w1 params with
                              | Ok x => VTensor (Tensor.T (Tensor.squeeze0 x))
                              | Raise _ => VNone
                              end]>
           (<["audio_cond_inst" := VTensor c]> ∅))).
Proof.
  intros Hw1 Hw2.
  destruct (hstack_zeros w1 m (hop_samples params) Hw1) as (c & Hc & Hcs).
  destruct (hstack_zeros w2 m (hop_samples params) Hw2) as (a & Ha & Has).
  exists a, c. split; [done|]. split; [done|].
  unfold NumpyDataset.pack, NumpyDataset.try_get_spec. rewrite Ha. simpl.
  rewrite Hc. simpl. by destruct (get_spec w1 params).
Qed.

End Transform.

Lemma outcomes_bind_elim {A B : Type} (m : Rand A) (f : A -> Rand B) (r : Result B) :
  r ∈ outcomes (m ≫= f) ->
  (exists a, Ok a ∈ outcomes m /\ r ∈ outcomes (f a))
  \/ (exists e, Raise e ∈ outcomes m /\ r = Raise e).
Proof.
  unfold mbind, Rand_bind. simpl. rewrite list_elem_of_In, in_flat_map.
  intros ([a|e] & Hin & Hr); apply list_elem_of_In in Hin.
  - left. exists a. split; [done|]. by apply list_elem_of_In.
  - right. exists e. destruct Hr as [<-|[]]. done.
Qed.

Lemma outcomes_det {A : Type} (r r' : Result A) : r' ∈ outcomes (det r) -> r' = r.
Proof. unfold det. simpl. by rewrite list_elem_of_singleton. Qed.

Lemma randint_outcomes (a b : Z) (r : Result Z) :
  a <= b -> r ∈ outcomes (random.randint a b) ->
  exists start, r = Ok start /\ a <= start <= b.
Proof.
  intros Hab. unfold random.randint. destruct (Z.ltb_spec b a); [lia|]. simpl.
  rewrite list_elem_of_fmap. intros (k & -> & Hk).
  apply elem_of_seq in Hk. eexists. split; [reflexivity|]. lia.
Qed.

Section NoValueError.
Context `{Samples} `{!Torchaudio} `{!Preprocess}.

Lemma hstack_not_value_error (a b : Tensor.t) (msg : string) :
  Tensor.hstack a b ≠ Raise (ValueError msg).
Proof.
  unfold Tensor.hstack. repeat case_match; discriminate.
Qed.

Lemma pack_not_value_error (params : Params) (signals : Tensor.t * Tensor.t)
  (msg : string) :
  NumpyDataset.pack params signals ≠ Raise (ValueError msg).
Proof.
  destruct signals as [w1 w2]. unfold NumpyDataset.pack.
  destruct (Tensor.hstack w2 _) as [a|e] eqn:Ha; simpl.
  - destruct (Tensor.hstack w1 _) as [c|e] eqn:Hc; simpl; [discriminate|].
    intros [= ->]. by apply hstack_not_value_error in Hc.
  - intros [= ->]. by apply hstack_not_value_error in Ha.
Qed.

Lemma prepare_not_value_error (x : Tensor.t) (msg : string) :
  NumpyDataset.prepare x ≠ Raise (ValueError msg).
Proof.
  unfold NumpyDataset.prepare, Tensor.normalize.
  by destruct (List.last (Tensor.shape x) 1%nat).
Qed.

Lemma slice_not_value_error (x : Tensor.t) (start stop : Z) (msg : string) :
  Tensor.slice x start stop ≠ Raise (ValueError msg).
Proof. unfold Tensor.slice. by destruct (Tensor.shape x). Qed.

Lemma crop_not_value_error (crop_mel : Z) (hop : nat) (signal1 signal2 : Tensor.t)
  (msg : string) :
  Raise (ValueError msg) ∉ outcomes (NumpyDataset.crop crop_mel hop signal1 signal2).
Proof.
  unfold NumpyDataset.crop. intros Hin.
  apply outcomes_bind_elim in Hin as [(n & Hn & Hin)|(e & He & Heq)]; cycle 1.
  { apply outcomes_det in He. unfold Tensor.shape0 in He.
    destruct (Tensor.shape signal1); simplify_eq. }
  destruct (Z.leb_spec ((crop_mel - 1) * Z.of_nat hop) (Z.of_nat n)) as [Hle|Hlt];
    cycle 1.
  { apply outcomes_det in Hin. discriminate. }
  apply outcomes_bind_elim in Hin as [(start & Hstart & Hin)|(e & He & Heq)]; cycle 1.
  { apply randint_outcomes in He as (start & ? & _); [done|lia]. }
  apply outcomes_bind_elim in Hin as [(w1 & _ & Hin)|(e & He & Heq)]; cycle 1.
  { apply outcomes_det in He. simplify_eq. by eapply slice_not_value_error. }
  apply outcomes_bind_elim in Hin as [(w2 & _ & Hin)|(e & He & Heq)]; cycle 1.
  { apply outcomes_det in He. simplify_eq. by eapply slice_not_value_error. }
  apply outcomes_det in Hin. discriminate.
Qed.

End NoValueError.

(** C2. For a Training Example whose two files decode: when either decoded
    sample rate differs from the configured [sample_rate], the access raises
    [ValueError] with the message of line 72, in which both observed rates
    are written out; when both rates equal the configured one, no outcome of
    the access is a [ValueError]. *)
Theorem sample_rate_checked `{S : Samples} `{TA : !Torchaudio} `{PP : !Preprocess}
  (self : NumpyDataset.t) (idx : nat) (f1 f2 : string) (x1 x2 : Tensor.t)
  (sr1 sr2 : Z) :
  NumpyDataset.filenames self !! idx = Some (f1, f2) ->
  torchaudio_load f1 = Ok (x1, sr1) ->
  torchaudio_load f2 = Ok (x2, sr2) ->
  let rate := sample_rate (NumpyDataset.params self) in
  (sr1 ≠ rate \/ sr2 ≠ rate ->
   outcomes (NumpyDataset.__getitem__ self idx)
   = [Raise (ValueError
               ("Invalid sample rate: sr1 = " +:+ Str.of_int sr1
                +:+ " and sr2 = " +:+ Str.of_int sr2
                +:+ " while sample rate in params is " +:+ Str.of_int rate +:+ "."))]) /\
  (sr1 = rate /\ sr2 = rate ->
   forall msg, Raise (ValueError msg) ∉ outcomes (NumpyDataset.__getitem__ self idx)).
Proof.
  intros Hidx Hl1 Hl2 rate. rewrite (getitem_transform self idx (f1, f2)) by done.
  split.
  - intros Hbad. by rewrite (transform_bad_rate self f1 f2 x1 x2 sr1 sr2).
  - intros [-> ->] msg Hin. unfold NumpyDataset.transform in Hin.
    apply outcomes_bind_elim in Hin as [([s1 s2] & _ & Hin)|(e & He & Heq)]; cycle 1.
    { apply outcomes_det in He. simplify_eq.
      unfold NumpyDataset.load_pair in He. rewrite Hl1 in He. simpl in He.
      rewrite Hl2 in He. simpl in He. fold rate in He. rewrite Z.eqb_refl in He.
      simpl in He. unfold assert, Tensor.shape0 in He.
      destruct (bool_decide _); simpl in He; [|discriminate].
      destruct (Tensor.shape x1) as [|c1 ?]; simpl in He; [discriminate|].
      destruct (c1 =? 1)%nat; simpl in He; [|discriminate].
      destruct (Tensor.shape x2) as [|c2 ?]; simpl in He; [discriminate|].
      destruct (c2 =? 1)%nat; discriminate. }
    apply outcomes_bind_elim in Hin as [(w1 & _ & Hin)|(e & He & Heq)]; cycle 1.
    { apply outcomes_det in He. simplify_eq. symmetry in He.
      by apply prepare_not_value_error in He. }
    apply outcomes_bind_elim in Hin as [(w2 & _ & Hin)|(e & He & Heq)]; cycle 1.
    { apply outcomes_det in He. simplify_eq. symmetry in He.
      by apply prepare_not_value_error in He. }
    apply outcomes_bind_elim in Hin as [(signals & _ & Hin)|(e & He & Heq)]; cycle 1.
    { simplify_eq. by apply crop_not_value_error in He. }
    apply outcomes_det in Hin. symmetry in Hin. by apply pack_not_value_error in Hin.
Qed.

(** Scenario 2: the pair [b] reports (22050, 22050) against 16000; the
    pair [a] is at the configured rate. *)
Lemma sample_rate_checked_witness :
  outcomes (NumpyDataset.__getitem__ demo_dataset 1)
  = [Raise (ValueError
              "Invalid sample rate: sr1 = 22050 and sr2 = 22050 while sample rate in params is 16000.")]
  /\ forall msg, Raise (ValueError msg) ∉ outcomes (NumpyDataset.__getitem__ demo_dataset 0).
Proof.
  split.
  - apply (sample_rate_checked (S := Q_samples) (TA := demo_audio) (PP := demo_preprocess)
             demo_dataset 1 "b.0.wav" "b.3.wav"
             (ramp 1 10) (ramp 101 10) 22050 22050 eq_refl eq_refl eq_refl).
    left. simpl. lia.
  - apply (sample_rate_checked (S := Q_samples) (TA := demo_audio) (PP := demo_preprocess)
             demo_dataset 0 "a.0.wav" "a.3.wav"
             (ramp 1 10) (ramp 101 10) 16000 16000 eq_refl eq_refl eq_refl).
    split; reflexivity.
Defined.

(** The crop of two waveforms of ten samples under three frames and a hop
    of four: three starts, windows of eight samples; waveforms of five
    samples are too short to be cropped. *)
Lemma crop_shared_window_witness :
  (exists outs : list (Tensor.t * Tensor.t),
     outcomes (NumpyDataset.crop 3 4 (wave 1 10) (wave 101 10)) = map Ok outs /\
     Z.of_nat (length outs) = 3 /\
     forall start : nat, Z.of_nat start <= 2 ->
       exists w1 w2 : Tensor.t,
         outs !! start = Some (w1, w2) /\
         is_window w1 (wave 1 10) start 8 /\
         is_window w2 (wave 101 10) start 8) /\
  outcomes (NumpyDataset.crop 3 4 (wave 1 5) (wave 101 5))
  = [Ok (wave 1 5, wave 101 5)].
Proof.
  split.
  - destruct (proj1 (crop_shared_window (H := Q_samples) 3 4 (wave 1 10) (wave 101 10) 10
                       eq_refl eq_refl) ltac:(simpl; lia))
      as (outs & Hout & Hlen & Hall).
    exists outs. split; [exact Hout|]. split; [exact Hlen|].
    intros start Hstart.
    destruct (Hall start Hstart) as (w1 & w2 & Hlook & _ & _ & _ & Hwin).
    exists w1, w2. split; [exact Hlook|]. apply Hwin. simpl. lia.
  - apply (proj2 (crop_shared_window (H := Q_samples) 3 4 (wave 1 5) (wave 101 5) 5
                    eq_refl eq_refl)).
    simpl. lia.
Defined.

Section Packed.
Context `{S : Samples} `{TA : !Torchaudio} `{PP : !Preprocess}.

(** On two waveforms of [n] samples the crop step never raises: each
    outcome is a pair of waveforms of one length [m], the crop length when
    the crop applies and [n] when it does not. *)
Lemma crop_outcomes_waves (crop_mel : Z) (hop : nat) (signal1 signal2 : Tensor.t)
  (n : nat) :
  Tensor.shape signal1 = [n] ->
  Tensor.shape signal2 = [n] ->
  let crop_len := (crop_mel - 1) * Z.of_nat hop in
  outcomes (NumpyDataset.crop crop_mel hop signal1 signal2) ≠ [] /\
  forall r, r ∈ outcomes (NumpyDataset.crop crop_mel hop signal1 signal2) ->
    exists (w1 w2 : Tensor.t) (m : nat),
      r = Ok (w1, w2) /\ Tensor.shape w1 = [m] /\ Tensor.shape w2 = [m] /\
      (0 <= crop_len <= Z.of_nat n -> m = Z.to_nat crop_len) /\
      (Z.of_nat n < crop_len -> m = n).
Proof.
  intros H1 H2 crop_len.
  rewrite (crop_outcomes crop_mel hop signal1 signal2 n H1 H2). fold crop_len.
  destruct (Z.leb_spec crop_len (Z.of_nat n)) as [Hle|Hlt].
  - split.
    + destruct (Z.to_nat (Z.of_nat n - crop_len + 1)) as [|k] eqn:Hk; [lia|]. done.
    + intros r Hr. apply list_elem_of_fmap in Hr as (start & -> & Hstart).
      apply elem_of_seq in Hstart.
      do 3 eexists. split; [reflexivity|]. split; [reflexivity|]. split; [reflexivity|].
      split; [|lia]. intros Hpos. rewrite !slice_bound_inside by lia. lia.
  - split; [done|]. intros r Hr. apply list_elem_of_singleton in Hr as ->.
    exists signal1, signal2, n. repeat split; try done. lia.
Qed.

(** C6. For an access that passes the sample-rate and shape checks (two
    mono recordings of [n] samples at the configured rate), whatever the
    extractor does.  When the recordings hold at least one sample, the
    access has an outcome, every outcome is a returned record and none is an
    error, the record holds the padded [audio] and [audio_cond_inst]
    waveforms, and its [spectrogram] is [None] whenever the extractor
    raised, whatever it raised, on the content-source waveform [w1] whose
    padding is [audio_cond_inst].  When they hold none, the extractor is
    never reached: the normalisation of line 76 raises [RuntimeError], which
    is the one outcome of the access under every extractor, so that no
    error of the extractor leaves the transform in either case. *)
Theorem extraction_failure_absorbed (self : NumpyDataset.t) (idx : nat)
  (f1 f2 : string) (x1 x2 : Tensor.t) (n : nat) :
  let params := NumpyDataset.params self in
  NumpyDataset.filenames self !! idx = Some (f1, f2) ->
  torchaudio_load f1 = Ok (x1, sample_rate params) ->
  torchaudio_load f2 = Ok (x2, sample_rate params) ->
  Tensor.shape x1 = [1%nat; n] ->
  Tensor.shape x2 = [1%nat; n] ->
  outcomes (NumpyDataset.__getitem__ self idx) ≠ [] /\
  (n = 0%nat -> outcomes (NumpyDataset.__getitem__ self idx) = [Raise RuntimeError]) /\
  ((0 < n)%nat ->
   forall r, r ∈ outcomes (NumpyDataset.__getitem__ self idx) ->
     exists (record : gmap string value) (w1 a c : Tensor.t),
       r = Ok record /\
       record !! "audio" = Some (VTensor a) /\
       record !! "audio_cond_inst" = Some (VTensor c) /\
       Tensor.hstack w1 (Tensor.zeros (hop_samples params)) = Ok c /\
       (forall e, get_spec w1 params = Raise e ->
                  record !! "spectrogram" = Some VNone) /\
       (forall x, get_spec w1 params = Ok x ->
                  record !! "spectrogram"
                  = Some (VTensor (Tensor.T (Tensor.squeeze0 x))))).
Proof.
  intros params Hidx Hl1 Hl2 Hs1 Hs2.
  rewrite (getitem_transform self idx (f1, f2)) by done.
  destruct n as [|n'].
  { rewrite (transform_empty self f1 f2 x1 x2) by done.
    split; [done|]. split; [done|]. intros Hn. lia. }
  set (n := Datatypes.S n') in *.
  rewrite (transform_outcomes self f1 f2 x1 x2 n) by (done || lia). fold params.
  destruct (crop_outcomes_waves (crop_frames (NumpyDataset.crop_mel self) params)
              (hop_samples params) (prepared x1) (prepared x2) n
              (prepare_shape x1 n Hs1) (prepare_shape x2 n Hs2)) as [Hne Hall].
  split; [|split; [done|intros _]].
  - intros Hnil. apply fmap_nil_inv in Hnil. contradiction.
  - intros r Hr. apply list_elem_of_fmap in Hr as (r0 & -> & Hr0).
    destruct (Hall r0 Hr0) as (w1 & w2 & m & -> & Hw1 & Hw2 & _).
    destruct (hstack_zeros w1 m (hop_samples params) Hw1) as (c & Hc & _).
    destruct (hstack_zeros w2 m (hop_samples params) Hw2) as (a & Ha & _).
    exists (<["audio" := VTensor a]>
            (<["spectrogram" := match get_spec w1 params with
                                | Ok x => VTensor (Tensor.T (Tensor.squeeze0 x))
                                | Raise _ => VNone
                                end]>
             (<["audio_cond_inst" := VTensor c]> ∅))), w1, a, c.
    split.
    { simpl. unfold NumpyDataset.pack, NumpyDataset.try_get_spec.
      rewrite Ha. simpl. rewrite Hc. simpl. by destruct (get_spec w1 params). }
    split; [reflexivity|]. split; [reflexivity|]. split; [exact Hc|].
    split; [intros e He|intros x Hx].
    + rewrite He. reflexivity.
    + rewrite Hx. reflexivity.
Qed.

End Packed.

(** The pair [c] is too short for the extractor of the fixtures: the
    access still returns, without a spectrogram. *)
Example short_pair_has_no_spectrogram :
  map (fun r => match r with
                | Ok record =>
                    match record !! "spectrogram", record !! "audio",
                          record !! "audio_cond_inst" with
                    | Some VNone, Some (VTensor a), Some (VTensor c) =>
                        Some (Tensor.shape a, Tensor.shape c)
                    | _, _, _ => None
                    end
                | Raise _ => None
                end) (outcomes (NumpyDataset.__getitem__ demo_dataset 2))
  = [Some ([9%nat], [9%nat])].
Proof. reflexivity. Qed.

Lemma extraction_failure_absorbed_witness :
  outcomes (NumpyDataset.__getitem__ demo_dataset 2) ≠ [] /\
  forall r, r ∈ outcomes (NumpyDataset.__getitem__ demo_dataset 2) ->
    exists (record : gmap string value) (w1 a c : Tensor.t),
      r = Ok record /\
      record !! "audio" = Some (VTensor a) /\
      record !! "audio_cond_inst" = Some (VTensor c) /\
      Tensor.hstack w1 (Tensor.zeros 4) = Ok c /\
      (forall e, get_spec w1 demo_params = Raise e ->
                 record !! "spectrogram" = Some VNone) /\
      (forall x, get_spec w1 demo_params = Ok x ->
                 record !! "spectrogram"
                 = Some (VTensor (Tensor.T (Tensor.squeeze0 x)))).
Proof.
  destruct (extraction_failure_absorbed (S := Q_samples) (TA := demo_audio)
              (PP := demo_preprocess) demo_dataset 2 "c.0.wav" "c.3.wav"
              (ramp 1 5) (ramp 101 5) 5 eq_refl eq_refl eq_refl eq_refl eq_refl)
    as (Hne & _ & Hall).
  split; [exact Hne|]. apply Hall. lia.
Defined.

(** ** The crop-length override *)

(** C10. In the transform and in the collator alike the override is used
    only when it is truthy.  For a falsy override, [None] or an explicit 0,
    the crop length in force is the configured [crop_mel_frames], and both
    the access and the collation behave exactly as they do without an
    override: a 0 is neither rejected nor honoured. *)
Theorem falsy_override_ignored `{S : Samples} `{TA : !Torchaudio} `{PP : !Preprocess}
  (override : option Z) (params : Params) :
  (truthy override = true ->
   exists z, override = Some z /\ z ≠ 0 /\ crop_frames override params = z) /\
  (truthy override = false ->
   (override = None \/ override = Some 0) /\
   crop_frames override params = crop_mel_frames params /\
   (forall is_training filenames idx,
      NumpyDataset.__getitem__ (NumpyDataset.mk params is_training filenames override) idx
      = NumpyDataset.__getitem__ (NumpyDataset.mk params is_training filenames None) idx) /\
   (forall is_training minibatch,
      Collator.collate (Collator.mk params is_training override) minibatch
      = Collator.collate (Collator.mk params is_training None) minibatch)).
Proof.
  split.
  - destruct override as [z|]; [|discriminate]. simpl. intros Hz.
    exists z. split; [done|]. split.
    + intros ->. discriminate.
    + unfold crop_frames. simpl. by rewrite Hz.
  - intros Hfalsy.
    assert (crop_frames override params = crop_mel_frames params) as Hcrop.
    { unfold crop_frames. by rewrite Hfalsy. }
    split; [|split; [exact Hcrop|split]].
    + destruct override as [z|]; [|by left]. right. simpl in Hfalsy.
      destruct (Z.eqb_spec z 0); [by subst|discriminate].
    + intros is_training filenames idx.
      unfold NumpyDataset.__getitem__, NumpyDataset.transform. simpl.
      by rewrite Hcrop.
    + intros is_training minibatch. unfold Collator.collate. simpl.
      by rewrite Hcrop.
Qed.

(** An explicit override of 0 against three configured frames. *)
Lemma falsy_override_ignored_witness :
  truthy (Some 0) = false /\
  crop_frames (Some 0) demo_params = 3 /\
  (forall is_training filenames idx,
     NumpyDataset.__getitem__ (NumpyDataset.mk demo_params is_training filenames (Some 0)) idx
     = NumpyDataset.__getitem__ (NumpyDataset.mk demo_params is_training filenames None) idx) /\
  (forall is_training minibatch,
     Collator.collate (Collator.mk demo_params is_training (Some 0)) minibatch
     = Collator.collate (Collator.mk demo_params is_training None) minibatch) /\
  exists z, Some 5 = Some z /\ z ≠ 0 /\ crop_frames (Some 5) demo_params = z.
Proof.
  destruct (falsy_override_ignored (S := Q_samples) (TA := demo_audio)
              (PP := demo_preprocess) (Some 0) demo_params) as [_ Hfalsy].
  destruct (Hfalsy eq_refl) as (_ & Hcrop & Hget & Hcollate).
  destruct (falsy_override_ignored (S := Q_samples) (TA := demo_audio)
              (PP := demo_preprocess) (Some 5) demo_params) as [Htruthy _].
  split; [reflexivity|]. split; [exact Hcrop|]. split; [exact Hget|].
  split; [exact Hcollate|]. exact (Htruthy eq_refl).
Defined.

(** ** Properties of the Batch Collator *)

Section Collation.
Context `{S : Samples}.

Lemma filter_record_example (crop_mel : Z) (ex : Example) :
  Collator.filter_record crop_mel (as_record ex)
  = if scalar_spectrogram ex then Raise TypeError else Ok (filtered crop_mel ex).
Proof.
  destruct ex as [a [x|] c]; [|reflexivity].
  unfold Collator.filter_record, scalar_spectrogram, filtered, excluded, time_length.
  change (Collator.getitem _ "spectrogram") with (Ok (VTensor x)).
  unfold Tensor.len. simpl.
  destruct (Tensor.shape x) as [|n s]; simpl; [reflexivity|].
  destruct (Z.of_nat n <? crop_mel); reflexivity.
Qed.

Lemma filter_records_examples (crop_mel : Z) (exs : list Example) :
  Collator.filter_records crop_mel (map as_record exs)
  = if existsb scalar_spectrogram exs then Raise TypeError
    else Ok (map (filtered crop_mel) exs).
Proof.
  induction exs as [|ex exs IH]; simpl; [reflexivity|].
  rewrite filter_record_example, IH.
  destruct (scalar_spectrogram ex); simpl; [reflexivity|].
  destruct (existsb scalar_spectrogram exs); reflexivity.
Qed.

Lemma is_empty_filtered (crop_mel : Z) (ex : Example) :
  Collator.is_empty (filtered crop_mel ex) = excluded crop_mel ex.
Proof.
  unfold filtered. destruct (excluded crop_mel ex); [reflexivity|].
  destruct ex as [a [x|] c]; reflexivity.
Qed.

Lemma lookup_filtered (crop_mel : Z) (ex : Example) :
  filtered crop_mel ex !! "audio" = (fun e => VTensor e.1.1) <$> survivor crop_mel ex /\
  filtered crop_mel ex !! "audio_cond_inst"
  = (fun e => VTensor e.2) <$> survivor crop_mel ex /\
  filtered crop_mel ex !! "spectrogram"
  = (fun e => VTensor (Tensor.T e.1.2)) <$> survivor crop_mel ex.
Proof.
  unfold filtered, survivor. destruct (excluded crop_mel ex) eqn:E.
  - repeat split; reflexivity.
  - destruct ex as [a [x|] c]; [|discriminate]. repeat split; reflexivity.
Qed.

Lemma column_omap {E : Type} (key : string) (f : Example -> gmap string value)
  (g : E -> value) (h : Example -> option E) (exs : list Example) :
  (forall ex, f ex !! key = g <$> h ex) ->
  Collator.column key (map f exs) = g <$> omap h exs.
Proof.
  intros Hf. unfold Collator.column.
  induction exs as [|ex exs IH]; simpl; [reflexivity|].
  rewrite Hf. change (list_omap ?A ?B ?k ?l) with (omap k l).
  rewrite IH. by destruct (h ex).
Qed.

Lemma stack_values_tensors {E : Type} (g : E -> Tensor.t) (l : list E) :
  Collator.stack_values ((fun e => VTensor (g e)) <$> l) = Tensor.stack (g <$> l).
Proof.
  unfold Collator.stack_values.
  assert (forall acc, for_each (fun acc v => match v with
                                              | VTensor x => Ok (acc ++ [x])
                                              | VNone => Raise TypeError
                                              end) ((fun e => VTensor (g e)) <$> l) acc
                      = Ok (acc ++ (g <$> l))) as Hloop.
  { induction l as [|e l IH]; intros acc; simpl.
    - by rewrite app_nil_r.
    - rewrite IH. by rewrite <- app_assoc. }
  by rewrite Hloop.
Qed.

(** A stack that succeeds is of tensors of one shape, and has one more,
    leading dimension: their number. *)
Lemma stack_shape (xs : list Tensor.t) (stacked : Tensor.t) :
  Tensor.stack xs = Ok stacked ->
  exists x0, head xs = Some x0 /\
             Tensor.shape stacked = length xs :: Tensor.shape x0 /\
             Forall (fun y => Tensor.shape y = Tensor.shape x0) xs.
Proof.
  unfold Tensor.stack. destruct xs as [|x0 xs]; [discriminate|].
  destruct (forallb _ _) eqn:Hall; [|discriminate]. intros [= <-].
  exists x0. split; [reflexivity|]. split; [reflexivity|].
  apply Forall_forall. intros y Hy. apply list_elem_of_In in Hy.
  rewrite forallb_forall in Hall. specialize (Hall y Hy).
  by apply bool_decide_eq_true in Hall.
Qed.

Lemma forallb_map_ext {A B : Type} (p : B -> bool) (f : A -> B) (q : A -> bool)
  (l : list A) :
  (forall x, p (f x) = q x) -> forallb p (map f l) = forallb q l.
Proof. intros Hpq. induction l as [|x l IH]; simpl; by rewrite ?Hpq, ?IH. Qed.

(** The collator on the records of Transformed Examples. *)
Lemma collate_examples (self : Collator.t) (exs : list Example) :
  let crop_mel := crop_frames (Collator.crop_mel self) (Collator.params self) in
  let kept := survivors crop_mel exs in
  Collator.collate self (map as_record exs)
  = if existsb scalar_spectrogram exs then Raise TypeError
    else if forallb (excluded crop_mel) exs then Ok None
    else
      a ← Tensor.stack ((fun e => e.1.1) <$> kept);
      c ← Tensor.stack ((fun e => e.2) <$> kept);
      x ← Tensor.stack ((fun e => Tensor.T e.1.2) <$> kept);
      Ok (Some (batch_record a x c)).
Proof.
  intros crop_mel kept. unfold Collator.collate. fold crop_mel.
  rewrite filter_records_examples.
  destruct (existsb scalar_spectrogram exs); [reflexivity|]. simpl.
  rewrite (forallb_map_ext _ _ (excluded crop_mel))
    by (intros ex; apply is_empty_filtered).
  destruct (forallb (excluded crop_mel) exs); [reflexivity|].
  rewrite (column_omap "audio" _ (fun e => VTensor e.1.1) (survivor crop_mel))
    by (intros ex; apply lookup_filtered).
  rewrite (column_omap "audio_cond_inst" _ (fun e => VTensor e.2) (survivor crop_mel))
    by (intros ex; apply lookup_filtered).
  rewrite (column_omap "spectrogram" _ (fun e => VTensor (Tensor.T e.1.2))
             (survivor crop_mel)) by (intros ex; apply lookup_filtered).
  fold (survivors crop_mel exs). fold kept.
  rewrite (stack_values_tensors (fun e => e.1.1)),
    (stack_values_tensors (fun e => e.2)),
    (stack_values_tensors (fun e => Tensor.T e.1.2)).
  reflexivity.
Qed.

Lemma excluded_spec (crop_mel : Z) (ex : Example) :
  excluded crop_mel ex = true <->
  spectrogram ex = None
  \/ exists x n, spectrogram ex = Some x /\ time_length x = Some n /\ Z.of_nat n < crop_mel.
Proof.
  unfold excluded. destruct (spectrogram ex) as [x|]; cycle 1.
  { split; [by left|done]. }
  destruct (time_length x) as [n|] eqn:Hlen.
  - rewrite Z.ltb_lt. split.
    + intros Hlt. right. exists x, n. by rewrite Hlen.
    + intros [?|(x' & n' & Hx & Hn & Hlt)]; [done|].
      injection Hx as <-. rewrite Hlen in Hn. by injection Hn as <-.
  - split; [done|]. intros [?|(x' & n' & Hx & Hn & _)]; [done|].
    injection Hx as <-. by rewrite Hlen in Hn.
Qed.

Lemma retained_spec (crop_mel : Z) (ex : Example) :
  scalar_spectrogram ex = false ->
  excluded crop_mel ex = false <->
  exists x n, spectrogram ex = Some x /\ time_length x = Some n /\ crop_mel <= Z.of_nat n.
Proof.
  unfold scalar_spectrogram, excluded, time_length.
  destruct (spectrogram ex) as [x|]; [|intros _; split; [done|by intros (? & ? & ? & _)]].
  destruct (Tensor.shape x) as [|n s] eqn:Hshape; [done|]. intros _. simpl.
  rewrite Z.ltb_ge. split.
  - intros Hge. exists x, n. by rewrite Hshape.
  - intros (x' & n' & ? & Hn & ?). simplify_eq. rewrite Hshape in Hn. by simplify_eq/=.
Qed.

Lemma length_survivors (crop_mel : Z) (exs : list Example) :
  length (survivors crop_mel exs)
  = length (filter (fun ex => excluded crop_mel ex = false) exs).
Proof.
  unfold survivors. induction exs as [|ex exs IH]; [reflexivity|].
  rewrite filter_cons. simpl.
  change (list_omap ?A ?B ?k ?l) with (omap k l).
  unfold survivor at 1.
  destruct (decide (excluded crop_mel ex = false)) as [Hkept|Hdropped].
  - rewrite Hkept. destruct ex as [a [x|] c]; [|discriminate].
    simpl. by rewrite IH.
  - destruct (excluded crop_mel ex); [exact IH|done].
Qed.

(** What a collation that returns a Batch has done. *)
Lemma collate_batch (self : Collator.t) (exs : list Example)
  (batch : gmap string value) :
  let crop_mel := crop_frames (Collator.crop_mel self) (Collator.params self) in
  let kept := survivors crop_mel exs in
  Collator.collate self (map as_record exs) = Ok (Some batch) ->
  existsb scalar_spectrogram exs = false /\
  exists a x c : Tensor.t,
    batch = batch_record a x c /\
    Tensor.stack ((fun e => e.1.1) <$> kept) = Ok a /\
    Tensor.stack ((fun e => Tensor.T e.1.2) <$> kept) = Ok x /\
    Tensor.stack ((fun e => e.2) <$> kept) = Ok c.
Proof.
  intros crop_mel kept. rewrite collate_examples. fold crop_mel kept.
  destruct (existsb scalar_spectrogram exs); [discriminate|].
  destruct (forallb (excluded crop_mel) exs); [discriminate|].
  destruct (Tensor.stack ((fun e => e.1.1) <$> kept)) as [a|?]; [|discriminate].
  destruct (Tensor.stack ((fun e => e.2) <$> kept)) as [c|?]; [|discriminate].
  destruct (Tensor.stack ((fun e => Tensor.T e.1.2) <$> kept)) as [x|?]; [|discriminate].
  simpl. intros [= <-]. split; [reflexivity|]. by exists a, x, c.
Qed.

Lemma stack_leading (E : Type) (g : E -> Tensor.t) (l : list E) (stacked : Tensor.t) :
  Tensor.stack (g <$> l) = Ok stacked -> head (Tensor.shape stacked) = Some (length l).
Proof.
  intros Hstack. apply stack_shape in Hstack as (x0 & _ & -> & _).
  simpl. by rewrite length_fmap.
Qed.

(** C4. For every list of Transformed Examples, the empty one included, the
    collator returns [None] exactly when every example of the list is
    excluded by the filter: its spectrogram is absent, or has a time-length
    below the crop length in force. *)
Theorem empty_batch_iff (self : Collator.t) (exs : list Example) :
  let crop_mel := crop_frames (Collator.crop_mel self) (Collator.params self) in
  Collator.collate self (map as_record exs) = Ok None <->
  forall ex, ex ∈ exs ->
    spectrogram ex = None
    \/ exists x n, spectrogram ex = Some x /\ time_length x = Some n /\ Z.of_nat n < crop_mel.
Proof.
  intros crop_mel. rewrite collate_examples. fold crop_mel.
  assert ((forall ex, ex ∈ exs ->
             spectrogram ex = None
             \/ exists x n, spectrogram ex = Some x /\ time_length x = Some n
                            /\ Z.of_nat n < crop_mel)
          <-> forallb (excluded crop_mel) exs = true) as ->.
  { rewrite forallb_forall. split; intros Hall ex Hex.
    - apply excluded_spec, Hall. by apply list_elem_of_In.
    - apply excluded_spec, Hall. by apply list_elem_of_In. }
  destruct (existsb scalar_spectrogram exs) eqn:Hscalar.
  - split; [discriminate|]. intros Hall.
    apply existsb_exists in Hscalar as (ex & Hex & Hs).
    rewrite forallb_forall in Hall. specialize (Hall ex Hex).
    unfold scalar_spectrogram in Hs. unfold excluded, time_length in Hall.
    destruct (spectrogram ex) as [x|]; [|discriminate].
    apply bool_decide_eq_true in Hs. rewrite Hs in Hall. discriminate.
  - destruct (forallb (excluded crop_mel) exs); [done|].
    split; [|discriminate].
    destruct (Tensor.stack ((fun e => e.1.1) <$> _)) as [a|?]; [|discriminate].
    destruct (Tensor.stack ((fun e => e.2) <$> _)) as [c|?]; [|discriminate].
    destruct (Tensor.stack ((fun e => Tensor.T e.1.2) <$> _)) as [x|?]; discriminate.
Qed.

(** C5. When the collator returns a Batch for a list of Transformed
    Examples, its three fields are the stacks of the [audio], the
    [spectrogram] and the [audio_cond_inst] of one and the same list of
    survivors, the examples the filter does not exclude, so that an excluded
    example is in none of them; and the leading dimension of each field is
    the number of survivors. *)
Theorem batch_dimension (self : Collator.t) (exs : list Example)
  (batch : gmap string value) :
  let crop_mel := crop_frames (Collator.crop_mel self) (Collator.params self) in
  let kept := survivors crop_mel exs in
  Collator.collate self (map as_record exs) = Ok (Some batch) ->
  length kept = length (filter (fun ex => excluded crop_mel ex = false) exs) /\
  exists a x c : Tensor.t,
    batch = batch_record a x c /\
    Tensor.stack ((fun e => e.1.1) <$> kept) = Ok a /\
    Tensor.stack ((fun e => Tensor.T e.1.2) <$> kept) = Ok x /\
    Tensor.stack ((fun e => e.2) <$> kept) = Ok c /\
    head (Tensor.shape a) = Some (length kept) /\
    head (Tensor.shape x) = Some (length kept) /\
    head (Tensor.shape c) = Some (length kept).
Proof.
  intros crop_mel kept Hbatch. split; [apply length_survivors|].
  apply collate_batch in Hbatch as (_ & a & x & c & -> & Ha & Hx & Hc).
  fold crop_mel kept in Ha, Hx, Hc. exists a, x, c.
  repeat split; try done; by eapply stack_leading.
Qed.

(** C8, as the collator has it. When the collator returns a Batch, the
    spectrograms it stacks, those of the survivors, share one time-length,
    which is at least the crop length in force; and an example is retained
    exactly when its spectrogram is present with a time-length of at least
    the crop length, longer ones included. *)
Theorem stacked_spectrograms_share_length (self : Collator.t) (exs : list Example)
  (batch : gmap string value) :
  let crop_mel := crop_frames (Collator.crop_mel self) (Collator.params self) in
  Collator.collate self (map as_record exs) = Ok (Some batch) ->
  (exists frames : nat,
     crop_mel <= Z.of_nat frames /\
     survivors crop_mel exs ≠ [] /\
     forall e, e ∈ survivors crop_mel exs -> time_length e.1.2 = Some frames) /\
  (forall ex, ex ∈ exs ->
     excluded crop_mel ex = false <->
     exists x n, spectrogram ex = Some x /\ time_length x = Some n
                 /\ crop_mel <= Z.of_nat n).
Proof.
  intros crop_mel Hbatch.
  apply collate_batch in Hbatch as (Hscalar & a & x & c & _ & _ & Hx & _).
  fold crop_mel in Hx.
  assert (forall ex, ex ∈ exs -> scalar_spectrogram ex = false) as Hrank.
  { intros ex Hex. destruct (scalar_spectrogram ex) eqn:Hs; [|done].
    assert (existsb scalar_spectrogram exs = true) as Hex'; [|congruence].
    apply existsb_exists. exists ex. by rewrite <- list_elem_of_In. }
  split; [|intros ex Hex; by apply retained_spec, Hrank].
  apply stack_shape in Hx as (t0 & Hhead & _ & Hall).
  destruct (survivors crop_mel exs) as [|e0 kept] eqn:Hkept; [discriminate|].
  simpl in Hhead. injection Hhead as <-.
  assert (e0 ∈ survivors crop_mel exs) as He0 by (rewrite Hkept; left).
  apply list_elem_of_omap in He0 as (ex0 & Hex0 & Hsurv).
  unfold survivor in Hsurv. destruct (excluded crop_mel ex0) eqn:Hexcl; [discriminate|].
  apply (retained_spec _ _ (Hrank ex0 Hex0)) in Hexcl as (x0 & n & Hx0 & Hn & Hge).
  rewrite Hx0 in Hsurv. simpl in Hsurv. injection Hsurv as He0.
  assert (time_length e0.1.2 = Some n) as Hn0 by (by rewrite <- He0).
  exists n. split; [exact Hge|]. split; [done|].
  intros e He. rewrite Forall_forall in Hall.
  assert (Tensor.T e.1.2 ∈ (fun e => Tensor.T e.1.2) <$> e0 :: kept) as Hin.
  { apply list_elem_of_fmap. by exists e. }
  apply Hall in Hin. simpl in Hin. apply (f_equal (@rev nat)) in Hin.
  rewrite !rev_involutive in Hin.
  unfold time_length in *. by rewrite Hin.
Qed.

End Collation.

(** Scenario 4: four examples without spectrogram collate to [None]; so
    does the empty list. *)
Example all_absent_is_none :
  Collator.collate demo_collator
    (map as_record [example_without_spectrogram; example_without_spectrogram;
                    example_without_spectrogram; example_without_spectrogram])
  = Ok None
  /\ Collator.collate demo_collator [] = Ok None.
Proof. split; reflexivity. Qed.

(** Spectrograms of three and of four frames both pass the filter of a
    crop length of three, and cannot be stacked together. *)
Example unequal_lengths_do_not_stack :
  Collator.collate demo_collator
    (map as_record [example_of_frames 3; example_of_frames 4])
  = Raise RuntimeError.
Proof. reflexivity. Qed.

(** Scenario 3: of four examples three have no spectrogram; the Batch has
    a leading dimension of 1 on all its fields. *)
Lemma batch_dimension_witness :
  exists (batch : gmap string value) (a x c : Tensor.t),
    Collator.collate demo_collator
      (map as_record [example_without_spectrogram; example_without_spectrogram;
                      example_of_frames 3; example_without_spectrogram])
    = Ok (Some batch) /\
    batch = batch_record a x c /\
    head (Tensor.shape a) = Some 1%nat /\
    head (Tensor.shape x) = Some 1%nat /\
    head (Tensor.shape c) = Some 1%nat.
Proof.
  assert (exists batch,
            Collator.collate demo_collator
              (map as_record [example_without_spectrogram; example_without_spectrogram;
                              example_of_frames 3; example_without_spectrogram])
            = Ok (Some batch)) as [batch Hbatch] by (eexists; reflexivity).
  destruct (batch_dimension (S := Q_samples) demo_collator _ batch Hbatch)
    as (_ & a & x & c & Hrec & _ & _ & _ & Ha & Hx & Hc).
  exists batch, a, x, c. repeat split; assumption.
Defined.

(** C8, as stated, fails: a single example whose spectrogram has four
    frames is retained under a crop length of three, and the Batch is made
    of it. *)
Lemma stacked_at_crop_length_fails :
  (exists (batch : gmap string value) (x : Tensor.t),
     Collator.collate demo_collator (map as_record [example_of_frames 4])
     = Ok (Some batch) /\
     batch !! "spectrogram" = Some (VTensor x) /\
     Tensor.shape x = [1%nat; 2%nat; 4%nat] /\
     crop_frames (Collator.crop_mel demo_collator) (Collator.params demo_collator) = 3) /\
  ~ stacked_at_crop_length demo_collator [example_of_frames 4].
Proof.
  assert (exists (batch : gmap string value) (x : Tensor.t),
            Collator.collate demo_collator (map as_record [example_of_frames 4])
            = Ok (Some batch) /\
            batch !! "spectrogram" = Some (VTensor x) /\
            Tensor.shape x = [1%nat; 2%nat; 4%nat])
    as (batch & x & Hbatch & Hx & Hshape)
    by (do 2 eexists; split; [|split]; reflexivity).
  split.
  - exists batch, x. repeat split; assumption || reflexivity.
  - intros Hclaim.
    destruct (Hclaim batch Hbatch (wave 101 12, mel 4, wave 1 12)) as (n & Hn & Hcrop).
    + left.
    + injection Hn as <-. discriminate Hcrop.
Qed.

(** Two examples of four frames around one without spectrogram, under a
    crop length of three: the stacked spectrograms share four frames. *)
Lemma stacked_spectrograms_share_length_witness :
  exists frames : nat,
    3 <= Z.of_nat frames /\
    forall e,
      e ∈ survivors 3 [example_of_frames 4; example_without_spectrogram;
                       example_of_frames 4] ->
      time_length e.1.2 = Some frames.
Proof.
  assert (exists batch,
            Collator.collate demo_collator
              (map as_record [example_of_frames 4; example_without_spectrogram;
                              example_of_frames 4])
            = Ok (Some batch)) as [batch Hbatch] by (eexists; reflexivity).
  destruct (stacked_spectrograms_share_length (S := Q_samples) demo_collator _ batch Hbatch)
    as [(frames & Hge & _ & Hall) _].
  exists frames. split; [exact Hge|exact Hall].
Defined.

(** ** Further properties of the Pair Indexer *)

Lemma length_append (s t : string) :
  String.length (s +:+ t) = (String.length s + String.length t)%nat.
Proof. induction s as [|c s IH]; simpl; by rewrite ?IH. Qed.

Lemma substring_prefix (s t : string) :
  String.substring 0 (String.length s) (s +:+ t) = s.
Proof.
  induction s as [|c s IH]; simpl.
  - by destruct t.
  - by rewrite IH.
Qed.

Lemma drop_last_append (s t : string) :
  Str.drop_last (String.length t) (s +:+ t) = s.
Proof.
  unfold Str.drop_last. rewrite length_append.
  replace (String.length s + String.length t - String.length t)%nat
    with (String.length s) by lia.
  apply substring_prefix.
Qed.

Lemma append_inv_head (s a b : string) : s +:+ a = s +:+ b -> a = b.
Proof. induction s as [|c s IH]; simpl; [done|]. intros [= Heq]. by apply IH. Qed.

Lemma append_assoc (a b c : string) : (a +:+ b) +:+ c = a +:+ (b +:+ c).
Proof.
  induction a as [|x a IH]; [reflexivity|].
  change (String x ((a +:+ b) +:+ c) = String x (a +:+ (b +:+ c))). by rewrite IH.
Qed.

(** The names of the six instrument files of a group. *)
Lemma tagged_digit (stem : string) (tag : Z) :
  0 <= tag <= 9 ->
  exists suffix : string,
    tagged stem tag = stem +:+ suffix /\ String.length suffix = 6%nat /\
    suffix = "." +:+ Str.of_int tag +:+ ".wav".
Proof.
  intros Htag. exists ("." +:+ Str.of_int tag +:+ ".wav").
  split; [reflexivity|]. split; [|reflexivity].
  assert (tag = 0 \/ tag = 1 \/ tag = 2 \/ tag = 3 \/ tag = 4 \/ tag = 5 \/ tag = 6
          \/ tag = 7 \/ tag = 8 \/ tag = 9) as Hcases by lia.
  repeat (destruct Hcases as [->|Hcases]; [reflexivity|]). by subst.
Qed.

(** The scan's [x[:-6]] on the name of an instrument file. *)
Lemma group_stem_of_tagged (stem : string) (tag : Z) :
  0 <= tag <= 9 -> Str.drop_last 6 (tagged stem tag) = stem.
Proof.
  intros Htag. destruct (tagged_digit stem tag Htag) as (suffix & -> & <- & _).
  apply drop_last_append.
Qed.

(** X1. Stripping the last six characters recovers the stem of any file
    named [<stem>.<tag>.wav] with a one-digit tag: the scan of line 45 maps
    the six files of a group to the group's stem. *)
Theorem group_stem_tagged (stem : string) (tag : Z) :
  0 <= tag <= 9 -> Str.drop_last 6 (tagged stem tag) = stem.
Proof.
  intros Htag. destruct (tagged_digit stem tag Htag) as (suffix & Hname & Hlen & _).
  rewrite Hname, <- Hlen. apply drop_last_append.
Qed.

Lemma group_stem_tagged_witness :
  Str.drop_last 6 (tagged "data/songA" 4) = "data/songA".
Proof. apply (group_stem_tagged "data/songA" 4). lia. Defined.

(** With a tag of two digits the six characters stripped leave the dot
    behind. *)
Example group_stem_two_digits : Str.drop_last 6 (tagged "songA" 10) = "songA.".
Proof. reflexivity. Qed.

Lemma tagged_inj_tag (stem : string) (i j : Z) :
  0 <= i <= 9 -> 0 <= j <= 9 -> tagged stem i = tagged stem j -> i = j.
Proof.
  intros Hi Hj Heq. apply append_inv_head in Heq.
  assert (i = 0 \/ i = 1 \/ i = 2 \/ i = 3 \/ i = 4 \/ i = 5 \/ i = 6
          \/ i = 7 \/ i = 8 \/ i = 9) as Hci by lia.
  assert (j = 0 \/ j = 1 \/ j = 2 \/ j = 3 \/ j = 4 \/ j = 5 \/ j = 6
          \/ j = 7 \/ j = 8 \/ j = 9) as Hcj by lia.
  repeat (destruct Hci as [->|Hci]); try subst i;
    repeat (destruct Hcj as [->|Hcj]); try subst j;
    first [reflexivity | discriminate Heq].
Qed.

(** The pair list of either regime: tags between 0 and 5, never a tag with
    itself, and with every pair its swap. *)
Lemma indices_pairs (params : Params) (i j : Z) :
  (i, j) ∈ NumpyDataset.indices params ->
  0 <= i <= 5 /\ 0 <= j <= 5 /\ i ≠ j /\ (j, i) ∈ NumpyDataset.indices params.
Proof.
  unfold NumpyDataset.indices. rewrite !list_elem_of_In.
  destruct (train_mixtures params); simpl; intros Hin;
    repeat (destruct Hin as [[= <- <-]|Hin]; [repeat split; try lia; tauto|]);
    destruct Hin.
Qed.

Lemma indices_NoDup (params : Params) : NoDup (NumpyDataset.indices params).
Proof.
  unfold NumpyDataset.indices.
  destruct (train_mixtures params); apply NoDup_ListNoDup;
    repeat (constructor; [simpl; intuition congruence|]); constructor.
Qed.

Lemma elem_of_scan_pairs (indices : list (Z * Z)) (stem p1 p2 : string) :
  (p1, p2) ∈ NumpyDataset.scan_pairs indices stem <->
  exists i j, (i, j) ∈ indices /\ p1 = tagged stem i /\ p2 = tagged stem j.
Proof.
  unfold NumpyDataset.scan_pairs. rewrite list_elem_of_fmap. split.
  - intros ([i j] & [= -> ->] & Hin). by exists i, j.
  - intros (i & j & Hin & -> & ->). by exists (i, j).
Qed.

Lemma elem_of_flat_map {A B : Type} (f : A -> list B) (l : list A) (y : B) :
  y ∈ flat_map f l <-> exists x, x ∈ l /\ y ∈ f x.
Proof.
  rewrite list_elem_of_In, in_flat_map. split; intros (x & Hx & Hy); exists x;
    by rewrite ?list_elem_of_In in *.
Qed.

Lemma NoDup_flat_map {A B : Type} (f : A -> list B) (l : list A) :
  (forall x1 x2 y, x1 ∈ l -> x2 ∈ l -> y ∈ f x1 -> y ∈ f x2 -> x1 = x2) ->
  (forall x, x ∈ l -> NoDup (f x)) -> NoDup l -> NoDup (flat_map f l).
Proof.
  intros Hdisj Hf Hl. replace (flat_map f l) with (l ≫= f).
  - by apply NoDup_bind.
  - induction l as [|x l IH]; simpl; [done|]. f_equal.
Qed.

Section IndexerMore.
Context `{FS : FileSystem}.

(** The index of mode (a). *)
Lemma init_scanned (paths : list string) (files : option (list string))
  (params : Params) (crop_mel : option Z) (is_training : bool) :
  NumpyDataset.no_files files = true ->
  NumpyDataset.__init__ paths files params crop_mel is_training
  = Ok (NumpyDataset.mk params is_training
          (flat_map (NumpyDataset.scan_pairs (NumpyDataset.indices params))
             (first_occurrences (map group_stem (scanned paths))))
          crop_mel).
Proof.
  intros Hmode. unfold NumpyDataset.__init__. rewrite Hmode.
  rewrite scan_loop_spec, glob_all_scanned. simpl.
  by rewrite filter_all by (intros g; apply not_elem_of_empty).
Qed.

Lemma for_each_listed_read (indices : list (Z * Z)) (paths files : list string)
  (acc : list (string * string)) :
  length files = length paths ->
  for_each (fun acc '(path, f) =>
              text ← read_text f;
              Ok (NumpyDataset.lines_loop indices path (Str.split Str.newline text) acc))
    (zip paths files) acc
  = texts ← read_all files; Ok (acc ++ listed_index indices paths texts).
Proof.
  revert files acc.
  induction paths as [|path paths IH]; intros [|f files] acc Hlen; simplify_eq/=.
  - by rewrite app_nil_r.
  - destruct (read_text f) as [text|e]; simpl; [|reflexivity].
    rewrite IH by done.
    destruct (read_all files) as [texts|e]; simpl; [|reflexivity].
    rewrite lines_loop_spec. unfold listed_index. simpl.
    by rewrite <- app_assoc.
Qed.

(** The index of mode (b). *)
Lemma init_listed (paths : list string) (f : string) (more : list string)
  (params : Params) (crop_mel : option Z) (is_training : bool) :
  NumpyDataset.__init__ paths (Some (f :: more)) params crop_mel is_training
  = if (length (f :: more) =? length paths)%nat
    then texts ← read_all (f :: more);
         Ok (NumpyDataset.mk params is_training
               (listed_index (NumpyDataset.indices params) paths texts) crop_mel)
    else Raise AssertionError.
Proof.
  unfold NumpyDataset.__init__. simpl NumpyDataset.no_files. cbv iota. simpl default.
  destruct (Nat.eqb_spec (length (f :: more)) (length paths)) as [Hlen|_];
    [|reflexivity].
  simpl assert. change (Ok () ≫= ?k) with (k ()). cbv beta.
  rewrite for_each_listed_read by done.
  by destruct (read_all (f :: more)).
Qed.

Lemma length_read_all (files texts : list string) :
  read_all files = Ok texts -> length texts = length files.
Proof.
  revert texts. induction files as [|f files IH]; intros texts; simpl.
  - by intros [= <-].
  - destruct (read_text f) as [text|e]; simpl; [|done].
    destruct (read_all files) as [texts'|e]; simpl; [|done].
    intros [= <-]. simpl. by rewrite (IH texts').
Qed.

(** The joined path of a tagged, non-empty stem is the tagged name of one
    stem, whatever the tag. *)
Lemma path_join_tagged (path x : string) :
  x ≠ EmptyString ->
  exists stem, forall tag, Str.path_join path (tagged x tag) = tagged stem tag.
Proof.
  intros Hx. destruct x as [|c x]; [done|].
  unfold Str.path_join, tagged. simpl Str.starts_with_slash.
  destruct (Ascii.eqb c "/"); [by eexists|].
  destruct ((String.length path =? 0)%nat || Str.ends_with_slash path).
  - exists (path +:+ String c x). intros tag. by rewrite !append_assoc.
  - exists (path +:+ "/" +:+ String c x). intros tag. by rewrite !append_assoc.
Qed.

(** Every entry of the index of mode (b) comes from a directory, a
    non-empty line and a pair of the pair list, and the entries of that line
    for all the pairs of the list are in the index with it. *)
Lemma listed_index_entry (indices : list (Z * Z)) (paths texts : list string)
  (p : string * string) :
  p ∈ listed_index indices paths texts ->
  exists path x i j,
    x ≠ EmptyString /\ (i, j) ∈ indices /\
    p = (Str.path_join path (tagged x i), Str.path_join path (tagged x j)) /\
    forall i' j', (i', j') ∈ indices ->
      (Str.path_join path (tagged x i'), Str.path_join path (tagged x j'))
      ∈ listed_index indices paths texts.
Proof.
  unfold listed_index. rewrite list_elem_of_In, in_concat.
  intros (l & Hl & Hp). apply list_elem_of_In in Hl, Hp.
  pose proof Hl as Hl'.
  apply elem_of_zip_with in Hl' as (path & text & -> & _ & _).
  apply elem_of_flat_map in Hp as (x & Hx & Hp).
  apply list_elem_of_fmap in Hp as ([i j] & -> & Hij).
  exists path, x, i, j. split.
  { unfold nonempty_lines in Hx. by apply list_elem_of_filter in Hx as [Hx _]. }
  split; [done|]. split; [done|].
  intros i' j' Hij'. rewrite list_elem_of_In, in_concat.
  eexists. split; [apply list_elem_of_In, Hl|].
  apply list_elem_of_In, elem_of_flat_map. exists x. split; [done|].
  apply list_elem_of_fmap. by exists (i', j').
Qed.

(** X2. In mode (a) no Training Example is listed twice. *)
Theorem scan_index_NoDup (paths : list string) (files : option (list string))
  (params : Params) (crop_mel : option Z) (is_training : bool) :
  NumpyDataset.no_files files = true ->
  exists self,
    NumpyDataset.__init__ paths files params crop_mel is_training = Ok self /\
    NoDup (NumpyDataset.filenames self).
Proof.
  intros Hmode. eexists. split; [by apply init_scanned|]. simpl.
  apply NoDup_flat_map.
  - intros g1 g2 [p1 p2] _ _ H1 H2.
    apply elem_of_scan_pairs in H1 as (i1 & j1 & Hi1 & -> & _).
    apply elem_of_scan_pairs in H2 as (i2 & j2 & Hi2 & Heq & _).
    apply indices_pairs in Hi1 as (Hi1 & _). apply indices_pairs in Hi2 as (Hi2 & _).
    apply (f_equal (Str.drop_last 6)) in Heq.
    by rewrite !group_stem_of_tagged in Heq by lia.
  - intros g _. unfold NumpyDataset.scan_pairs.
    apply NoDup_fmap_2_strong; [|apply indices_NoDup].
    intros [i1 j1] [i2 j2] Hi1 Hi2 [= Hi Hj].
    apply indices_pairs in Hi1 as (? & ? & _). apply indices_pairs in Hi2 as (? & ? & _).
    f_equal; eapply tagged_inj_tag; try eassumption; lia.
  - apply first_occurrences_NoDup.
Qed.

(** X3. In either mode, every Training Example of a dataset that was built
    names two different files, and the index holds its swap as well: each
    transfer direction comes with its reverse. *)
Theorem index_pairs_swapped (paths : list string) (files : option (list string))
  (params : Params) (crop_mel : option Z) (is_training : bool)
  (self : NumpyDataset.t) (p1 p2 : string) :
  NumpyDataset.__init__ paths files params crop_mel is_training = Ok self ->
  (p1, p2) ∈ NumpyDataset.filenames self ->
  p1 ≠ p2 /\ (p2, p1) ∈ NumpyDataset.filenames self.
Proof.
  intros Hinit Hin.
  destruct (NumpyDataset.no_files files) eqn:Hmode.
  - rewrite init_scanned in Hinit by done. injection Hinit as <-. simpl in *.
    apply elem_of_flat_map in Hin as (g & Hg & Hin).
    apply elem_of_scan_pairs in Hin as (i & j & Hij & -> & ->).
    apply indices_pairs in Hij as (Hi & Hj & Hne & Hji). split.
    + intros Heq. apply Hne. eapply tagged_inj_tag; try eassumption; lia.
    + apply elem_of_flat_map. exists g. split; [done|].
      apply elem_of_scan_pairs. by exists j, i.
  - destruct files as [[|f more]|]; try discriminate.
    rewrite init_listed in Hinit.
    destruct (length (f :: more) =? length paths)%nat; [|discriminate].
    destruct (read_all (f :: more)) as [texts|e]; [|discriminate].
    injection Hinit as <-. simpl in *.
    apply listed_index_entry in Hin as (path & x & i & j & Hx & Hij & [= -> ->] & Hall).
    apply indices_pairs in Hij as (Hi & Hj & Hne & Hji). split.
    + destruct (path_join_tagged path x Hx) as (stem & Hstem).
      rewrite !Hstem. intros Heq. apply Hne.
      eapply tagged_inj_tag; try eassumption; lia.
    + by apply Hall.
Qed.

End IndexerMore.

(** The same stem found under two scans of one root: six entries, none
    twice. *)
Lemma scan_index_NoDup_witness :
  exists self,
    NumpyDataset.__init__ ["data"; "data"] (Some []) demo_params None true = Ok self /\
    NoDup (NumpyDataset.filenames self).
Proof.
  exact (scan_index_NoDup (FS := demo_fs) ["data"; "data"] (Some []) demo_params None true
           eq_refl).
Defined.

Lemma index_pairs_swapped_witness :
  "a/songB.1.wav" ≠ "a/songB.4.wav" /\
  exists self,
    NumpyDataset.__init__ ["a"] (Some ["train.txt"]) demo_params None true = Ok self /\
    ("a/songB.4.wav", "a/songB.1.wav") ∈ NumpyDataset.filenames self.
Proof.
  assert (exists self,
            NumpyDataset.__init__ ["a"] (Some ["train.txt"]) demo_params None true
            = Ok self /\
            NumpyDataset.filenames self !! 8%nat = Some ("a/songB.1.wav", "a/songB.4.wav"))
    as (self & Hinit & Hentry) by (eexists; split; reflexivity).
  destruct (index_pairs_swapped (FS := demo_fs) ["a"] (Some ["train.txt"]) demo_params
              None true self "a/songB.1.wav" "a/songB.4.wav" Hinit
              (list_elem_of_lookup_2 _ _ _ Hentry)) as [Hne Hswap].
  split; [exact Hne|]. exists self. split; [exact Hinit|exact Hswap].
Defined.


Section ListedMore.
Context `{FS : FileSystem}.

Lemma length_listed_index (indices : list (Z * Z)) (paths texts : list string) :
  length paths = length texts ->
  length (listed_index indices paths texts)
  = (length indices * sum_list ((fun text => length (nonempty_lines text)) <$> texts))%nat.
Proof.
  unfold listed_index. revert texts.
  induction paths as [|path paths IH]; intros [|text texts] Hlen; simplify_eq/=.
  - lia.
  - rewrite length_app, IH by done.
    rewrite (length_flat_map_const _ (length indices)) by (intros x; apply length_map).
    lia.
Qed.

(** X4. In mode (b) the index holds one entry per pair of the regime and
    per non-empty line of the list files, repeated lines counted as often as
    they appear: the listed stems are not deduplicated. *)
Theorem listed_index_count (paths : list string) (f : string) (more : list string)
  (params : Params) (crop_mel : option Z) (is_training : bool)
  (self : NumpyDataset.t) :
  NumpyDataset.__init__ paths (Some (f :: more)) params crop_mel is_training = Ok self ->
  exists texts,
    read_all (f :: more) = Ok texts /\
    NumpyDataset.__len__ self
    = (length (NumpyDataset.indices params)
       * sum_list ((fun text => length (nonempty_lines text)) <$> texts))%nat.
Proof.
  rewrite init_listed.
  destruct (Nat.eqb_spec (length (f :: more)) (length paths)) as [Hlen|_];
    [|discriminate].
  destruct (read_all (f :: more)) as [texts|e] eqn:Hread; [|discriminate].
  intros [= <-]. exists texts. split; [done|].
  unfold NumpyDataset.__len__. simpl NumpyDataset.filenames.
  apply length_listed_index. apply length_read_all in Hread. congruence.
Qed.

Lemma read_all_unreadable (pre post : list string) (f : string) (e : exn) :
  Forall (fun g => exists text, read_text g = Ok text) pre ->
  read_text f = Raise e ->
  read_all (pre ++ f :: post) = Raise e.
Proof.
  intros Hpre Hf. induction Hpre as [|g pre [text Hg] _ IH]; simpl.
  - by rewrite Hf.
  - by rewrite Hg, IH.
Qed.

(** X5. In mode (b) with as many list files as directories, when a list
    file cannot be read the construction raises the error of the first such
    file, and no dataset exists. *)
Theorem listed_index_unreadable (paths pre post : list string) (f : string) (e : exn)
  (params : Params) (crop_mel : option Z) (is_training : bool) :
  length (pre ++ f :: post) = length paths ->
  Forall (fun g => exists text, read_text g = Ok text) pre ->
  read_text f = Raise e ->
  NumpyDataset.__init__ paths (Some (pre ++ f :: post)) params crop_mel is_training
  = Raise e.
Proof.
  intros Hlen Hpre Hf.
  pose proof (read_all_unreadable pre post f e Hpre Hf) as Hread.
  destruct (pre ++ f :: post) as [|g files] eqn:Hfiles.
  { by destruct pre. }
  rewrite init_listed, Hlen, Nat.eqb_refl. by rewrite Hread.
Qed.

End ListedMore.

(** The list file is listed twice: twice its two stems, six pairs each. *)
Lemma listed_index_count_witness :
  exists self,
    NumpyDataset.__init__ ["a"; "b"] (Some ["train.txt"; "train.txt"]) demo_params None true
    = Ok self /\
    NumpyDataset.__len__ self = 24%nat.
Proof.
  assert (exists self,
            NumpyDataset.__init__ ["a"; "b"] (Some ["train.txt"; "train.txt"]) demo_params
              None true = Ok self) as [self Hinit] by (eexists; reflexivity).
  destruct (listed_index_count (FS := demo_fs) ["a"; "b"] "train.txt" ["train.txt"]
              demo_params None true self Hinit) as (texts & Hread & Hlen).
  exists self. split; [exact Hinit|]. rewrite Hlen.
  injection Hread as <-. reflexivity.
Defined.

(** The second list file does not exist. *)
Lemma listed_index_unreadable_witness :
  NumpyDataset.__init__ ["a"; "b"] (Some ["train.txt"; "missing.txt"]) demo_params None true
  = Raise (OSError "missing.txt").
Proof.
  apply (listed_index_unreadable (FS := demo_fs) ["a"; "b"] ["train.txt"] [] "missing.txt").
  - reflexivity.
  - constructor; [by eexists|constructor].
  - reflexivity.
Defined.

(** ** Further properties of the Example Transform *)

Lemma slice_bound_range (n i : Z) : 0 <= n -> 0 <= Tensor.slice_bound n i <= n.
Proof. intros Hn. unfold Tensor.slice_bound. destruct (Z.ltb_spec i 0); lia. Qed.

Section TransformMore.
Context `{S : Samples} `{TA : !Torchaudio} `{PP : !Preprocess}.

(** Padding keeps the samples of the waveform and appends zeros. *)
Lemma hstack_zeros_items (w : Tensor.t) (m hop : nat) :
  Tensor.shape w = [m] ->
  exists padded : Tensor.t,
    Tensor.hstack w (Tensor.zeros hop) = Ok padded /\
    Tensor.shape padded = [(m + hop)%nat] /\
    (forall k : nat, (k < m)%nat -> Tensor.item padded [k] = Tensor.item w [k]) /\
    (forall k : nat, (m <= k)%nat -> Tensor.item padded [k] = s_zero).
Proof.
  intros Hw. unfold Tensor.hstack, Tensor.atleast_1d. rewrite Hw. simpl.
  rewrite Hw.
  destruct m; (eexists; split; [reflexivity|]; split; [reflexivity|]; split;
    intros k Hk; simpl).
  - lia.
  - reflexivity.
  - by rewrite (proj2 (Nat.ltb_lt _ _) Hk).
  - by rewrite (proj2 (Nat.ltb_ge _ _) Hk).
Qed.

Lemma prepare_item (x : Tensor.t) (n k : nat) :
  Tensor.shape x = [1%nat; n] ->
  Tensor.item (prepared x) [k]
  = s_mul (s_div (Tensor.item x [0%nat; k]) (s_max (Tensor.norm_inf x [0%nat]) s_eps))
      s_peak.
Proof.
  intros Hx. unfold prepared, Tensor.squeeze0. simpl. by rewrite Hx.
Qed.

(** Every outcome of the crop is one window [lo, lo + m) of both
    waveforms, inside them; its length is the crop length when the crop
    applies with a length that is not negative, and the window is the whole
    waveform when the crop does not apply. *)
Lemma crop_outcomes_windows (crop_mel : Z) (hop : nat) (signal1 signal2 : Tensor.t)
  (n : nat) :
  Tensor.shape signal1 = [n] ->
  Tensor.shape signal2 = [n] ->
  let crop_len := (crop_mel - 1) * Z.of_nat hop in
  forall r, r ∈ outcomes (NumpyDataset.crop crop_mel hop signal1 signal2) ->
    exists (w1 w2 : Tensor.t) (lo m : nat),
      r = Ok (w1, w2) /\ (lo + m <= n)%nat /\
      is_window w1 signal1 lo m /\ is_window w2 signal2 lo m /\
      (0 <= crop_len <= Z.of_nat n -> m = Z.to_nat crop_len) /\
      (Z.of_nat n < crop_len -> lo = 0%nat /\ m = n).
Proof.
  intros H1 H2 crop_len r Hr.
  rewrite (crop_outcomes crop_mel hop signal1 signal2 n H1 H2) in Hr.
  fold crop_len in Hr.
  destruct (Z.leb_spec crop_len (Z.of_nat n)) as [Hle|Hlt].
  - apply list_elem_of_fmap in Hr as (start & -> & Hstart).
    apply elem_of_seq in Hstart.
    set (stop := Z.of_nat start + crop_len).
    pose proof (slice_bound_range (Z.of_nat n) (Z.of_nat start) ltac:(lia)) as Hlo.
    pose proof (slice_bound_range (Z.of_nat n) stop ltac:(lia)) as Hhi.
    exists (Tensor.window signal1 n [] (Z.of_nat start) stop),
      (Tensor.window signal2 n [] (Z.of_nat start) stop),
      (Z.to_nat (Tensor.slice_bound (Z.of_nat n) (Z.of_nat start))),
      (Z.to_nat (Tensor.slice_bound (Z.of_nat n) stop
                 - Tensor.slice_bound (Z.of_nat n) (Z.of_nat start))).
    split; [reflexivity|]. split; [lia|].
    split; [split; [reflexivity|intros k _; reflexivity]|].
    split; [split; [reflexivity|intros k _; reflexivity]|].
    split; [|lia]. intros Hpos. unfold stop. rewrite !slice_bound_inside by lia. lia.
  - apply list_elem_of_singleton in Hr as ->.
    exists signal1, signal2, 0%nat, n. split; [reflexivity|]. split; [lia|].
    split; [split; [done|intros k _; reflexivity]|].
    split; [split; [done|intros k _; reflexivity]|].
    split; [lia|done].
Qed.

(** X6. For two mono recordings of [n] samples at the configured rate,
    [n] at least 1 so that the normalisation of lines 76 and 78 does not
    raise, every outcome of an access is a record whose [audio] and
    [audio_cond_inst] are one window [lo, lo + m) of the timbre-target and
    of the content-source recording, each sample divided by the larger of
    the recording's peak and [1e-12] and multiplied by 0.95, followed by
    [hop_samples] zeros.  The window has the crop length
    [(crop_frames - 1) * hop_samples] when that is between 0 and [n], and is
    the whole recording when [n] is below the crop length. *)
Theorem returned_waveforms (self : NumpyDataset.t) (idx : nat) (f1 f2 : string)
  (x1 x2 : Tensor.t) (n : nat) :
  let params := NumpyDataset.params self in
  let crop_len :=
    (crop_frames (NumpyDataset.crop_mel self) params - 1) * Z.of_nat (hop_samples params) in
  let scaled (x : Tensor.t) (j : nat) :=
    s_mul (s_div (Tensor.item x [0%nat; j]) (s_max (Tensor.norm_inf x [0%nat]) s_eps))
      s_peak in
  NumpyDataset.filenames self !! idx = Some (f1, f2) ->
  torchaudio_load f1 = Ok (x1, sample_rate params) ->
  torchaudio_load f2 = Ok (x2, sample_rate params) ->
  Tensor.shape x1 = [1%nat; n] ->
  Tensor.shape x2 = [1%nat; n] ->
  (0 < n)%nat ->
  forall r, r ∈ outcomes (NumpyDataset.__getitem__ self idx) ->
    exists (record : gmap string value) (a c : Tensor.t) (lo m : nat),
      r = Ok record /\
      record !! "audio" = Some (VTensor a) /\
      record !! "audio_cond_inst" = Some (VTensor c) /\
      (lo + m <= n)%nat /\
      Tensor.shape a = [(m + hop_samples params)%nat] /\
      Tensor.shape c = [(m + hop_samples params)%nat] /\
      (forall k : nat, (k < m)%nat ->
         Tensor.item a [k] = scaled x2 (lo + k)%nat /\
         Tensor.item c [k] = scaled x1 (lo + k)%nat) /\
      (forall k : nat, (m <= k)%nat ->
         Tensor.item a [k] = s_zero /\ Tensor.item c [k] = s_zero) /\
      (0 <= crop_len <= Z.of_nat n -> m = Z.to_nat crop_len) /\
      (Z.of_nat n < crop_len -> lo = 0%nat /\ m = n).
Proof.
  intros params crop_len scaled Hidx Hl1 Hl2 Hs1 Hs2 Hn r Hr.
  rewrite (getitem_transform self idx (f1, f2)) in Hr by done.
  rewrite (transform_outcomes self f1 f2 x1 x2 n) in Hr by done. fold params in Hr.
  apply list_elem_of_fmap in Hr as (r0 & -> & Hr0).
  apply (crop_outcomes_windows _ _ _ _ n (prepare_shape x1 n Hs1) (prepare_shape x2 n Hs2))
    in Hr0 as (w1 & w2 & lo & m & -> & Hfit & [Hw1 Hi1] & [Hw2 Hi2] & Hcrop & Hshort).
  destruct (hstack_zeros_items w1 m (hop_samples params) Hw1)
    as (c & Hc & Hcs & Hckeep & Hczero).
  destruct (hstack_zeros_items w2 m (hop_samples params) Hw2)
    as (a & Ha & Has & Hakeep & Hazero).
  eexists _, a, c, lo, m. split.
  { simpl. unfold NumpyDataset.pack. rewrite Ha. simpl. rewrite Hc. reflexivity. }
  split; [reflexivity|]. split; [reflexivity|].
  split; [exact Hfit|]. split; [exact Has|]. split; [exact Hcs|]. split.
  - intros k Hk. rewrite Hakeep, Hckeep, Hi1, Hi2 by done.
    by rewrite (prepare_item x1 n), (prepare_item x2 n).
  - split; [|split; [exact Hcrop|exact Hshort]].
    intros k Hk. by rewrite Hazero, Hczero.
Qed.

(** X7. When the two decoded tensors, at the configured rate, differ in
    shape, or agree in shape with a leading dimension other than 1, the only
    outcome of the access is an [AssertionError]. *)
Theorem shape_mismatch_asserts (self : NumpyDataset.t) (idx : nat) (f1 f2 : string)
  (x1 x2 : Tensor.t) :
  let params := NumpyDataset.params self in
  NumpyDataset.filenames self !! idx = Some (f1, f2) ->
  torchaudio_load f1 = Ok (x1, sample_rate params) ->
  torchaudio_load f2 = Ok (x2, sample_rate params) ->
  Tensor.shape x1 ≠ Tensor.shape x2
  \/ (exists channels rest, Tensor.shape x1 = channels :: rest /\ channels ≠ 1%nat) ->
  outcomes (NumpyDataset.__getitem__ self idx) = [Raise AssertionError].
Proof.
  intros params Hidx Hl1 Hl2 Hbad.
  rewrite (getitem_transform self idx (f1, f2)) by done.
  unfold NumpyDataset.transform, NumpyDataset.load_pair. fold params.
  rewrite Hl1. simpl. rewrite Hl2. simpl. rewrite Z.eqb_refl. simpl.
  destruct (decide (Tensor.shape x1 = Tensor.shape x2)) as [Heq|Hne].
  - destruct Hbad as [Hne|(channels & rest & Hshape & Hch)]; [done|].
    rewrite bool_decide_eq_true_2 by done. simpl.
    unfold Tensor.shape0. rewrite Hshape. simpl.
    by rewrite (proj2 (Nat.eqb_neq _ _) Hch).
  - by rewrite bool_decide_eq_false_2 by done.
Qed.

End TransformMore.

(** The second outcome of the access to the pair [a]. *)
Lemma returned_waveforms_witness :
  exists (r : Result (gmap string value)) (record : gmap string value)
         (a c : Tensor.t) (lo m : nat),
    outcomes (NumpyDataset.__getitem__ demo_dataset 0) !! 1%nat = Some r /\
    r = Ok record /\
    record !! "audio" = Some (VTensor a) /\
    record !! "audio_cond_inst" = Some (VTensor c) /\
    (lo + m <= 10)%nat /\
    Tensor.shape a = [(m + 4)%nat] /\
    (forall k : nat, (m <= k)%nat -> Tensor.item a [k] = 0%Q /\ Tensor.item c [k] = 0%Q) /\
    m = 8%nat.
Proof.
  assert (exists r, outcomes (NumpyDataset.__getitem__ demo_dataset 0) !! 1%nat = Some r)
    as [r Hr] by (eexists; reflexivity).
  destruct (returned_waveforms (S := Q_samples) (TA := demo_audio) (PP := demo_preprocess)
              demo_dataset 0 "a.0.wav" "a.3.wav" (ramp 1 10) (ramp 101 10) 10
              eq_refl eq_refl eq_refl eq_refl eq_refl ltac:(lia)
              r (list_elem_of_lookup_2 _ _ _ Hr))
    as (record & a & c & lo & m & Hrec & Ha & Hc & Hfit & Hsa & _ & _ & Hzero & Hm & _).
  exists r, record, a, c, lo, m.
  split; [exact Hr|]. split; [exact Hrec|]. split; [exact Ha|]. split; [exact Hc|].
  split; [exact Hfit|]. split; [exact Hsa|]. split; [exact Hzero|].
  apply Hm. cbv. split; discriminate.
Defined.

(** A stereo pair [d] at the configured rate. *)
Lemma shape_mismatch_asserts_witness :
  outcomes (@NumpyDataset.__getitem__ Q_samples stereo_audio demo_preprocess
              (NumpyDataset.mk demo_params true [("d.0.wav", "d.3.wav")] None) 0)
  = [Raise AssertionError].
Proof.
  apply (shape_mismatch_asserts (S := Q_samples) (TA := stereo_audio)
           (PP := demo_preprocess)
           (NumpyDataset.mk demo_params true [("d.0.wav", "d.3.wav")] None) 0
           "d.0.wav" "d.3.wav" stereo stereo eq_refl eq_refl eq_refl).
  right. exists 2%nat, [10%nat]. split; [reflexivity|lia].
Defined.

(** ** Further properties of the Batch Collator *)

Section CollationMore.
Context `{S : Samples}.

Lemma stack_raises (xs : list Tensor.t) (e : exn) :
  Tensor.stack xs = Raise e -> e = RuntimeError.
Proof.
  unfold Tensor.stack. destruct xs as [|x0 xs]; [by intros [= <-]|].
  destruct (forallb _ _); [discriminate|]. by intros [= <-].
Qed.

Lemma stack_uniform {E : Type} (g : E -> Tensor.t) (l : list E) :
  l ≠ [] ->
  (forall e e', e ∈ l -> e' ∈ l -> Tensor.shape (g e) = Tensor.shape (g e')) ->
  exists stacked, Tensor.stack (g <$> l) = Ok stacked.
Proof.
  intros Hne Hall. destruct l as [|e0 l]; [done|].
  unfold Tensor.stack. rewrite fmap_cons.
  match goal with
  | |- context [forallb ?p ?xs] => assert (forallb p xs = true) as ->; [|by eexists]
  end.
  apply forallb_forall. intros y Hy. apply bool_decide_eq_true.
  apply list_elem_of_In in Hy. rewrite <- fmap_cons in Hy.
  apply list_elem_of_fmap in Hy as (e & -> & He). apply Hall; [done|left].
Qed.

Lemma stack_ok_uniform {E : Type} (g : E -> Tensor.t) (l : list E) (stacked : Tensor.t) :
  Tensor.stack (g <$> l) = Ok stacked ->
  forall e e', e ∈ l -> e' ∈ l -> Tensor.shape (g e) = Tensor.shape (g e').
Proof.
  intros Hstack e e' He He'.
  apply stack_shape in Hstack as (x0 & _ & _ & Hall). rewrite Forall_forall in Hall.
  rewrite (Hall (g e)), (Hall (g e')); [done| |]; apply list_elem_of_fmap; eauto.
Qed.

Lemma shape_T_eq (x y : Tensor.t) :
  Tensor.shape (Tensor.T x) = Tensor.shape (Tensor.T y) <->
  Tensor.shape x = Tensor.shape y.
Proof.
  simpl. split; [|by intros ->].
  intros Heq. apply (f_equal (@rev nat)) in Heq. by rewrite !rev_involutive in Heq.
Qed.

Lemma survivors_nil (crop_mel : Z) (exs : list Example) :
  survivors crop_mel exs = [] <-> forallb (excluded crop_mel) exs = true.
Proof.
  unfold survivors. induction exs as [|ex exs IH]; simpl; [done|].
  change (list_omap ?A ?B ?k ?l) with (omap k l).
  unfold survivor at 1. destruct (excluded crop_mel ex) eqn:Hex; simpl; [exact IH|].
  destruct ex as [a [x|] c]; [simpl; split; discriminate|discriminate].
Qed.

(** X8. On the records of Transformed Examples whose spectrograms, when
    present, have at least one dimension, and of which at least one survives
    the filter: the collator returns a Batch exactly when the survivors agree
    in the shape of each of their three tensors, and raises [RuntimeError],
    from [torch.stack], exactly when they do not. *)
Theorem collate_succeeds_iff (self : Collator.t) (exs : list Example) :
  let crop_mel := crop_frames (Collator.crop_mel self) (Collator.params self) in
  let kept := survivors crop_mel exs in
  let uniform :=
    forall e e', e ∈ kept -> e' ∈ kept ->
      Tensor.shape e.1.1 = Tensor.shape e'.1.1 /\
      Tensor.shape e.1.2 = Tensor.shape e'.1.2 /\
      Tensor.shape e.2 = Tensor.shape e'.2 in
  existsb scalar_spectrogram exs = false ->
  kept ≠ [] ->
  ((exists batch, Collator.collate self (map as_record exs) = Ok (Some batch)) <-> uniform)
  /\ (Collator.collate self (map as_record exs) = Raise RuntimeError <-> ~ uniform).
Proof.
  intros crop_mel kept uniform Hscalar Hkept.
  rewrite collate_examples. fold crop_mel kept. rewrite Hscalar.
  assert (forallb (excluded crop_mel) exs = false) as ->.
  { destruct (forallb (excluded crop_mel) exs) eqn:Hall; [|done].
    by apply survivors_nil in Hall. }
  destruct (Tensor.stack ((fun e => e.1.1) <$> kept)) as [a|ea] eqn:Ha; simpl; cycle 1.
  { apply stack_raises in Ha as Hea. subst ea.
    assert (~ uniform) as Hnot.
    { intros Hu. destruct (stack_uniform (fun e => e.1.1) kept Hkept) as [t Ht].
      - intros e e' He He'. by apply Hu.
      - congruence. }
    split; split; try done. by intros [batch Hb]. }
  destruct (Tensor.stack ((fun e => e.2) <$> kept)) as [c|ec] eqn:Hc; simpl; cycle 1.
  { apply stack_raises in Hc as Hec. subst ec.
    assert (~ uniform) as Hnot.
    { intros Hu. destruct (stack_uniform (fun e => e.2) kept Hkept) as [t Ht].
      - intros e e' He He'. by apply Hu.
      - congruence. }
    split; split; try done. by intros [batch Hb]. }
  destruct (Tensor.stack ((fun e => Tensor.T e.1.2) <$> kept)) as [x|ex] eqn:Hx; simpl;
    cycle 1.
  { apply stack_raises in Hx as Hex. subst ex.
    assert (~ uniform) as Hnot.
    { intros Hu. destruct (stack_uniform (fun e => Tensor.T e.1.2) kept Hkept) as [t Ht].
      - intros e e' He He'. apply shape_T_eq. by apply Hu.
      - congruence. }
    split; split; try done. by intros [batch Hb]. }
  assert uniform as Hu.
  { intros e e' He He'. split; [|split].
    - by apply (stack_ok_uniform (fun e => e.1.1) kept a).
    - apply shape_T_eq. by apply (stack_ok_uniform (fun e => Tensor.T e.1.2) kept x).
    - by apply (stack_ok_uniform (fun e => e.2) kept c). }
  split; split; try done. by eexists.
Qed.

(** X9. The examples the filter excludes have no part in the result:
    collating a list of Transformed Examples gives what collating its
    retained examples alone gives. *)
Theorem collate_ignores_excluded (self : Collator.t) (exs : list Example) :
  let crop_mel := crop_frames (Collator.crop_mel self) (Collator.params self) in
  Collator.collate self (map as_record exs)
  = Collator.collate self
      (map as_record (filter (fun ex => excluded crop_mel ex = false) exs)).
Proof.
  intros crop_mel. rewrite !collate_examples. fold crop_mel.
  set (retained := filter (fun ex => excluded crop_mel ex = false) exs).
  assert (existsb scalar_spectrogram retained = existsb scalar_spectrogram exs) as ->.
  { unfold retained. induction exs as [|ex exs IH]; [done|].
    rewrite filter_cons. destruct (decide (excluded crop_mel ex = false)) as [Hk|Hd].
    - simpl. by rewrite IH.
    - simpl. rewrite IH.
      assert (scalar_spectrogram ex = false) as ->; [|done].
      unfold scalar_spectrogram, excluded, time_length in *.
      destruct (spectrogram ex) as [x|]; [|done].
      destruct (Tensor.shape x); [done|]. by apply bool_decide_eq_false. }
  assert (survivors crop_mel retained = survivors crop_mel exs) as Hsame.
  { unfold retained, survivors. induction exs as [|ex exs IH]; [done|].
    rewrite filter_cons. simpl. change (list_omap ?A ?B ?k ?l) with (omap k l).
    destruct (decide (excluded crop_mel ex = false)) as [Hk|Hd].
    - simpl. change (list_omap ?A ?B ?k ?l) with (omap k l). by rewrite IH.
    - rewrite IH. unfold survivor at 2. by destruct (excluded crop_mel ex). }
  assert (forallb (excluded crop_mel) retained = forallb (excluded crop_mel) exs) as ->.
  { destruct (forallb (excluded crop_mel) exs) eqn:Hall.
    - apply survivors_nil. rewrite Hsame. by apply survivors_nil.
    - destruct (forallb (excluded crop_mel) retained) eqn:Hall'; [|done].
      apply survivors_nil in Hall'. rewrite Hsame in Hall'.
      apply survivors_nil in Hall'. congruence. }
  by rewrite Hsame.
Qed.

End CollationMore.

Lemma collate_succeeds_iff_witness :
  Collator.collate demo_collator (map as_record [example_of_frames 3; example_of_frames 4])
  = Raise RuntimeError
  /\ exists batch,
       Collator.collate demo_collator
         (map as_record [example_of_frames 4; example_without_spectrogram;
                         example_of_frames 4])
       = Ok (Some batch).
Proof.
  split.
  - apply (proj2 (collate_succeeds_iff (S := Q_samples) demo_collator
                    [example_of_frames 3; example_of_frames 4] eq_refl
                    ltac:(discriminate))).
    intros Hu.
    destruct (Hu (wave 101 12, mel 3, wave 1 12) (wave 101 12, mel 4, wave 1 12))
      as (_ & Hshape & _); [left|right; left|discriminate Hshape].
  - apply (proj1 (collate_succeeds_iff (S := Q_samples) demo_collator
                    [example_of_frames 4; example_without_spectrogram; example_of_frames 4]
                    eq_refl ltac:(discriminate))).
    intros e e' He He'.
    apply list_elem_of_In in He, He'. simpl in He, He'.
    destruct He as [<-|[<-|[]]], He' as [<-|[<-|[]]]; repeat split.
Defined.

Section CollationRows.
Context `{S : Samples}.

Lemma stack_item {E : Type} (g : E -> Tensor.t) (l : list E) (stacked : Tensor.t)
  (b : nat) (e : E) (idx : list nat) :
  Tensor.stack (g <$> l) = Ok stacked ->
  l !! b = Some e ->
  Tensor.item stacked (b :: idx) = Tensor.item (g e) idx.
Proof.
  unfold Tensor.stack. destruct (g <$> l) as [|x0 xs] eqn:Hl; [discriminate|].
  destruct (forallb _ _); [|discriminate]. intros [= <-] Hb. simpl.
  by rewrite <- Hl, list_lookup_fmap, Hb.
Qed.

(** X10. In a Batch, row [b] of each field is the tensor of the [b]-th
    surviving example, in the order of the minibatch; the spectrogram row is
    the example's time-major spectrogram transposed back, so that the Batch
    holds it with the time axis last. *)
Theorem batch_rows (self : Collator.t) (exs : list Example)
  (batch : gmap string value) :
  let crop_mel := crop_frames (Collator.crop_mel self) (Collator.params self) in
  Collator.collate self (map as_record exs) = Ok (Some batch) ->
  exists a x c : Tensor.t,
    batch !! "audio" = Some (VTensor a) /\
    batch !! "spectrogram" = Some (VTensor x) /\
    batch !! "audio_cond_inst" = Some (VTensor c) /\
    forall (b : nat) (wave_b spec_b cond_b : Tensor.t),
      survivors crop_mel exs !! b = Some (wave_b, spec_b, cond_b) ->
      (forall idx, Tensor.item a (b :: idx) = Tensor.item wave_b idx) /\
      (forall idx, Tensor.item c (b :: idx) = Tensor.item cond_b idx) /\
      (forall idx, Tensor.item x (b :: idx) = Tensor.item spec_b (rev idx)) /\
      (forall frames mels, Tensor.shape spec_b = [frames; mels] ->
                           Tensor.shape x = [length (survivors crop_mel exs); mels; frames]).
Proof.
  intros crop_mel Hbatch.
  apply collate_batch in Hbatch as (_ & a & x & c & -> & Ha & Hx & Hc).
  fold crop_mel in Ha, Hx, Hc. exists a, x, c.
  split; [reflexivity|]. split; [reflexivity|]. split; [reflexivity|].
  intros b wave_b spec_b cond_b Hb. split; [|split; [|split]].
  - intros idx. by rewrite (stack_item (fun e => e.1.1) _ a b _ idx Ha Hb).
  - intros idx. by rewrite (stack_item (fun e => e.2) _ c b _ idx Hc Hb).
  - intros idx. by rewrite (stack_item (fun e => Tensor.T e.1.2) _ x b _ idx Hx Hb).
  - intros frames mels Hshape.
    pose proof (stack_ok_uniform (fun e => Tensor.T e.1.2) _ x Hx) as Hu.
    apply stack_shape in Hx as (x0 & Hhead & -> & _).
    rewrite length_fmap. f_equal.
    destruct (survivors crop_mel exs) as [|e0 kept] eqn:Hkept; [done|].
    simpl in Hhead. injection Hhead as <-.
    rewrite (Hu e0 (wave_b, spec_b, cond_b)).
    + simpl. by rewrite Hshape.
    + left.
    + by eapply list_elem_of_lookup_2.
Qed.

Lemma collate_first_raises (self : Collator.t) (record : gmap string value)
  (rest : list (gmap string value)) (e : exn) :
  Collator.filter_record
    (crop_frames (Collator.crop_mel self) (Collator.params self)) record = Raise e ->
  Collator.collate self (record :: rest) = Raise e.
Proof. intros He. unfold Collator.collate. simpl. by rewrite He. Qed.

(** X11. A record that lacks one of the three keys makes the collator
    raise [KeyError]: for the key [spectrogram] when that is missing, and
    otherwise, whether the record would be dropped or kept, for [audio] or,
    when only that is missing, for [audio_cond_inst]. *)
Theorem missing_key_raises (self : Collator.t) (record : gmap string value)
  (rest : list (gmap string value)) :
  (record !! "spectrogram" = None ->
   Collator.collate self (record :: rest) = Raise (KeyError "spectrogram")) /\
  (forall spec,
     record !! "spectrogram" = Some spec ->
     (forall x, spec = VTensor x -> Tensor.shape x ≠ []) ->
     (record !! "audio" = None ->
      Collator.collate self (record :: rest) = Raise (KeyError "audio")) /\
     (is_Some (record !! "audio") -> record !! "audio_cond_inst" = None ->
      Collator.collate self (record :: rest) = Raise (KeyError "audio_cond_inst"))).
Proof.
  set (crop_mel := crop_frames (Collator.crop_mel self) (Collator.params self)).
  split.
  - intros Hs. apply collate_first_raises.
    unfold Collator.filter_record, Collator.getitem. by rewrite Hs.
  - intros spec Hs Hrank. split.
    + intros Ha. apply collate_first_raises. fold crop_mel.
      unfold Collator.filter_record, Collator.getitem. rewrite Hs. simpl.
      assert (Collator.drop record = Raise (KeyError "audio")) as Hdrop.
      { unfold Collator.drop, Collator.delitem. rewrite Hs. simpl.
        by rewrite lookup_delete_ne, Ha by done. }
      assert (forall x, Collator.keep record x = Raise (KeyError "audio")) as Hkeep.
      { intros x. unfold Collator.keep, Collator.getitem.
        by rewrite lookup_insert_ne, Ha by done. }
      destruct spec as [|x]; [exact Hdrop|].
      unfold Tensor.len. destruct (Tensor.shape x) as [|n s] eqn:Hx.
      { by destruct (Hrank x eq_refl). }
      simpl. by destruct (Z.of_nat n <? crop_mel).
    + intros [va Ha] Hc. apply collate_first_raises. fold crop_mel.
      unfold Collator.filter_record, Collator.getitem. rewrite Hs. simpl.
      assert (Collator.drop record = Raise (KeyError "audio_cond_inst")) as Hdrop.
      { unfold Collator.drop, Collator.delitem. rewrite Hs. simpl.
        rewrite lookup_delete_ne, Ha by done. simpl.
        by rewrite !lookup_delete_ne, Hc by done. }
      assert (forall x, Collator.keep record x = Raise (KeyError "audio_cond_inst"))
        as Hkeep.
      { intros x. unfold Collator.keep, Collator.getitem.
        rewrite lookup_insert_ne, Ha by done. simpl.
        by rewrite !lookup_insert_ne, Hc by done. }
      destruct spec as [|x]; [exact Hdrop|].
      unfold Tensor.len. destruct (Tensor.shape x) as [|n s] eqn:Hx.
      { by destruct (Hrank x eq_refl). }
      simpl. by destruct (Z.of_nat n <? crop_mel).
Qed.

End CollationRows.

(** The example with three frames after one without spectrogram: the only
    row of the Batch is that of the second example. *)
Lemma batch_rows_witness :
  exists (batch : gmap string value) (a x c : Tensor.t),
    Collator.collate demo_collator
      (map as_record [example_without_spectrogram; example_of_frames 3])
    = Ok (Some batch) /\
    batch !! "audio" = Some (VTensor a) /\
    batch !! "spectrogram" = Some (VTensor x) /\
    batch !! "audio_cond_inst" = Some (VTensor c) /\
    Tensor.shape x = [1%nat; 2%nat; 3%nat] /\
    (forall idx, Tensor.item a (0%nat :: idx) = Tensor.item (wave 101 12) idx) /\
    (forall idx, Tensor.item c (0%nat :: idx) = Tensor.item (wave 1 12) idx).
Proof.
  assert (exists batch,
            Collator.collate demo_collator
              (map as_record [example_without_spectrogram; example_of_frames 3])
            = Ok (Some batch)) as [batch Hbatch] by (eexists; reflexivity).
  destruct (batch_rows (S := Q_samples) demo_collator _ batch Hbatch)
    as (a & x & c & Ha & Hx & Hc & Hrows).
  destruct (Hrows 0%nat (wave 101 12) (mel 3) (wave 1 12) eq_refl)
    as (Hra & Hrc & _ & Hshape).
  exists batch, a, x, c. repeat split; try assumption.
  exact (Hshape 3%nat 2%nat eq_refl).
Defined.

(** An empty record, and a record that holds only an absent spectrogram. *)
Lemma missing_key_raises_witness :
  Collator.collate demo_collator [∅] = Raise (KeyError "spectrogram")
  /\ Collator.collate demo_collator [{["spectrogram" := VNone]}]
     = Raise (KeyError "audio").
Proof.
  split.
  - apply (proj1 (missing_key_raises (S := Q_samples) demo_collator ∅ [])).
    reflexivity.
  - destruct (proj2 (missing_key_raises (S := Q_samples) demo_collator
                       {["spectrogram" := VNone]} []) VNone) as [Hraise _].
    + reflexivity.
    + intros x Hx. discriminate Hx.
    + apply Hraise. reflexivity.
Defined.

(** ** The transform and the collator together *)

Section Together.
Context `{S : Samples} `{TA : !Torchaudio} `{PP : !Preprocess}.

Lemma pack_is_example (params : Params) (signals : Tensor.t * Tensor.t)
  (record : gmap string value) :
  NumpyDataset.pack params signals = Ok record ->
  exists a c : Tensor.t,
    Tensor.hstack signals.2 (Tensor.zeros (hop_samples params)) = Ok a /\
    Tensor.hstack signals.1 (Tensor.zeros (hop_samples params)) = Ok c /\
    record = as_record
               {| audio := a;
                  spectrogram :=
                    (fun x => Tensor.T (Tensor.squeeze0 x))
                      <$> NumpyDataset.try_get_spec signals.1 params;
                  audio_cond_inst := c |}.
Proof.
  destruct signals as [w1 w2]. unfold NumpyDataset.pack. simpl.
  destruct (Tensor.hstack w2 _) as [a|?]; [|discriminate]. simpl.
  destruct (Tensor.hstack w1 _) as [c|?]; [|discriminate]. simpl.
  intros [= <-]. exists a, c. split; [done|]. split; [done|].
  by destruct (NumpyDataset.try_get_spec w1 params).
Qed.

(** X12. Whatever the files, the decoder and the extractor, a record that
    an access returns is that of a Transformed Example: it holds exactly the
    keys [audio], [spectrogram] and [audio_cond_inst], the two waveforms
    being tensors and the spectrogram a tensor or [None]. *)
Theorem returned_record_is_example (self : NumpyDataset.t) (idx : nat)
  (record : gmap string value) :
  Ok record ∈ outcomes (NumpyDataset.__getitem__ self idx) ->
  exists ex : Example,
    record = as_record ex /\
    dom record = ({["audio"; "spectrogram"; "audio_cond_inst"]} : gset string).
Proof.
  intros Hin. unfold NumpyDataset.__getitem__ in Hin.
  apply outcomes_bind_elim in Hin as [(names & _ & Hin)|(e & _ & [=])].
  unfold NumpyDataset.transform in Hin.
  apply outcomes_bind_elim in Hin as [([s1 s2] & _ & Hin)|(e & _ & [=])].
  apply outcomes_bind_elim in Hin as [(w1 & _ & Hin)|(e & _ & [=])].
  apply outcomes_bind_elim in Hin as [(w2 & _ & Hin)|(e & _ & [=])].
  apply outcomes_bind_elim in Hin as [(signals & _ & Hin)|(e & _ & [=])].
  apply outcomes_det in Hin. symmetry in Hin.
  apply pack_is_example in Hin as (a & c & _ & _ & ->).
  eexists. split; [reflexivity|].
  unfold as_record. rewrite !dom_insert_L, dom_empty_L.
  apply set_eq. intros k. rewrite !elem_of_union, !elem_of_singleton, elem_of_empty.
  tauto.
Qed.

(** X13. A record packed by the transform and collated alone, under the
    same parameters and override, as at a batch size of 1.  When the
    extractor raised, the result is [None].  When it returned a tensor of
    shape [1, mels, frames], the result is [None] if [frames] is below the
    crop length, and otherwise a Batch whose spectrogram is the extractor's
    tensor again, [squeeze(0).T] followed by [.T] and the stack having undone
    one another, beside waveforms of shape [1, m + hop_samples]. *)
Theorem pack_then_collate (params : Params) (override : option Z) (is_training : bool)
  (w1 w2 : Tensor.t) (m : nat) :
  Tensor.shape w1 = [m] ->
  Tensor.shape w2 = [m] ->
  exists record,
    NumpyDataset.pack params (w1, w2) = Ok record /\
    let result := Collator.collate (Collator.mk params is_training override) [record] in
    (forall e, get_spec w1 params = Raise e -> result = Ok None) /\
    (forall s mels frames,
       get_spec w1 params = Ok s ->
       Tensor.shape s = [1%nat; mels; frames] ->
       (Z.of_nat frames < crop_frames override params -> result = Ok None) /\
       (crop_frames override params <= Z.of_nat frames ->
        exists (batch : gmap string value) (a x c : Tensor.t),
          result = Ok (Some batch) /\
          batch !! "audio" = Some (VTensor a) /\
          batch !! "spectrogram" = Some (VTensor x) /\
          batch !! "audio_cond_inst" = Some (VTensor c) /\
          Tensor.shape a = [1%nat; (m + hop_samples params)%nat] /\
          Tensor.shape c = [1%nat; (m + hop_samples params)%nat] /\
          Tensor.shape x = [1%nat; mels; frames] /\
          forall i j, Tensor.item x [0%nat; i; j] = Tensor.item s [0%nat; i; j])).
Proof.
  intros Hw1 Hw2.
  destruct (hstack_zeros w1 m (hop_samples params) Hw1) as (c & Hc & Hcs).
  destruct (hstack_zeros w2 m (hop_samples params) Hw2) as (a & Ha & Has).
  set (ex := {| audio := a;
                spectrogram := (fun x => Tensor.T (Tensor.squeeze0 x))
                                 <$> NumpyDataset.try_get_spec w1 params;
                audio_cond_inst := c |}).
  assert (NumpyDataset.pack params (w1, w2) = Ok (as_record ex)) as Hpack.
  { unfold NumpyDataset.pack. rewrite Ha. simpl. rewrite Hc. simpl.
    unfold ex. by destruct (NumpyDataset.try_get_spec w1 params). }
  exists (as_record ex). split; [exact Hpack|]. cbv zeta.
  change [as_record ex] with (map as_record [ex]).
  rewrite collate_examples. simpl Collator.crop_mel. simpl Collator.params.
  set (crop_mel := crop_frames override params). split.
  - intros e He. unfold ex, NumpyDataset.try_get_spec. rewrite He. reflexivity.
  - intros s mels frames Hs Hshape.
    assert (spectrogram ex = Some (Tensor.T (Tensor.squeeze0 s))) as Hspec.
    { unfold ex, NumpyDataset.try_get_spec. by rewrite Hs. }
    assert (Tensor.shape (Tensor.T (Tensor.squeeze0 s)) = [frames; mels]) as Hts.
    { unfold Tensor.T, Tensor.squeeze0. rewrite Hshape. reflexivity. }
    assert (existsb scalar_spectrogram [ex] = false) as ->.
    { simpl. unfold scalar_spectrogram. rewrite Hspec, Hts. reflexivity. }
    assert (excluded crop_mel ex = (Z.of_nat frames <? crop_mel)) as Hexcl.
    { unfold excluded, time_length. by rewrite Hspec, Hts. }
    split.
    + intros Hlt. simpl. rewrite Hexcl. by rewrite (proj2 (Z.ltb_lt _ _) Hlt).
    + intros Hge.
      assert (excluded crop_mel ex = false) as Hkeep
        by (rewrite Hexcl; by apply Z.ltb_ge).
      simpl forallb. rewrite Hkeep. simpl andb. cbv iota.
      assert (survivors crop_mel [ex] = [(a, Tensor.T (Tensor.squeeze0 s), c)]) as ->.
      { unfold survivors. simpl. unfold survivor. by rewrite Hkeep, Hspec. }
      simpl. rewrite !bool_decide_eq_true_2 by done. simpl.
      do 4 eexists. split; [reflexivity|].
      split; [reflexivity|]. split; [reflexivity|]. split; [reflexivity|].
      split; [by rewrite Has|]. split; [by rewrite Hcs|]. split.
      * simpl. rewrite rev_involutive. unfold Tensor.squeeze0. by rewrite Hshape.
      * intros i j. simpl. unfold Tensor.squeeze0. by rewrite Hshape.
Qed.

End Together.

(** The first outcome of the access to the pair [a]. *)
Lemma returned_record_is_example_witness :
  exists (record : gmap string value) (ex : Example),
    outcomes (NumpyDataset.__getitem__ demo_dataset 0) !! 0%nat = Some (Ok record) /\
    record = as_record ex /\
    dom record = ({["audio"; "spectrogram"; "audio_cond_inst"]} : gset string).
Proof.
  assert (exists record,
            outcomes (NumpyDataset.__getitem__ demo_dataset 0) !! 0%nat = Some (Ok record))
    as [record Hfirst] by (eexists; reflexivity).
  destruct (returned_record_is_example (S := Q_samples) (TA := demo_audio)
              (PP := demo_preprocess) demo_dataset 0 record
              (list_elem_of_lookup_2 _ _ _ Hfirst)) as (ex & Hex & Hdom).
  exists record, ex. repeat split; assumption.
Defined.

(** Five samples are too few for the extractor of the fixtures; eight
    samples give three frames, the crop length. *)
Lemma pack_then_collate_witness :
  (exists record,
     NumpyDataset.pack demo_params (wave 1 5, wave 101 5) = Ok record /\
     Collator.collate demo_collator [record] = Ok None) /\
  (exists (record batch : gmap string value) (x : Tensor.t),
     NumpyDataset.pack demo_params (wave 1 8, wave 101 8) = Ok record /\
     Collator.collate demo_collator [record] = Ok (Some batch) /\
     batch !! "spectrogram" = Some (VTensor x) /\
     Tensor.shape x = [1%nat; 2%nat; 3%nat]).
Proof.
  split.
  - destruct (pack_then_collate (S := Q_samples) (PP := demo_preprocess) demo_params None
                true (wave 1 5) (wave 101 5) 5 eq_refl eq_refl)
      as (record & Hpack & Hfail & _).
    exists record. split; [exact Hpack|]. by apply (Hfail RuntimeError).
  - destruct (pack_then_collate (S := Q_samples) (PP := demo_preprocess) demo_params None
                true (wave 1 8) (wave 101 8) 8 eq_refl eq_refl)
      as (record & Hpack & _ & Hok).
    destruct (Hok (@Tensor.mk Q_samples [1%nat; 2%nat; 3%nat] (fun _ => 0%Q)) 2%nat 3%nat
                eq_refl eq_refl) as [_ Hbatch].
    destruct (Hbatch ltac:(cbv; discriminate))
      as (batch & a & x & c & Hres & _ & Hx & _ & _ & _ & Hshape & _).
    exists record, batch, x. repeat split; assumption.
Defined.

Section Stacking.
Context `{S : Samples} `{TA : !Torchaudio} `{PP : !Preprocess}.

Lemma as_record_lookups (ex : Example) :
  as_record ex !! "audio" = Some (VTensor (audio ex)) /\
  as_record ex !! "audio_cond_inst" = Some (VTensor (audio_cond_inst ex)) /\
  as_record ex !! "spectrogram"
  = Some (match spectrogram ex with
          | Some x => VTensor x
          | None => VNone
          end).
Proof. destruct ex as [a x c]. repeat split. Qed.

Lemma as_record_inj (ex ex' : Example) : as_record ex = as_record ex' -> ex = ex'.
Proof.
  intros Heq.
  destruct (as_record_lookups ex) as (Ha & Hc & Hx).
  destruct (as_record_lookups ex') as (Ha' & Hc' & Hx').
  rewrite Heq in Ha, Hc, Hx. rewrite Ha' in Ha. rewrite Hc' in Hc. rewrite Hx' in Hx.
  destruct ex as [a x c], ex' as [a' x' c']. simpl in *.
  injection Ha as ->. injection Hc as ->.
  destruct x, x'; simplify_eq; reflexivity.
Qed.

(** What an access to two mono recordings of [n] samples packs: waveforms
    of one length [m], the crop length when the crop applies and [n] when it
    does not. *)
Lemma getitem_packed (self : NumpyDataset.t) (idx : nat) (f1 f2 : string)
  (x1 x2 : Tensor.t) (n : nat) (record : gmap string value) :
  let params := NumpyDataset.params self in
  let crop_len :=
    (crop_frames (NumpyDataset.crop_mel self) params - 1) * Z.of_nat (hop_samples params) in
  NumpyDataset.filenames self !! idx = Some (f1, f2) ->
  torchaudio_load f1 = Ok (x1, sample_rate params) ->
  torchaudio_load f2 = Ok (x2, sample_rate params) ->
  Tensor.shape x1 = [1%nat; n] ->
  Tensor.shape x2 = [1%nat; n] ->
  Ok record ∈ outcomes (NumpyDataset.__getitem__ self idx) ->
  exists (w1 w2 : Tensor.t) (m : nat),
    Tensor.shape w1 = [m] /\ Tensor.shape w2 = [m] /\
    NumpyDataset.pack params (w1, w2) = Ok record /\
    (0 <= crop_len <= Z.of_nat n -> m = Z.to_nat crop_len) /\
    (Z.of_nat n < crop_len -> m = n).
Proof.
  intros params crop_len Hidx Hl1 Hl2 Hs1 Hs2 Hin.
  rewrite (getitem_transform self idx (f1, f2)) in Hin by done.
  destruct (decide (n = 0%nat)) as [->|Hn].
  { rewrite (transform_empty self f1 f2 x1 x2) in Hin by done.
    apply list_elem_of_singleton in Hin. discriminate. }
  rewrite (transform_outcomes self f1 f2 x1 x2 n) in Hin by (done || lia).
  fold params in Hin.
  apply list_elem_of_fmap in Hin as (r0 & Hpack & Hr0).
  destruct (crop_outcomes_waves (crop_frames (NumpyDataset.crop_mel self) params)
              (hop_samples params) (prepared x1) (prepared x2) n
              (prepare_shape x1 n Hs1) (prepare_shape x2 n Hs2)) as [_ Hall].
  destruct (Hall r0 Hr0) as (w1 & w2 & m & -> & Hw1 & Hw2 & Hcrop & Hshort).
  exists w1, w2, m. repeat split; try done.
Qed.

(** Under centred framing, an example packed from waveforms of [m] samples
    survives only if [m] is the crop length, and then with tensors of the
    shapes the crop fixes. *)
Lemma packed_survivor (params : Params) (crop_mel : Z) (mels n : nat)
  (w1 w2 : Tensor.t) (m : nat) (ex : Example) :
  let hop := hop_samples params in
  let crop_len := (crop_mel - 1) * Z.of_nat hop in
  (0 < hop)%nat ->
  1 <= crop_mel ->
  (forall w k s, Tensor.shape w = [k] -> get_spec w params = Ok s ->
                 Tensor.shape s = [1%nat; mels; Datatypes.S (k / hop)]) ->
  Tensor.shape w1 = [m] ->
  Tensor.shape w2 = [m] ->
  NumpyDataset.pack params (w1, w2) = Ok (as_record ex) ->
  m = Z.to_nat crop_len \/ Z.of_nat m < crop_len ->
  scalar_spectrogram ex = false /\
  forall e, survivor crop_mel ex = Some e ->
    Tensor.shape e.1.1 = [(Z.to_nat crop_len + hop)%nat] /\
    Tensor.shape e.1.2 = [Z.to_nat crop_mel; mels] /\
    Tensor.shape e.2 = [(Z.to_nat crop_len + hop)%nat].
Proof.
  intros hop crop_len Hhop Hcrop Hframes Hw1 Hw2 Hpack Hm.
  apply pack_is_example in Hpack as (a & c & Ha & Hc & Heq). simpl in Ha, Hc.
  apply as_record_inj in Heq. subst ex.
  destruct (hstack_zeros w1 m hop Hw1) as (c' & Hc' & Hcs).
  destruct (hstack_zeros w2 m hop Hw2) as (a' & Ha' & Has).
  fold hop in Ha, Hc. rewrite Ha' in Ha. rewrite Hc' in Hc.
  injection Ha as <-. injection Hc as <-.
  unfold scalar_spectrogram, survivor, excluded, time_length, NumpyDataset.try_get_spec.
  simpl.
  destruct (get_spec w1 params) as [s|e0] eqn:Hs; simpl; [|split; [done|discriminate]].
  assert (Tensor.shape (Tensor.squeeze0 s) = [mels; Datatypes.S (m / hop)]) as Hsq.
  { unfold Tensor.squeeze0. by rewrite (Hframes w1 m s Hw1 Hs). }
  rewrite Hsq. simpl. split; [done|].
  intros e.
  destruct (Z.ltb_spec (Z.of_nat (Datatypes.S (m / hop))) crop_mel) as [Hlt|Hge];
    [discriminate|].
  intros [= <-]. simpl.
  assert (Z.to_nat crop_len = (Z.to_nat (crop_mel - 1) * hop)%nat) as Hlen.
  { unfold crop_len. rewrite Z2Nat.inj_mul, Nat2Z.id by lia. reflexivity. }
  assert (m = (Z.to_nat (crop_mel - 1) * hop)%nat) as Hmeq.
  { destruct Hm as [->|Hshort]; [exact Hlen|]. exfalso.
    assert (m / hop < Z.to_nat (crop_mel - 1))%nat; [|lia].
    apply Nat.Div0.div_lt_upper_bound. unfold crop_len in Hshort. nia. }
  assert (m / hop = Z.to_nat (crop_mel - 1))%nat as Hdiv.
  { rewrite Hmeq. apply Nat.div_mul. lia. }
  rewrite Has, Hcs, Hsq, Hdiv, Hlen, <- Hmeq. simpl.
  replace (Datatypes.S (Z.to_nat (crop_mel - 1))) with (Z.to_nat crop_mel) by lia.
  done.
Qed.

End Stacking.

Section StackingBatches.
Context `{S : Samples} `{TA : !Torchaudio} `{PP : !Preprocess}.

Lemma stack_fixed_shape {E : Type} (g : E -> Tensor.t) (l : list E) (shape : list nat) :
  l ≠ [] ->
  (forall e, e ∈ l -> Tensor.shape (g e) = shape) ->
  exists stacked,
    Tensor.stack (g <$> l) = Ok stacked /\ Tensor.shape stacked = length l :: shape.
Proof.
  intros Hne Hall.
  destruct (stack_uniform g l Hne) as [stacked Hstack].
  { intros e e' He He'. by rewrite !Hall. }
  exists stacked. split; [done|].
  apply stack_shape in Hstack as (x0 & Hhead & -> & _).
  rewrite length_fmap. f_equal.
  destruct l as [|e0 l]; [done|]. simpl in Hhead. injection Hhead as <-.
  apply Hall. left.
Qed.

(** X14. Let the extractor frame a waveform of [k] samples into
    [k div hop_samples + 1] frames of [mels] bins, with [hop_samples > 0] and
    a crop length of at least one frame.  Then a minibatch of records that
    accesses to mono recordings returned never fails in [torch.stack]: a
    recording shorter than the crop has too few frames and is dropped, every
    survivor was cropped to [(crop_frames - 1) * hop_samples] samples, and
    the result is [None] or a Batch of waveforms of that length plus
    [hop_samples] and of spectrograms of [crop_frames] frames. *)
Theorem cropped_batches_stack (self : NumpyDataset.t) (is_training : bool)
  (mels : nat) (exs : list Example) :
  let params := NumpyDataset.params self in
  let hop := hop_samples params in
  let crop_mel := crop_frames (NumpyDataset.crop_mel self) params in
  let crop_len := Z.to_nat ((crop_mel - 1) * Z.of_nat hop) in
  let kept := survivors crop_mel exs in
  let result :=
    Collator.collate (Collator.mk params is_training (NumpyDataset.crop_mel self))
      (map as_record exs) in
  (0 < hop)%nat ->
  1 <= crop_mel ->
  (forall w k s, Tensor.shape w = [k] -> get_spec w params = Ok s ->
                 Tensor.shape s = [1%nat; mels; Datatypes.S (k / hop)]) ->
  Forall (fun ex =>
            exists idx f1 f2 x1 x2 n,
              NumpyDataset.filenames self !! idx = Some (f1, f2) /\
              torchaudio_load f1 = Ok (x1, sample_rate params) /\
              torchaudio_load f2 = Ok (x2, sample_rate params) /\
              Tensor.shape x1 = [1%nat; n] /\
              Tensor.shape x2 = [1%nat; n] /\
              Ok (as_record ex) ∈ outcomes (NumpyDataset.__getitem__ self idx)) exs ->
  (kept = [] /\ result = Ok None)
  \/ (kept ≠ [] /\
      exists a x c : Tensor.t,
        result = Ok (Some (batch_record a x c)) /\
        Tensor.shape a = [length kept; (crop_len + hop)%nat] /\
        Tensor.shape x = [length kept; mels; Z.to_nat crop_mel] /\
        Tensor.shape c = [length kept; (crop_len + hop)%nat]).
Proof.
  intros params hop crop_mel crop_len kept result Hhop Hcrop Hframes Hexs.
  assert (forall ex, ex ∈ exs ->
            scalar_spectrogram ex = false /\
            forall e, survivor crop_mel ex = Some e ->
              Tensor.shape e.1.1 = [(crop_len + hop)%nat] /\
              Tensor.shape e.1.2 = [Z.to_nat crop_mel; mels] /\
              Tensor.shape e.2 = [(crop_len + hop)%nat]) as Hall.
  { intros ex Hex. rewrite Forall_forall in Hexs.
    destruct (Hexs ex Hex) as (idx & f1 & f2 & x1 & x2 & n & Hidx & Hl1 & Hl2 & Hs1 & Hs2
                               & Hin).
    destruct (getitem_packed self idx f1 f2 x1 x2 n (as_record ex) Hidx Hl1 Hl2 Hs1 Hs2 Hin)
      as (w1 & w2 & m & Hw1 & Hw2 & Hpack & Hfit & Hshort).
    fold params crop_mel hop in Hfit, Hshort, Hpack.
    apply (packed_survivor params crop_mel mels n w1 w2 m ex Hhop Hcrop Hframes Hw1 Hw2
             Hpack).
    destruct (Z.le_gt_cases ((crop_mel - 1) * Z.of_nat hop) (Z.of_nat n)) as [Hle|Hgt].
    - left. apply Hfit. split; [|done]. apply Z.mul_nonneg_nonneg; lia.
    - right. rewrite (Hshort Hgt). exact Hgt. }
  assert (existsb scalar_spectrogram exs = false) as Hscalar.
  { destruct (existsb scalar_spectrogram exs) eqn:Hex; [|done].
    apply existsb_exists in Hex as (ex & Hex & Hs). apply list_elem_of_In in Hex.
    destruct (Hall ex Hex) as [Hns _]. congruence. }
  assert (forall e, e ∈ kept ->
            Tensor.shape e.1.1 = [(crop_len + hop)%nat] /\
            Tensor.shape e.1.2 = [Z.to_nat crop_mel; mels] /\
            Tensor.shape e.2 = [(crop_len + hop)%nat]) as Hkept.
  { intros e He. apply list_elem_of_omap in He as (ex & Hex & Hsurv).
    by apply (Hall ex Hex). }
  unfold result. rewrite collate_examples. simpl Collator.crop_mel. simpl Collator.params.
  fold params crop_mel kept. rewrite Hscalar.
  destruct kept as [|e0 rest] eqn:Hk.
  - left. split; [done|]. by rewrite (proj1 (survivors_nil crop_mel exs) Hk).
  - right. split; [done|].
    assert (forallb (excluded crop_mel) exs = false) as ->.
    { destruct (forallb (excluded crop_mel) exs) eqn:Hf; [|done].
      apply survivors_nil in Hf. fold kept in Hf. congruence. }
    destruct (stack_fixed_shape (fun e => e.1.1) (e0 :: rest) [(crop_len + hop)%nat])
      as (a & -> & Has); [done|by intros e He; apply Hkept|].
    destruct (stack_fixed_shape (fun e => e.2) (e0 :: rest) [(crop_len + hop)%nat])
      as (c & -> & Hcs); [done|by intros e He; apply Hkept|].
    destruct (stack_fixed_shape (fun e => Tensor.T e.1.2) (e0 :: rest)
                [mels; Z.to_nat crop_mel]) as (x & -> & Hxs); [done| |].
    { intros e He. simpl. by rewrite (proj1 (proj2 (Hkept e He))). }
    exists a, x, c. by repeat split.
Qed.

End StackingBatches.

(** The first outcome of the access to the pair [a], cropped at offset 0,
    and the only outcome of the access to the short pair [c]. *)
Lemma cropped_batches_stack_witness :
  exists a x c : Tensor.t,
    Collator.collate demo_collator
      (map as_record
         [packed_example (Tensor.window (prepared (ramp 1 10)) 10 [] 0 8)
            (Tensor.window (prepared (ramp 101 10)) 10 [] 0 8);
          packed_example (prepared (ramp 1 5))
            (prepared (ramp 101 5))])
    = Ok (Some (batch_record a x c)) /\
    Tensor.shape a = [1%nat; 12%nat] /\
    Tensor.shape x = [1%nat; 2%nat; 3%nat] /\
    Tensor.shape c = [1%nat; 12%nat].
Proof.
  destruct (cropped_batches_stack (S := Q_samples) (TA := demo_audio)
              (PP := demo_preprocess) demo_dataset true 2
              [packed_example (Tensor.window (prepared (ramp 1 10)) 10 [] 0 8)
                 (Tensor.window (prepared (ramp 101 10)) 10 [] 0 8);
               packed_example (prepared (ramp 1 5))
                 (prepared (ramp 101 5))])
    as [[Hnone _]|(_ & a & x & c & Hres & Ha & Hx & Hc)].
  - change (0 < 4)%nat. lia.
  - change (1 <= 3). lia.
  - intros w k s Hw. simpl. rewrite Hw.
    destruct (k <? 6)%nat; [discriminate|]. by intros [= <-].
  - constructor; [|constructor; [|constructor]].
    + exists 0%nat, "a.0.wav", "a.3.wav", (ramp 1 10), (ramp 101 10), 10%nat.
      repeat split. by apply (list_elem_of_lookup_2 _ 0%nat).
    + exists 2%nat, "c.0.wav", "c.3.wav", (ramp 1 5), (ramp 101 5), 5%nat.
      repeat split. by apply (list_elem_of_lookup_2 _ 0%nat).
  - discriminate Hnone.
  - exists a, x, c. split; [exact Hres|]. repeat split; assumption.
Defined.

(** ** Properties of the Pipeline Factory *)

Section FactoryProps.
Context `{FS : FileSystem}.

(** The dataset that was built keeps the parameters, the override and the
    training flag it was given. *)
Lemma init_fields (paths : list string) (files : option (list string))
  (params : Params) (crop_mel : option Z) (is_training : bool) (self : NumpyDataset.t) :
  NumpyDataset.__init__ paths files params crop_mel is_training = Ok self ->
  NumpyDataset.params self = params /\
  NumpyDataset.crop_mel self = crop_mel /\
  NumpyDataset.is_training self = is_training.
Proof.
  intros Hinit. destruct (NumpyDataset.no_files files) eqn:Hmode.
  - rewrite init_scanned in Hinit by done. by injection Hinit as <-.
  - destruct files as [[|f more]|]; try discriminate.
    rewrite init_listed in Hinit.
    destruct (length (f :: more) =? length paths)%nat; [|discriminate].
    destruct (read_all (f :: more)); [|discriminate]. by injection Hinit as <-.
Qed.

(** X15. A loader built by either factory pairs a dataset and a collator
    that hold the same parameters and the same crop override, none for
    training and the given one at a batch size of 1 for validation, so that
    the transform crops to the length the collator filters by; and it never
    asks for shuffling together with a sampler.  A dataset that cannot be
    built makes the factory raise what the construction raised. *)
Theorem factories_pair_dataset_and_collator (data_dirs : list string)
  (files : option (list string)) (params : Params) (batch_size num_workers : Z)
  (override : option Z) (is_distributed : bool) :
  (forall printed loader,
     from_path data_dirs files params batch_size num_workers is_distributed
     = Ok (printed, loader) ->
     let dataset := DataLoader.dataset loader in
     DataLoader.collate_fn loader
     = Collator.mk (NumpyDataset.params dataset) true (NumpyDataset.crop_mel dataset) /\
     NumpyDataset.params dataset = params /\
     NumpyDataset.crop_mel dataset = None /\
     DataLoader.batch_size loader = batch_size /\
     DataLoader.drop_last loader = true /\
     (DataLoader.shuffle loader = true <-> DataLoader.sampler loader = None) /\
     printed = Str.of_int (Z.of_nat (length (NumpyDataset.filenames dataset)))
               +:+ " files for training") /\
  (forall loader,
     from_path_valid data_dirs files params num_workers override is_distributed
     = Ok loader ->
     let dataset := DataLoader.dataset loader in
     DataLoader.collate_fn loader
     = Collator.mk (NumpyDataset.params dataset) false (NumpyDataset.crop_mel dataset) /\
     NumpyDataset.params dataset = params /\
     NumpyDataset.crop_mel dataset = override /\
     DataLoader.batch_size loader = 1 /\
     DataLoader.drop_last loader = false /\
     DataLoader.shuffle loader = false) /\
  (forall e,
     NumpyDataset.__init__ data_dirs files params None true = Raise e ->
     from_path data_dirs files params batch_size num_workers is_distributed = Raise e) /\
  (forall e,
     NumpyDataset.__init__ data_dirs files params override false = Raise e ->
     from_path_valid data_dirs files params num_workers override is_distributed = Raise e).
Proof.
  split; [|split; [|split]].
  - intros printed loader. unfold from_path.
    destruct (NumpyDataset.__init__ _ _ _ _ _) as [self|e] eqn:Hinit; [|discriminate].
    apply init_fields in Hinit as (Hp & Hc & _).
    simpl. intros [= <- <-]. simpl. rewrite Hp, Hc.
    repeat split; try done; by destruct is_distributed.
  - intros loader. unfold from_path_valid.
    destruct (NumpyDataset.__init__ _ _ _ _ _) as [self|e] eqn:Hinit; [|discriminate].
    apply init_fields in Hinit as (Hp & Hc & _).
    simpl. intros [= <-]. simpl. by rewrite Hp, Hc.
  - intros e He. unfold from_path. by rewrite He.
  - intros e He. unfold from_path_valid. by rewrite He.
Qed.

End FactoryProps.

(** The loaders over the scan of [data], and a validation loader asked for
    with two directories and one list file. *)
Lemma factories_pair_dataset_and_collator_witness :
  (exists loader,
     from_path ["data"] None demo_params 8 2 true = Ok ("6 files for training", loader) /\
     DataLoader.collate_fn loader = Collator.mk demo_params true None /\
     DataLoader.shuffle loader = false /\
     DataLoader.sampler loader ≠ None) /\
  (exists loader,
     from_path_valid ["data"] None demo_params 2 (Some 5) false = Ok loader /\
     DataLoader.collate_fn loader = Collator.mk demo_params false (Some 5) /\
     NumpyDataset.crop_mel (DataLoader.dataset loader) = Some 5 /\
     DataLoader.batch_size loader = 1) /\
  from_path_valid ["a"; "b"] (Some ["train.txt"]) demo_params 2 None false
  = Raise AssertionError.
Proof.
  destruct (factories_pair_dataset_and_collator (FS := demo_fs) ["data"] None demo_params
              8 2 (Some 5) true) as (Htrain & _ & _ & _).
  destruct (factories_pair_dataset_and_collator (FS := demo_fs) ["data"] None demo_params
              8 2 (Some 5) false) as (_ & Hvalid & _ & _).
  destruct (factories_pair_dataset_and_collator (FS := demo_fs) ["a"; "b"]
              (Some ["train.txt"]) demo_params 8 2 None false) as (_ & _ & _ & Hraise).
  split; [|split].
  - assert (exists loader,
              from_path ["data"] None demo_params 8 2 true
              = Ok ("6 files for training", loader)) as [loader Hl]
      by (eexists; reflexivity).
    destruct (Htrain _ loader Hl) as (Hcollate & Hp & Hc & _ & _ & Hshuffle & _).
    exists loader. split; [exact Hl|]. rewrite Hcollate, Hp, Hc. split; [reflexivity|].
    injection Hl as <-. split; [reflexivity|discriminate].
  - assert (exists loader,
              from_path_valid ["data"] None demo_params 2 (Some 5) false = Ok loader)
      as [loader Hl] by (eexists; reflexivity).
    destruct (Hvalid loader Hl) as (Hcollate & Hp & Hc & Hb & _).
    exists loader. split; [exact Hl|]. rewrite Hcollate, Hp, Hc. by repeat split.
  - apply Hraise. reflexivity.
Defined.

(** ** Properties of the launcher *)

Section Launcher.
Context `{RT : Main.Runtime}.

Lemma perform_bind {A : Type} (c : Main.call) (f : Z -> Main.IO A) :
  Main.perform c ≫= f
  = match Main.answer c with
    | Ok z => Main.mkIO (c :: Main.trace (f z)) (Main.result (f z))
    | Raise e => Main.mkIO [c] (Raise e)
    end.
Proof.
  unfold mbind, Main.IO_bind, Main.perform. simpl. by destruct (Main.answer c).
Qed.

End Launcher.

Section LauncherRuns.
Context `{RT : Main.Runtime}.

(** The runs of the launcher: it stops at a call of the preamble that
    raises, or trains on one device, or rejects the batch size, or fails to
    find a port, or spawns one process per device. *)
Lemma main_cases (model_dir : string) (batch_size : Z) :
  let run := Main.main model_dir batch_size in
  (exists (k : nat) (e : exn),
     (k < 4)%nat /\ Main.trace run = take (Datatypes.S k) (preamble model_dir) /\
     Main.result run = Raise e)
  \/ (exists r,
        Main.answer Main.DeviceCount = Ok r /\ r <= 1 /\
        Main.trace run = preamble model_dir ++ [Main.Train batch_size] /\
        Main.result run = (Main.answer (Main.Train batch_size) ≫= fun _ => Ok batch_size))
  \/ (exists r,
        Main.answer Main.DeviceCount = Ok r /\ 1 < r /\ batch_size mod r ≠ 0 /\
        Main.trace run = preamble model_dir /\
        Main.result run = Raise (ValueError (Main.not_divisible batch_size r)))
  \/ (exists r e,
        Main.answer Main.DeviceCount = Ok r /\ 1 < r /\ batch_size mod r = 0 /\
        Main.answer Main.GetFreePort = Raise e /\
        Main.trace run = preamble model_dir ++ [Main.GetFreePort] /\
        Main.result run = Raise e)
  \/ (exists r port,
        Main.answer Main.DeviceCount = Ok r /\ 1 < r /\ batch_size mod r = 0 /\
        Main.answer Main.GetFreePort = Ok port /\
        Main.trace run
        = preamble model_dir ++ [Main.GetFreePort; Main.Spawn r port (batch_size / r)] /\
        Main.result run
        = (Main.answer (Main.Spawn r port (batch_size / r))
           ≫= fun _ => Ok (batch_size / r))).
Proof.
  intros run. unfold run, Main.main, preamble.
  rewrite perform_bind. destruct (Main.answer (Main.Print _)) as [?|e1].
  2:{ left. exists 0%nat, e1. repeat split. lia. }
  rewrite perform_bind. destruct (Main.answer (Main.Makedirs _)) as [?|e2].
  2:{ left. exists 1%nat, e2. repeat split. lia. }
  rewrite perform_bind. destruct (Main.answer (Main.Copy _ _)) as [?|e3].
  2:{ left. exists 2%nat, e3. repeat split. lia. }
  rewrite perform_bind. destruct (Main.answer Main.DeviceCount) as [r|e4] eqn:Hr.
  2:{ left. exists 3%nat, e4. repeat split. lia. }
  right. destruct (Z.ltb_spec 1 r) as [Hmulti|Hsingle].
  - right. destruct (Z.eqb_spec (batch_size mod r) 0) as [Hdiv|Hndiv]; simpl negb; cbv iota.
    + right. rewrite perform_bind.
      destruct (Main.answer Main.GetFreePort) as [port|e5] eqn:Hport.
      * right. exists r, port. rewrite perform_bind.
        destruct (Main.answer (Main.Spawn r port (batch_size / r))); by repeat split.
      * left. exists r, e5. by repeat split.
    + left. exists r. by repeat split.
  - left. exists r. rewrite perform_bind.
    destruct (Main.answer (Main.Train batch_size)); by repeat split.
Qed.

Lemma not_in_preamble (model_dir : string) (k : nat) (c : Main.call) :
  c ∈ take k (preamble model_dir) ->
  (forall b, c ≠ Main.Train b) /\ (forall n p b, c ≠ Main.Spawn n p b)
  /\ c ≠ Main.GetFreePort.
Proof.
  intros Hin. apply elem_of_take in Hin as (i & Hi & _).
  unfold preamble in Hi.
  destruct i as [|[|[|[|i]]]]; simpl in Hi; simplify_eq; by repeat split.
Qed.

(** X16. Whenever the launcher spawns training processes, there is more
    than one device, one process per device is asked for, and each process
    gets a batch size whose product with the number of processes is exactly
    the configured batch size; the hyperparameter file was copied into the
    model directory before, and the spawn is the last thing the launcher
    does. *)
Theorem spawn_splits_batch (model_dir : string) (batch_size nprocs port per_process : Z) :
  Main.Spawn nprocs port per_process ∈ Main.trace (Main.main model_dir batch_size) ->
  1 < nprocs /\
  Main.answer Main.DeviceCount = Ok nprocs /\
  per_process * nprocs = batch_size /\
  Main.trace (Main.main model_dir batch_size)
  = [Main.Print "Dumping hyperparameter file..."; Main.Makedirs model_dir;
     Main.Copy "params.py" (Str.path_join model_dir "params_saved.py");
     Main.DeviceCount; Main.GetFreePort; Main.Spawn nprocs port per_process].
Proof.
  intros Hin.
  destruct (main_cases model_dir batch_size)
    as [(k & e & _ & Ht & _)|[(r & _ & _ & Ht & _)|[(r & _ & _ & _ & Ht & _)
       |[(r & e & _ & _ & _ & _ & Ht & _)|(r & p & Hr & Hmulti & Hdiv & _ & Ht & _)]]]];
    rewrite Ht in Hin.
  - apply not_in_preamble in Hin as (_ & Hns & _). by destruct (Hns nprocs port per_process).
  - apply elem_of_app in Hin as [Hin|Hin].
    + apply (not_in_preamble model_dir 4) in Hin as (_ & Hns & _).
      by destruct (Hns nprocs port per_process).
    + apply list_elem_of_singleton in Hin. discriminate.
  - apply (not_in_preamble model_dir 4) in Hin as (_ & Hns & _).
    by destruct (Hns nprocs port per_process).
  - apply elem_of_app in Hin as [Hin|Hin].
    + apply (not_in_preamble model_dir 4) in Hin as (_ & Hns & _).
      by destruct (Hns nprocs port per_process).
    + apply list_elem_of_singleton in Hin. discriminate.
  - apply elem_of_app in Hin as [Hin|Hin].
    + apply (not_in_preamble model_dir 4) in Hin as (_ & Hns & _).
      by destruct (Hns nprocs port per_process).
    + apply elem_of_cons in Hin as [Hin|Hin]; [discriminate|].
      apply list_elem_of_singleton in Hin. injection Hin as -> -> ->.
      split; [done|]. split; [done|]. split; [|exact Ht].
      apply Z.div_exact in Hdiv; lia.
Qed.

(** X17. On more than one device, a batch size that the number of devices
    does not divide makes the launcher raise [ValueError], naming both
    numbers, after the hyperparameter file was copied and before a port is
    taken or anything is trained. *)
Theorem indivisible_batch_rejected (model_dir : string) (batch_size devices : Z)
  (z1 z2 z3 : Z) :
  Main.answer (Main.Print "Dumping hyperparameter file...") = Ok z1 ->
  Main.answer (Main.Makedirs model_dir) = Ok z2 ->
  Main.answer (Main.Copy "params.py" (Str.path_join model_dir "params_saved.py")) = Ok z3 ->
  Main.answer Main.DeviceCount = Ok devices ->
  1 < devices ->
  batch_size mod devices ≠ 0 ->
  Main.result (Main.main model_dir batch_size)
  = Raise (ValueError ("Batch size " +:+ Str.of_int batch_size
                       +:+ " is not evenly divisble by # GPUs "
                       +:+ Str.of_int devices +:+ ".")) /\
  Main.trace (Main.main model_dir batch_size)
  = [Main.Print "Dumping hyperparameter file..."; Main.Makedirs model_dir;
     Main.Copy "params.py" (Str.path_join model_dir "params_saved.py");
     Main.DeviceCount].
Proof.
  intros H1 H2 H3 H4 Hmulti Hndiv. unfold Main.main.
  rewrite perform_bind, H1. rewrite perform_bind, H2.
  rewrite perform_bind, H3. rewrite perform_bind, H4.
  rewrite (proj2 (Z.ltb_lt _ _) Hmulti), (proj2 (Z.eqb_neq _ _) Hndiv).
  by split.
Qed.

(** X18. Whenever the launcher calls the single-process trainer, there is
    at most one device, the batch size it trains with is the configured one,
    unchanged, the hyperparameter file was copied before, and nothing is
    spawned. *)
Theorem train_keeps_batch (model_dir : string) (batch_size trained : Z) :
  Main.Train trained ∈ Main.trace (Main.main model_dir batch_size) ->
  trained = batch_size /\
  (exists devices, Main.answer Main.DeviceCount = Ok devices /\ devices <= 1) /\
  Main.trace (Main.main model_dir batch_size)
  = [Main.Print "Dumping hyperparameter file..."; Main.Makedirs model_dir;
     Main.Copy "params.py" (Str.path_join model_dir "params_saved.py");
     Main.DeviceCount; Main.Train batch_size].
Proof.
  intros Hin.
  destruct (main_cases model_dir batch_size)
    as [(k & e & _ & Ht & _)|[(r & Hr & Hsingle & Ht & _)|[(r & _ & _ & _ & Ht & _)
       |[(r & e & _ & _ & _ & _ & Ht & _)|(r & p & _ & _ & _ & _ & Ht & _)]]]];
    rewrite Ht in Hin.
  - apply not_in_preamble in Hin as (Hnt & _). by destruct (Hnt trained).
  - apply elem_of_app in Hin as [Hin|Hin].
    + apply (not_in_preamble model_dir 4) in Hin as (Hnt & _). by destruct (Hnt trained).
    + apply list_elem_of_singleton in Hin. injection Hin as ->.
      split; [done|]. split; [by exists r|exact Ht].
  - apply (not_in_preamble model_dir 4) in Hin as (Hnt & _). by destruct (Hnt trained).
  - apply elem_of_app in Hin as [Hin|Hin].
    + apply (not_in_preamble model_dir 4) in Hin as (Hnt & _). by destruct (Hnt trained).
    + apply list_elem_of_singleton in Hin. discriminate.
  - apply elem_of_app in Hin as [Hin|Hin].
    + apply (not_in_preamble model_dir 4) in Hin as (Hnt & _). by destruct (Hnt trained).
    + apply elem_of_cons in Hin as [Hin|Hin]; [discriminate|].
      apply list_elem_of_singleton in Hin. discriminate.
Qed.

End LauncherRuns.

Lemma spawn_splits_batch_witness :
  Main.Spawn 4 29500 8 ∈ Main.trace (@Main.main (machine 4) "out" 32) /\
  1 < 4 /\
  @Main.answer (machine 4) Main.DeviceCount = Ok 4 /\
  8 * 4 = 32 /\
  Main.trace (@Main.main (machine 4) "out" 32)
  = [Main.Print "Dumping hyperparameter file..."; Main.Makedirs "out";
     Main.Copy "params.py" (Str.path_join "out" "params_saved.py");
     Main.DeviceCount; Main.GetFreePort; Main.Spawn 4 29500 8].
Proof.
  assert (Main.Spawn 4 29500 8 ∈ Main.trace (@Main.main (machine 4) "out" 32)) as Hin.
  { apply list_elem_of_lookup. exists 5%nat. reflexivity. }
  split; [exact Hin|].
  exact (spawn_splits_batch (RT := machine 4) "out" 32 4 29500 8 Hin).
Defined.

Lemma indivisible_batch_rejected_witness :
  Main.result (@Main.main (machine 4) "out" 30)
  = Raise (ValueError ("Batch size " +:+ Str.of_int 30
                       +:+ " is not evenly divisble by # GPUs "
                       +:+ Str.of_int 4 +:+ ".")) /\
  Main.trace (@Main.main (machine 4) "out" 30)
  = [Main.Print "Dumping hyperparameter file..."; Main.Makedirs "out";
     Main.Copy "params.py" (Str.path_join "out" "params_saved.py");
     Main.DeviceCount].
Proof.
  apply (indivisible_batch_rejected (RT := machine 4) "out" 30 4 0 0 0);
    [reflexivity|reflexivity|reflexivity|reflexivity|lia|].
  vm_compute. discriminate.
Defined.

Lemma train_keeps_batch_witness :
  Main.Train 32 ∈ Main.trace (@Main.main (machine 1) "out" 32) /\
  32 = 32 /\
  (exists devices, @Main.answer (machine 1) Main.DeviceCount = Ok devices /\ devices <= 1) /\
  Main.trace (@Main.main (machine 1) "out" 32)
  = [Main.Print "Dumping hyperparameter file..."; Main.Makedirs "out";
     Main.Copy "params.py" (Str.path_join "out" "params_saved.py");
     Main.DeviceCount; Main.Train 32].
Proof.
  assert (Main.Train 32 ∈ Main.trace (@Main.main (machine 1) "out" 32)) as Hin.
  { apply list_elem_of_lookup. exists 4%nat. reflexivity. }
  split; [exact Hin|].
  exact (train_keeps_batch (RT := machine 1) "out" 32 32 Hin).
Defined.

(** ** Decoder failures *)

Section DecodeFailure.
Context `{S : Samples} `{TA : !Torchaudio} `{PP : !Preprocess}.

(** X19. Unlike a failure of the extractor, a failure of the decoder is not
    absorbed: when the first file of the Training Example fails to decode,
    or the first decodes and the second fails, the access has one outcome,
    the decoder's own error, whatever the sample rates and shapes. *)
Theorem decode_failure_propagates (self : NumpyDataset.t) (idx : nat) (f1 f2 : string)
  (e : exn) :
  NumpyDataset.filenames self !! idx = Some (f1, f2) ->
  torchaudio_load f1 = Raise e
  \/ ((exists decoded, torchaudio_load f1 = Ok decoded) /\ torchaudio_load f2 = Raise e) ->
  outcomes (NumpyDataset.__getitem__ self idx) = [Raise e].
Proof.
  intros Hidx Hfail. rewrite (getitem_transform self idx (f1, f2)) by done.
  unfold NumpyDataset.transform, NumpyDataset.load_pair.
  destruct Hfail as [Hl1|[[[x1 sr1] Hl1] Hl2]].
  - rewrite Hl1. reflexivity.
  - rewrite Hl1. simpl. rewrite Hl2. reflexivity.
Qed.

End DecodeFailure.

Lemma decode_failure_propagates_witness :
  outcomes (@NumpyDataset.__getitem__ Q_samples demo_audio demo_preprocess
              (NumpyDataset.mk demo_params true [("a.0.wav", "z.3.wav")] None) 0)
  = [Raise (OSError "z.3.wav")].
Proof.
  apply (decode_failure_propagates (S := Q_samples) (TA := demo_audio)
           (PP := demo_preprocess)
           (NumpyDataset.mk demo_params true [("a.0.wav", "z.3.wav")] None) 0
           "a.0.wav" "z.3.wav" (OSError "z.3.wav") eq_refl).
  right. split; [eexists; reflexivity|reflexivity].
Defined.

(** ** Recordings of no sample *)

Section EmptyRecording.
Context `{S : Samples} `{TA : !Torchaudio} `{PP : !Preprocess}.

(** X20. Two mono recordings of no sample at the configured rate pass the
    sample-rate and shape checks, and the access then raises [RuntimeError]
    at the normalisation of line 76, whose infinity norm is taken along an
    empty dimension: the access has no other outcome, the extractor is not
    reached and no record is returned. *)
Theorem empty_recording_raises (self : NumpyDataset.t) (idx : nat) (f1 f2 : string)
  (x1 x2 : Tensor.t) :
  let params := NumpyDataset.params self in
  NumpyDataset.filenames self !! idx = Some (f1, f2) ->
  torchaudio_load f1 = Ok (x1, sample_rate params) ->
  torchaudio_load f2 = Ok (x2, sample_rate params) ->
  Tensor.shape x1 = [1%nat; 0%nat] ->
  Tensor.shape x2 = [1%nat; 0%nat] ->
  NumpyDataset.load_pair params (f1, f2) = Ok (x1, x2) /\
  outcomes (NumpyDataset.__getitem__ self idx) = [Raise RuntimeError].
Proof.
  intros params Hidx Hl1 Hl2 Hs1 Hs2. split.
  - by apply (load_pair_valid params f1 f2 x1 x2 0).
  - rewrite (getitem_transform self idx (f1, f2)) by done.
    by apply (transform_empty self f1 f2 x1 x2).
Qed.

End EmptyRecording.

Lemma empty_recording_raises_witness :
  @NumpyDataset.load_pair Q_samples silence_audio demo_params ("e.0.wav", "e.3.wav")
  = Ok (silence, silence) /\
  outcomes (@NumpyDataset.__getitem__ Q_samples silence_audio demo_preprocess
              (NumpyDataset.mk demo_params true [("e.0.wav", "e.3.wav")] None) 0)
  = [Raise RuntimeError].
Proof.
  exact (empty_recording_raises (S := Q_samples) (TA := silence_audio)
           (PP := demo_preprocess)
           (NumpyDataset.mk demo_params true [("e.0.wav", "e.3.wav")] None) 0
           "e.0.wav" "e.3.wav" silence silence eq_refl eq_refl eq_refl eq_refl eq_refl).
Defined.
